(** * Anthropic-to-Gemini adapter: a shallow embedding of the translation core

    The worker (src/worker.ts, with the interfaces of src/types.ts)
    translates chat-completion traffic between the Anthropic message
    protocol and an OpenAI-style chat-completion protocol.
    This file embeds its pure core: the model mapper, the validator, the
    request translator, the unary response translator and the stream
    translator, and the transport shell around it: the [fetch] handler, the
    handler of [/v1/messages], the error envelope and the preflight answer;
    and proves properties of them.

    Conventions of the embedding.
    - A JavaScript string is a Rocq [string] holding its UTF-8 text.
    - A JavaScript number is an exact decimal [mantissa * 10 ^ exponent];
      binary64 rounding, NaN and the infinities are outside the model.
    - Values whose TypeScript type is open ([any], parsed JSON) are terms of
      [value]; values with a closed interface in src/types.ts are records with
      an [option] for every optional field.
    - A thrown exception is the right injection of [result]; [console.*]
      calls have no effect on any result and are left out.
    - An awaited promise is what it resolves to or rejects with. The global
      [fetch] is a parameter of the handlers, and the calls made to it are
      returned next to the response. The body of an inbound request is seen
      through the interface [AnthropicRequest]: a body that is JSON but not
      an object (on which reading [model] would throw) is outside the model.
    - The stream translator runs on after the streaming response has been
      returned; the body of that response is given by all the writer
      receives. *)

From Stdlib Require Import String Ascii List ZArith Bool Lia.
From Stdlib Require Import DecimalString.
Import ListNotations.

Set Warnings "-register-all".

Local Open Scope list_scope.
Local Open Scope string_scope.

(** ** Strings: the String.prototype methods the worker calls *)

Module JSString.

Definition code (c : ascii) : N := N_of_ascii c.

Definition chr (n : N) : ascii := ascii_of_N n.

Definition of_codes (l : list N) : string :=
  fold_right (fun n s => String (chr n) s) "" l.

(** The double-quote character and the one-character string holding it. *)
Definition dquote : ascii := chr 34.
Definition DQ : string := String dquote "".

(** The line feed, written ['\n'] in the source. *)
Definition LF : string := String (chr 10) "".

Fixpoint rev_onto (s acc : string) : string :=
  match s with
  | "" => acc
  | String c r => rev_onto r (String c acc)
  end.

Definition rev (s : string) : string := rev_onto s "".

(** [s.startsWith(p)] *)
Definition startsWith (s p : string) : bool := prefix p s.

(** [s.slice(n)] for [0 <= n]. *)
Fixpoint slice (n : nat) (s : string) : string :=
  match n, s with
  | O, _ => s
  | S _, "" => ""
  | S k, String _ r => slice k r
  end.

(** [s.substr(start, len)] for non-negative arguments. *)
Definition substr (start len : nat) (s : string) : string :=
  substring 0 len (slice start s).

(** [s.includes(sub)] *)
Fixpoint includes (s sub : string) : bool :=
  prefix sub s ||
  match s with
  | "" => false
  | String _ r => includes r sub
  end.

Definition lower (c : ascii) : ascii :=
  let n := code c in
  if ((65 <=? n) && (n <=? 90))%N then chr (n + 32) else c.

(** [s.toLowerCase()] on the ASCII letters; bytes of other characters are
    kept (the case mapping of non-ASCII letters is outside the model). *)
Fixpoint toLowerCase (s : string) : string :=
  match s with
  | "" => ""
  | String c r => String (lower c) (toLowerCase r)
  end.

(** White space in the sense of [String.prototype.trim]: the ECMAScript
    WhiteSpace and LineTerminator code points, as UTF-8 byte sequences. *)
Definition ws1 (a : N) : bool :=
  ((9 <=? a) && (a <=? 13) || (a =? 32))%N.

Definition ws2 (a b : N) : bool :=
  ((a =? 194) && (b =? 160))%N.                      (* U+00A0 *)

Definition ws3 (a b c : N) : bool :=
  ((a =? 225) && (b =? 154) && (c =? 128)            (* U+1680 *)
   || (a =? 226) && (b =? 128)
      && ((128 <=? c) && (c <=? 138)                 (* U+2000 - U+200A *)
          || (c =? 168) || (c =? 169) || (c =? 175)) (* U+2028 U+2029 U+202F *)
   || (a =? 226) && (b =? 129) && (c =? 159)         (* U+205F *)
   || (a =? 227) && (b =? 128) && (c =? 128)         (* U+3000 *)
   || (a =? 239) && (b =? 187) && (c =? 191))%N.     (* U+FEFF *)


(** [s.trimStart()] *)
Fixpoint trimStart (s : string) : string :=
  match s with
  | "" => ""
  | String c1 r1 =>
      if ws1 (code c1) then trimStart r1 else
      match r1 with
      | "" => s
      | String c2 r2 =>
          if ws2 (code c1) (code c2) then trimStart r2 else
          match r2 with
          | "" => s
          | String c3 r3 =>
              if ws3 (code c1) (code c2) (code c3) then trimStart r3 else s
          end
      end
  end.

(** [trimStart] on the reversed text: a character's bytes come last-first. *)
Fixpoint trimStart_rev (s : string) : string :=
  match s with
  | "" => ""
  | String c1 r1 =>
      if ws1 (code c1) then trimStart_rev r1 else
      match r1 with
      | "" => s
      | String c2 r2 =>
          if ws2 (code c2) (code c1) then trimStart_rev r2 else
          match r2 with
          | "" => s
          | String c3 r3 =>
              if ws3 (code c3) (code c2) (code c1) then trimStart_rev r3 else s
          end
      end
  end.

(** [s.trimEnd()] *)
Definition trimEnd (s : string) : string := rev (trimStart_rev (rev s)).

(** [s.trim()] *)
Definition trim (s : string) : string := trimEnd (trimStart s).

(** [parts.join(sep)] on an array of strings. *)
Definition join (sep : string) (parts : list string) : string :=
  String.concat sep parts.

(** [s.split('\n')]: never empty; the last element is the text after the
    last line feed. *)
Fixpoint split_lines (s : string) : list string :=
  match s with
  | "" => [""]
  | String c r =>
      if (code c =? 10)%N then "" :: split_lines r
      else match split_lines r with
           | [] => [String c ""]
           | h :: t => String c h :: t
           end
  end.

(** A string is falsy exactly when it is empty. *)
Definition nonempty (s : string) : bool :=
  match s with "" => false | _ => true end.

(** Test data is written with apostrophes where the JSON text has double
    quotes; [js] puts the double quotes back. *)
Fixpoint js (s : string) : string :=
  match s with
  | "" => ""
  | String c r => String (if (code c =? 39)%N then dquote else c) (js r)
  end.

End JSString.

Import JSString.

(** ** Numbers *)

Record number : Set := Num { mantissa : Z; exponent : Z }.

Module Number.

Definition of_Z (z : Z) : number := Num z 0.

(** [0], [-0], [0.0], ... are the falsy numbers. *)
Definition is_zero (n : number) : bool := (mantissa n =? 0)%Z.

(** [n > 0] *)
Definition positive (n : number) : bool := (0 <? mantissa n)%Z.

Definition digits_of (n : N) : string :=
  NilZero.string_of_uint (N.to_uint n).

Fixpoint zeros (k : nat) : string :=
  match k with O => "" | S k' => String "0" (zeros k') end.

(** Leading zeros of a reversed digit string: how many, and what is left. *)
Fixpoint strip_zeros (s : string) : nat * string :=
  match s with
  | String c r =>
      if (code c =? 48)%N
      then let '(k, t) := strip_zeros r in (S k, t)
      else (O, s)
  | "" => (O, "")
  end.

(** Number::toString (ECMA-262, radix 10) on the exact decimal: with [k]
    significant digits [ds] and the value [0.ds * 10 ^ n]. *)
Definition toString (x : number) : string :=
  let m := mantissa x in
  if (m =? 0)%Z then "0" else
  let sign := if (m <? 0)%Z then "-" else "" in
  let '(z, rds) := strip_zeros (rev (digits_of (Z.to_N (Z.abs m)))) in
  let ds := rev rds in
  let k := Z.of_nat (String.length ds) in
  let n := (k + Z.of_nat z + exponent x)%Z in
  sign ++
  (if ((k <=? n) && (n <=? 21))%Z then
     ds ++ zeros (Z.to_nat (n - k))
   else if ((0 <? n) && (n <=? 21))%Z then
     String.substring 0 (Z.to_nat n) ds ++ "." ++ slice (Z.to_nat n) ds
   else if ((-6 <? n) && (n <=? 0))%Z then
     "0." ++ zeros (Z.to_nat (- n)) ++ ds
   else
     let e := (n - 1)%Z in
     let es := (if (e <? 0)%Z then "-" else "+") ++ digits_of (Z.to_N (Z.abs e)) in
     match ds with
     | String d "" => String d "" ++ "e" ++ es
     | String d r => String d "" ++ "." ++ r ++ "e" ++ es
     | "" => "0"
     end).

End Number.

(** ** Dynamic values and exceptions *)

Inductive value : Type :=
| VUndefined
| VNull
| VBool (b : bool)
| VNum (n : number)
| VStr (s : string)
| VArr (elems : list value)
| VObj (props : list (string * value)).

Inductive exn : Type :=
| SyntaxError (message : string)
| TypeError (message : string)
| Error (message : string).

(** [error.message]; every exception of the model is an [Error] instance. *)
Definition exn_message (e : exn) : string :=
  match e with
  | SyntaxError m | TypeError m | Error m => m
  end.

(** The outcome of an expression that may throw. *)
Definition result (A : Type) : Type := A + exn.

Definition ret {A} (a : A) : result A := inl a.
Definition throw {A} (e : exn) : result A := inr e.

Definition bind {A B} (m : result A) (k : A -> result B) : result B :=
  match m with
  | inl a => k a
  | inr e => inr e
  end.

Notation "x <- m ;; k" := (bind m (fun x => k))
  (at level 61, m at next level, right associativity).

Module JS.

(** ToBoolean *)
Definition truthy (v : value) : bool :=
  match v with
  | VUndefined | VNull => false
  | VBool b => b
  | VNum n => negb (Number.is_zero n)
  | VStr s => nonempty s
  | VArr _ | VObj _ => true
  end.

Fixpoint assoc (k : string) (ps : list (string * value)) : option value :=
  match ps with
  | [] => None
  | (k', v) :: r => if String.eqb k k' then Some v else assoc k r
  end.

Definition or_undefined (o : option value) : value :=
  match o with Some v => v | None => VUndefined end.

(** V8's message for a property read on [undefined] or [null]. *)
Definition cannot_read (base key : string) : exn :=
  TypeError ("Cannot read properties of " ++ base ++ " (reading '" ++ key ++ "')").

(** [v.key] for the property names the worker reads off parsed JSON
    ([choices], [delta], [content], [tool_calls], [function], [arguments],
    [finish_reason]): none of them is defined on a built-in prototype, so
    the read finds an own property or [undefined]. Reading a property of
    [undefined] or [null] throws. *)
Definition get (v : value) (key : string) : result value :=
  match v with
  | VUndefined => throw (cannot_read "undefined" key)
  | VNull => throw (cannot_read "null" key)
  | VObj ps => ret (or_undefined (assoc key ps))
  | _ => ret VUndefined
  end.

(** [v?.key] *)
Definition get_opt (v : value) (key : string) : result value :=
  match v with
  | VUndefined | VNull => ret VUndefined
  | _ => get v key
  end.

(** [v[0]]: the first element of an array, the first character of a
    string (its first byte here), the property [0] of an object. *)
Definition first (v : value) : result value :=
  match v with
  | VUndefined => throw (cannot_read "undefined" "0")
  | VNull => throw (cannot_read "null" "0")
  | VArr l => ret (hd VUndefined l)
  | VStr (String c _) => ret (VStr (String c ""))
  | VObj ps => ret (or_undefined (assoc "0" ps))
  | _ => ret VUndefined
  end.

(** [v?.[0]] *)
Definition first_opt (v : value) : result value :=
  match v with
  | VUndefined | VNull => ret VUndefined
  | _ => first v
  end.

(** [v.length] *)
Definition length (v : value) : result value :=
  match v with
  | VUndefined => throw (cannot_read "undefined" "length")
  | VNull => throw (cannot_read "null" "length")
  | VArr l => ret (VNum (Number.of_Z (Z.of_nat (List.length l))))
  | VStr s => ret (VNum (Number.of_Z (Z.of_nat (String.length s))))
  | VObj ps => ret (or_undefined (assoc "length" ps))
  | _ => ret VUndefined
  end.

(** [v > 0] where [v] is a number, a boolean, [null] or [undefined]
    (ToNumber of a string, an array or an object is outside the model and
    taken not to be positive). *)
Definition gt0 (v : value) : bool :=
  match v with
  | VNum n => Number.positive n
  | VBool b => b
  | _ => false
  end.

End JS.

(** ** JSON.stringify and JSON.parse *)

Module JSON.

Definition hex_digit (n : N) : ascii :=
  if (n <? 10)%N then chr (48 + n) else chr (87 + n).

(** One character of QuoteJSONString. *)
Definition escape (c : ascii) : string :=
  let n := code c in
  if (n =? 34)%N then String "\" DQ
  else if (n =? 92)%N then "\\"
  else if (n =? 8)%N then "\b"
  else if (n =? 12)%N then "\f"
  else if (n =? 10)%N then "\n"
  else if (n =? 13)%N then "\r"
  else if (n =? 9)%N then "\t"
  else if (n <? 32)%N then
    "\u00" ++ String (hex_digit (n / 16)) (String (hex_digit (n mod 16)) "")
  else String c "".

Fixpoint escape_all (s : string) : string :=
  match s with
  | "" => ""
  | String c r => escape c ++ escape_all r
  end.

Definition quote (s : string) : string := DQ ++ escape_all s ++ DQ.

(** [JSON.stringify(v)]: [None] is the result [undefined]. An undefined
    array element is written [null] and an undefined property is left out.
    Properties are written in the order of [props]. *)
Fixpoint stringify (v : value) : option string :=
  match v with
  | VUndefined => None
  | VNull => Some "null"
  | VBool b => Some (if b then "true" else "false")
  | VNum n => Some (Number.toString n)
  | VStr s => Some (quote s)
  | VArr l =>
      Some ("[" ++ join ","
              (map (fun x => match stringify x with
                             | Some t => t
                             | None => "null"
                             end) l) ++ "]")
  | VObj ps =>
      Some ("{" ++ join ","
              (flat_map (fun p => match stringify (snd p) with
                                  | Some t => [quote (fst p) ++ ":" ++ t]
                                  | None => []
                                  end) ps) ++ "}")
  end.

(** What a template literal makes of [JSON.stringify(v)]. *)
Definition stringify_text (v : value) : string :=
  match stringify v with
  | Some t => t
  | None => "undefined"
  end.

(** *** The parser *)

Definition is_ws (c : ascii) : bool :=
  let n := code c in ((n =? 32) || (n =? 9) || (n =? 10) || (n =? 13))%N.

Fixpoint skip_ws (s : string) : string :=
  match s with
  | String c r => if is_ws c then skip_ws r else s
  | "" => ""
  end.

Definition is_digit (c : ascii) : bool :=
  let n := code c in ((48 <=? n) && (n <=? 57))%N.

(** The leading digits of [s] and what follows them. *)
Fixpoint take_digits (s : string) : string * string :=
  match s with
  | String c r =>
      if is_digit c
      then let '(d, t) := take_digits r in (String c d, t)
      else ("", s)
  | "" => ("", "")
  end.

Fixpoint Z_of_digits (s : string) (acc : Z) : Z :=
  match s with
  | "" => acc
  | String c r => Z_of_digits r (10 * acc + Z.of_N (code c - 48))
  end.

Definition hex_value (c : ascii) : option N :=
  let n := code c in
  if ((48 <=? n) && (n <=? 57))%N then Some (n - 48)%N
  else if ((65 <=? n) && (n <=? 70))%N then Some (n - 55)%N
  else if ((97 <=? n) && (n <=? 102))%N then Some (n - 87)%N
  else None.

(** The four hexadecimal digits of a [\u] escape. *)
Definition hex4 (s : string) : option (N * string) :=
  match s with
  | String a (String b (String c (String d r))) =>
      match hex_value a, hex_value b, hex_value c, hex_value d with
      | Some x, Some y, Some z, Some w =>
          Some (((x * 16 + y) * 16 + z) * 16 + w, r)%N
      | _, _, _, _ => None
      end
  | _ => None
  end.

(** The UTF-8 bytes of a code point. *)
Definition utf8 (n : N) : string :=
  (if n <? 128 then of_codes [n]
   else if n <? 2048 then of_codes [192 + n / 64; 128 + n mod 64]
   else if n <? 65536 then
     of_codes [224 + n / 4096; 128 + (n / 64) mod 64; 128 + n mod 64]
   else
     of_codes [240 + n / 262144; 128 + (n / 4096) mod 64;
               128 + (n / 64) mod 64; 128 + n mod 64])%N.

(** The low half of a surrogate pair, when [s] starts with its escape. *)
Definition low_surrogate (s : string) : option (N * string) :=
  match s with
  | String b (String u r) =>
      if ((code b =? 92) && (code u =? 117))%N then
        match hex4 r with
        | Some (lo, r') =>
            if ((56320 <=? lo) && (lo <=? 57343))%N then Some (lo, r') else None
        | None => None
        end
      else None
  | _ => None
  end.

(** The characters of a string literal after its opening quote, up to the
    closing quote; [acc] holds the text read so far, reversed. *)
Fixpoint parse_chars (fuel : nat) (s acc : string) : option (string * string) :=
  match fuel, s with
  | S f, String c r =>
      let n := code c in
      if (n =? 34)%N then Some (rev acc, r)
      else if (n <? 32)%N then None
      else if (n =? 92)%N then
        match r with
        | String e r' =>
            let m := code e in
            let simple (k : N) := parse_chars f r' (String (chr k) acc) in
            if (m =? 34)%N then simple 34%N
            else if (m =? 92)%N then simple 92%N
            else if (m =? 47)%N then simple 47%N
            else if (m =? 98)%N then simple 8%N
            else if (m =? 102)%N then simple 12%N
            else if (m =? 110)%N then simple 10%N
            else if (m =? 114)%N then simple 13%N
            else if (m =? 116)%N then simple 9%N
            else if (m =? 117)%N then
              match hex4 r' with
              | Some (hi, r2) =>
                  match (if ((55296 <=? hi) && (hi <=? 56319))%N
                         then low_surrogate r2 else None) with
                  | Some (lo, r3) =>
                      parse_chars f r3
                        (rev_onto (utf8 (65536 + (hi - 55296) * 1024 + (lo - 56320))%N) acc)
                  | None => parse_chars f r2 (rev_onto (utf8 hi) acc)
                  end
              | None => None
              end
            else None
        | "" => None
        end
      else parse_chars f r (String c acc)
  | _, _ => None
  end.

(** A number literal at the head of [s]. *)
Definition parse_number (s : string) : option (number * string) :=
  let '(neg, s1) :=
    match s with
    | String c r => if (code c =? 45)%N then (true, r) else (false, s)
    | "" => (false, s)
    end in
  let '(int, s2) :=
    match s1 with
    | String c r => if (code c =? 48)%N then ("0", r) else take_digits s1
    | "" => ("", "")
    end in
  if negb (nonempty int) then None else
  let frac :=
    match s2 with
    | String c r =>
        if (code c =? 46)%N
        then let '(d, t) := take_digits r in
             if nonempty d then Some (d, t) else None
        else Some ("", s2)
    | "" => Some ("", "")
    end in
  match frac with
  | None => None
  | Some (fr, s3) =>
      let expo :=
        match s3 with
        | String c r =>
            if ((code c =? 101) || (code c =? 69))%N then
              let '(eneg, r1) :=
                match r with
                | String g t =>
                    if (code g =? 45)%N then (true, t)
                    else if (code g =? 43)%N then (false, t)
                    else (false, r)
                | "" => (false, r)
                end in
              let '(d, t) := take_digits r1 in
              if nonempty d
              then Some (if eneg then (- Z_of_digits d 0)%Z else Z_of_digits d 0, t)
              else None
            else Some (0%Z, s3)
        | "" => Some (0%Z, "")
        end in
      match expo with
      | None => None
      | Some (e, s4) =>
          let m := Z_of_digits (int ++ fr) 0 in
          Some (Num (if neg then (- m)%Z else m)
                    (e - Z.of_nat (String.length fr))%Z, s4)
      end
  end.

(** A repeated name keeps its first place and takes the last value. (The
    engine lists integer-like names first; that reordering is not
    modelled.) *)
Fixpoint set_prop (ps : list (string * value)) (k : string) (v : value)
  : list (string * value) :=
  match ps with
  | [] => [(k, v)]
  | (k', v') :: r =>
      if String.eqb k k' then (k, v) :: r else (k', v') :: set_prop r k v
  end.

Fixpoint parse_value (fuel : nat) (s : string) : option (value * string) :=
  match fuel with
  | O => None
  | S f =>
      match skip_ws s with
      | "" => None
      | String c r as t =>
          let n := code c in
          if (n =? 123)%N then
            match skip_ws r with
            | String d r' =>
                if (code d =? 125)%N then Some (VObj [], r')
                else parse_members f r []
            | "" => None
            end
          else if (n =? 91)%N then
            match skip_ws r with
            | String d r' =>
                if (code d =? 93)%N then Some (VArr [], r')
                else parse_elements f r []
            | "" => None
            end
          else if (n =? 34)%N then
            match parse_chars (String.length r) r "" with
            | Some (str, r') => Some (VStr str, r')
            | None => None
            end
          else if prefix "true" t then Some (VBool true, slice 4 t)
          else if prefix "false" t then Some (VBool false, slice 5 t)
          else if prefix "null" t then Some (VNull, slice 4 t)
          else
            match parse_number t with
            | Some (x, r') => Some (VNum x, r')
            | None => None
            end
      end
  end
with parse_elements (fuel : nat) (s : string) (acc : list value)
  : option (value * string) :=
  match fuel with
  | O => None
  | S f =>
      match parse_value f s with
      | Some (v, r) =>
          match skip_ws r with
          | String d r' =>
              if (code d =? 44)%N then parse_elements f r' (acc ++ [v])%list
              else if (code d =? 93)%N then Some (VArr (acc ++ [v])%list, r')
              else None
          | "" => None
          end
      | None => None
      end
  end
with parse_members (fuel : nat) (s : string) (acc : list (string * value))
  : option (value * string) :=
  match fuel with
  | O => None
  | S f =>
      match skip_ws s with
      | String q r =>
          if (code q =? 34)%N then
            match parse_chars (String.length r) r "" with
            | Some (k, r1) =>
                match skip_ws r1 with
                | String d r2 =>
                    if (code d =? 58)%N then
                      match parse_value f r2 with
                      | Some (v, r3) =>
                          match skip_ws r3 with
                          | String g r4 =>
                              if (code g =? 44)%N
                              then parse_members f r4 (set_prop acc k v)
                              else if (code g =? 125)%N
                              then Some (VObj (set_prop acc k v), r4)
                              else None
                          | "" => None
                          end
                      | None => None
                      end
                    else None
                | "" => None
                end
            | None => None
            end
          else None
      | "" => None
      end
  end.

(** [JSON.parse(text)]: the value, or a thrown SyntaxError. The engine's
    wording of the error message is not part of the model; the message
    here only names the rejected text. *)
Definition parse (text : string) : result value :=
  match parse_value (2 * String.length text + 2) text with
  | Some (v, r) =>
      match skip_ws r with
      | "" => ret v
      | _ => throw (SyntaxError (quote text ++ " is not valid JSON"))
      end
  | None => throw (SyntaxError (quote text ++ " is not valid JSON"))
  end.

End JSON.

(** ** The data model of src/types.ts *)

Module ConversionResult.

Record t (T : Type) : Type :=
  mk { success : bool; data : option T; error : option string }.

Arguments mk {T}.
Arguments success {T}.
Arguments data {T}.
Arguments error {T}.

(** [{ success: true, data: d }] *)
Definition ok {T} (d : T) : t T := mk true (Some d) None.

(** [{ success: true }] *)
Definition ok_void {T} : t T := mk true None None.

(** [{ success: false, error: e }] *)
Definition fail {T} (e : string) : t T := mk false None (Some e).

End ConversionResult.

Module ImageSource.
Record t : Type := mk { type : string; media_type : string; data : string }.
End ImageSource.

(** A content block. [input] ([Record<string, any>]) and [content] (a string
    or nested blocks) are open values, [VUndefined] when absent. *)
Module AnthropicContent.

Record t : Type := mk {
  type : string;
  text : option string;
  source : option ImageSource.t;
  tool_use_id : option string;
  name : option string;
  input : value;
  content : value;
  is_error : option bool
}.

(** [{ type: 'text', text: s }] *)
Definition text_block (s : string) : t :=
  mk "text" (Some s) None None None VUndefined VUndefined None.

(** [{ type: 'tool_use', tool_use_id: id, name: n, input: i }] *)
Definition tool_use_block (id n : string) (i : value) : t :=
  mk "tool_use" None None (Some id) (Some n) i VUndefined None.

(** [{ type: 'tool_result', tool_use_id: id, content: c }] *)
Definition tool_result_block (id : string) (c : value) : t :=
  mk "tool_result" None None (Some id) None VUndefined c None.

(** [{ type: 'image', source: src }] *)
Definition image_block (src : ImageSource.t) : t :=
  mk "image" None (Some src) None None VUndefined VUndefined None.

End AnthropicContent.

Module AnthropicMessage.

(** [string | AnthropicContent[]], and what is neither. *)
Inductive body : Type :=
| PlainText (s : string)
| Blocks (items : list AnthropicContent.t)
| Neither.

Record t : Type := mk { role : option string; content : body }.

End AnthropicMessage.

Module AnthropicTool.
Record t : Type :=
  mk { name : string; description : string; input_schema : value }.
End AnthropicTool.

Module AnthropicToolChoice.

(** ['auto' | 'any' | { type: 'tool'; name: string }], with the strings and
    object types the interface does not list. *)
Inductive t : Type :=
| Str (s : string)
| Obj (type : string) (name : string).

Definition truthy (c : t) : bool :=
  match c with
  | Str s => nonempty s
  | Obj _ _ => true
  end.

End AnthropicToolChoice.

(** A value that is not an array. *)
Inductive non_array : Type :=
| NullValue
| BoolValue (b : bool)
| NumberValue (n : number)
| StringValue (s : string)
| ObjectValue (props : list (string * value)).

Definition non_array_truthy (v : non_array) : bool :=
  match v with
  | NullValue => false
  | BoolValue b => b
  | NumberValue n => negb (Number.is_zero n)
  | StringValue s => nonempty s
  | ObjectValue _ => true
  end.

Module AnthropicRequest.

(** The [messages] field as the validator may find it: absent, holding
    something that is not an array, or an array of messages. *)
Inductive messages_field : Type :=
| Absent
| NotArray (v : non_array)
| Array (msgs : list AnthropicMessage.t).

(** [model] is required by the interface; the validator guards against its
    absence, so the field is optional here. *)
Record t : Type := mk {
  model : option string;
  messages : messages_field;
  max_tokens : option number;
  temperature : option number;
  top_p : option number;
  system : option string;
  tools : option (list AnthropicTool.t);
  tool_choice : option AnthropicToolChoice.t;
  stop_sequences : option (list string);
  stream : option bool
}.

End AnthropicRequest.

Inductive StopReason : Type :=
| end_turn
| max_tokens
| stop_sequence
| tool_use.

Module AnthropicUsage.
Record t : Type := mk { input_tokens : number; output_tokens : number }.
End AnthropicUsage.

Module AnthropicResponse.

Record t : Type := mk {
  id : string;
  type : string;
  role : string;
  content : list AnthropicContent.t;
  model : option string;
  stop_reason : StopReason;
  stop_sequence : option string;
  usage : AnthropicUsage.t
}.

End AnthropicResponse.

Inductive GeminiRole : Type :=
| system
| user
| assistant.

Module GeminiMessage.
Record t : Type := mk { role : GeminiRole; content : string }.
End GeminiMessage.

Module GeminiFunction.
Record t : Type :=
  mk { name : string; description : string; parameters : value }.
End GeminiFunction.

Module GeminiTool.
Record t : Type := mk { type : string; function : GeminiFunction.t }.
End GeminiTool.

Module GeminiFunctionCall.
Record t : Type := mk { name : string; arguments : string }.
End GeminiFunctionCall.

Module GeminiToolCall.
Record t : Type :=
  mk { id : string; type : string; function : GeminiFunctionCall.t }.
End GeminiToolCall.

(** ['none' | 'auto' | { type: 'function'; function: { name: string } }] *)
Inductive GeminiToolChoice : Type :=
| choice_none
| choice_auto
| choice_function (name : string).

(** What [MODEL_MAPPING[key]] can evaluate to when it is truthy: a string of
    the table, or a member that the object literal inherits from
    [Object.prototype] (a function, or the prototype itself for
    [__proto__]). *)
Inductive ModelValue : Type :=
| ModelName (s : string)
| ObjectPrototypeMember (key : string).

Module GeminiRequest.

Record t : Type := mk {
  model : ModelValue;
  messages : list GeminiMessage.t;
  max_tokens : option number;
  temperature : option number;
  top_p : option number;
  tools : option (list GeminiTool.t);
  tool_choice : option GeminiToolChoice;
  stop : option (list string);
  stream : option bool
}.

End GeminiRequest.

Module GeminiChoiceMessage.
Record t : Type := mk {
  role : string;
  content : option string;
  tool_calls : option (list GeminiToolCall.t)
}.
End GeminiChoiceMessage.

(** A choice of a unary response. ([delta], which only stream chunks
    carry, is read off the parsed chunk in the stream translator.) *)
Module GeminiChoice.
Record t : Type := mk {
  index : number;
  message : option GeminiChoiceMessage.t;
  finish_reason : option string
}.
End GeminiChoice.

Module GeminiUsage.
Record t : Type := mk {
  prompt_tokens : number;
  completion_tokens : number;
  total_tokens : number
}.
End GeminiUsage.

Module ApiError.
Record t : Type := mk { type : string; message : string }.
End ApiError.

Module GeminiResponse.

Record t : Type := mk {
  id : string;
  object : string;
  created : number;
  model : string;
  choices : option (list GeminiChoice.t);
  usage : option GeminiUsage.t;
  error : option ApiError.t
}.

End GeminiResponse.

(** What [Date.now()] and [Math.random().toString(36)] return at the one
    place the worker calls them. *)
Record Clock : Type := mkClock { Date_now : Z; Math_random_36 : string }.

(** ** The model mapper *)

Definition MODEL_MAPPING : list (string * string) :=
  [ ("claude-3-sonnet", "google/gemini-2.5-flash");
    ("claude-3-sonnet-20240229", "google/gemini-2.5-flash");
    ("claude-3.5-sonnet", "google/gemini-2.5-flash");
    ("claude-3.5-sonnet-20240620", "google/gemini-2.5-flash");
    ("claude-3.5-sonnet-20241022", "google/gemini-2.5-flash");
    ("claude-3-opus", "google/gemini-2.5-pro");
    ("claude-3-opus-20240229", "google/gemini-2.5-pro");
    ("claude-3-haiku", "google/gemini-2.5-flash-lite");
    ("claude-3-haiku-20240307", "google/gemini-2.5-flash-lite");
    ("claude-4-opus", "google/gemini-2.5-pro");
    ("claude-4-sonnet", "google/gemini-2.5-flash");
    ("claude-4-haiku", "google/gemini-2.5-flash-lite") ].

(** The property names of [Object.prototype]; each holds a truthy value. *)
Definition Object_prototype : list string :=
  [ "constructor"; "__defineGetter__"; "__defineSetter__"; "hasOwnProperty";
    "__lookupGetter__"; "__lookupSetter__"; "isPrototypeOf";
    "propertyIsEnumerable"; "toString"; "valueOf"; "__proto__";
    "toLocaleString" ].

Fixpoint own (key : string) (table : list (string * string)) : option string :=
  match table with
  | [] => None
  | (k, v) :: r => if String.eqb key k then Some v else own key r
  end.

Definition inherited (key : string) : bool :=
  existsb (String.eqb key) Object_prototype.

(** [MODEL_MAPPING[key]]: [MODEL_MAPPING] is an object literal, so the read
    finds an own property, then a property of [Object.prototype], else
    [undefined] ([None]). *)
Definition MODEL_MAPPING_get (key : string) : option ModelValue :=
  match own key MODEL_MAPPING with
  | Some v => Some (ModelName v)
  | None => if inherited key then Some (ObjectPrototypeMember key) else None
  end.

Definition ModelValue_truthy (v : ModelValue) : bool :=
  match v with
  | ModelName s => nonempty s
  | ObjectPrototypeMember _ => true
  end.

(** The pattern-based fallback of [getGeminiModel], then its default. *)
Definition pattern_fallback (claudeModel : string) : string :=
  let lowerModel := toLowerCase claudeModel in
  if includes lowerModel "opus" then "google/gemini-2.5-pro"
  else if includes lowerModel "sonnet" then "google/gemini-2.5-flash"
  else if includes lowerModel "haiku" then "google/gemini-2.5-flash-lite"
  else "google/gemini-2.5-flash".

Definition getGeminiModel (claudeModel : string) : ModelValue :=
  match MODEL_MAPPING_get claudeModel with
  | Some v =>
      if ModelValue_truthy v then v
      else ModelName (pattern_fallback claudeModel)
  | None => ModelName (pattern_fallback claudeModel)
  end.

(** ** The validator *)

(** Truthiness of an optional string field: absent and empty are falsy. *)
Definition present (o : option string) : bool :=
  match o with
  | Some s => nonempty s
  | None => false
  end.

Definition messages_truthy (m : AnthropicRequest.messages_field) : bool :=
  match m with
  | AnthropicRequest.Absent => false
  | AnthropicRequest.NotArray v => non_array_truthy v
  | AnthropicRequest.Array _ => true
  end.

(** [Array.isArray(request.messages)] *)
Definition isArray (m : AnthropicRequest.messages_field) : bool :=
  match m with
  | AnthropicRequest.Array _ => true
  | _ => false
  end.

Definition validateAnthropicRequest (request : AnthropicRequest.t)
  : ConversionResult.t unit :=
  let messages := AnthropicRequest.messages request in
  if negb (present (AnthropicRequest.model request))
  then ConversionResult.fail "Missing required field: model"
  else if negb (messages_truthy messages) || negb (isArray messages)
  then ConversionResult.fail "Missing or invalid messages field"
  else if match messages with
          | AnthropicRequest.Array msgs => (List.length msgs =? 0)%nat
          | _ => false
          end
  then ConversionResult.fail "Messages array cannot be empty"
  else ConversionResult.ok_void.

(** ** The request translator *)

(** One block of a block sequence: what it pushes onto [textParts]. A block
    of any other shape pushes nothing (an unsupported type is logged). *)
Definition content_part (contentItem : AnthropicContent.t) : list string :=
  let type := AnthropicContent.type contentItem in
  let text := AnthropicContent.text contentItem in
  let name := AnthropicContent.name contentItem in
  let input := AnthropicContent.input contentItem in
  if String.eqb type "text" && present text
  then [ match text with Some t => t | None => "" end ]
  else if String.eqb type "tool_use" && present name && JS.truthy input
  then [ "[Tool Call: " ++ match name with Some n => n | None => "" end
         ++ "(" ++ JSON.stringify_text input ++ ")]" ]
  else if String.eqb type "tool_result"
  then
    let result :=
      match AnthropicContent.content contentItem with
      | VStr s => s
      | c => JSON.stringify_text c
      end in
    [ "[Tool Result: " ++ result ++ "]" ]
  else [].

(** The text of a message before the emptiness test. *)
Definition flatten (msg : AnthropicMessage.t) : string :=
  match AnthropicMessage.content msg with
  | AnthropicMessage.PlainText s => s
  | AnthropicMessage.Blocks items => join LF (flat_map content_part items)
  | AnthropicMessage.Neither => ""
  end.

Definition convertAnthropicMessage (msg : AnthropicMessage.t) (index : nat)
  : option GeminiMessage.t :=
  let content := flatten msg in
  if negb (nonempty (trim content)) then None
  else
    Some (GeminiMessage.mk
            (match AnthropicMessage.role msg with
             | Some r => if String.eqb r "assistant" then assistant else user
             | None => user
             end)
            content).

Definition convertAnthropicToolsToGemini (tools : list AnthropicTool.t)
  : list GeminiTool.t :=
  map (fun tool =>
         GeminiTool.mk "function"
           (GeminiFunction.mk (AnthropicTool.name tool)
                              (AnthropicTool.description tool)
                              (AnthropicTool.input_schema tool)))
      tools.

Definition convertAnthropicToolChoice (toolChoice : option AnthropicToolChoice.t)
  : option GeminiToolChoice :=
  match toolChoice with
  | None => None
  | Some c =>
      if negb (AnthropicToolChoice.truthy c) then None
      else
        match c with
        | AnthropicToolChoice.Str s =>
            if String.eqb s "auto" then Some choice_auto
            else if String.eqb s "any" then Some choice_auto
            else Some choice_auto
        | AnthropicToolChoice.Obj type name =>
            if String.eqb type "tool" && nonempty name
            then Some (choice_function name)
            else Some choice_auto
        end
  end.

(** [messages.forEach(...)] with the conversion of each message, pushing the
    converted messages onto [geminiMessages] in order. *)
Fixpoint convert_each (msgs : list AnthropicMessage.t) (index : nat)
  : list GeminiMessage.t :=
  match msgs with
  | [] => []
  | msg :: rest =>
      match convertAnthropicMessage msg index with
      | Some convertedMessage => convertedMessage :: convert_each rest (S index)
      | None => convert_each rest (S index)
      end
  end.

(** The body of the [try] block of [convertAnthropicToGemini]. *)
Definition convertAnthropicToGemini_body (anthropicRequest : AnthropicRequest.t)
  : result GeminiRequest.t :=
  let max_tokens := AnthropicRequest.max_tokens anthropicRequest in
  let temperature := AnthropicRequest.temperature anthropicRequest in
  let system_ := AnthropicRequest.system anthropicRequest in
  let tools := AnthropicRequest.tools anthropicRequest in
  let tool_choice := AnthropicRequest.tool_choice anthropicRequest in
  (* getGeminiModel(model): on undefined the table has nothing and
     [claudeModel.toLowerCase()] throws *)
  geminiModel <-
    match AnthropicRequest.model anthropicRequest with
    | Some model => ret (getGeminiModel model)
    | None => throw (JS.cannot_read "undefined" "toLowerCase")
    end ;;
  let system_message :=
    match system_ with
    | Some s => if nonempty s then [GeminiMessage.mk system s] else []
    | None => []
    end in
  converted <-
    match AnthropicRequest.messages anthropicRequest with
    | AnthropicRequest.Array msgs => ret (convert_each msgs 0)
    | AnthropicRequest.Absent => throw (JS.cannot_read "undefined" "forEach")
    | AnthropicRequest.NotArray NullValue => throw (JS.cannot_read "null" "forEach")
    | AnthropicRequest.NotArray _ =>
        throw (TypeError "messages.forEach is not a function")
    end ;;
  let geminiMessages := (system_message ++ converted)%list in
  let convertedTools :=
    match tools with
    | Some ts =>
        if (0 <? List.length ts)%nat
        then let cs := convertAnthropicToolsToGemini ts in
             if (0 <? List.length cs)%nat then Some cs else None
        else None
    | None => None
    end in
  ret {|
    GeminiRequest.model := geminiModel;
    GeminiRequest.messages := geminiMessages;
    (* max_tokens || 1024 *)
    GeminiRequest.max_tokens :=
      Some (match max_tokens with
            | Some n => if Number.is_zero n then Number.of_Z 1024 else n
            | None => Number.of_Z 1024
            end);
    (* temperature !== undefined ? temperature : 0.7 *)
    GeminiRequest.temperature :=
      Some (match temperature with
            | Some t => t
            | None => Num 7 (-1)
            end);
    GeminiRequest.top_p := AnthropicRequest.top_p anthropicRequest;
    GeminiRequest.tools := convertedTools;
    GeminiRequest.tool_choice :=
      match convertedTools, tool_choice with
      | Some _, Some c =>
          if AnthropicToolChoice.truthy c
          then convertAnthropicToolChoice tool_choice
          else None
      | _, _ => None
      end;
    GeminiRequest.stop :=
      match AnthropicRequest.stop_sequences anthropicRequest with
      | Some l => if (0 <? List.length l)%nat then Some l else None
      | None => None
      end;
    GeminiRequest.stream := None
  |}.

Definition convertAnthropicToGemini (anthropicRequest : AnthropicRequest.t)
  : ConversionResult.t GeminiRequest.t :=
  match convertAnthropicToGemini_body anthropicRequest with
  | inl geminiRequest => ConversionResult.ok geminiRequest
  | inr error =>
      ConversionResult.fail ("Request conversion failed: " ++ exn_message error)
  end.

(** ** The unary response translator *)

(** The [forEach] over [tool_calls]: one [tool_use] block per call, in
    order; [JSON.parse] may throw. *)
Fixpoint tool_use_blocks (calls : list GeminiToolCall.t)
  : result (list AnthropicContent.t) :=
  match calls with
  | [] => ret []
  | toolCall :: rest =>
      let f := GeminiToolCall.function toolCall in
      let arguments := GeminiFunctionCall.arguments f in
      (* JSON.parse(toolCall.function.arguments || '{}') *)
      input <- JSON.parse (if nonempty arguments then arguments else "{}") ;;
      blocks <- tool_use_blocks rest ;;
      ret (AnthropicContent.tool_use_block
             (GeminiToolCall.id toolCall) (GeminiFunctionCall.name f) input
           :: blocks)
  end.

Definition map_finish_reason (finish_reason : string) : StopReason :=
  if String.eqb finish_reason "stop" then end_turn
  else if String.eqb finish_reason "length" then max_tokens
  else if String.eqb finish_reason "tool_calls" then tool_use
  else if String.eqb finish_reason "content_filter" then stop_sequence
  else end_turn.

(** [x || 0] *)
Definition or_zero (o : option number) : number :=
  match o with
  | Some n => if Number.is_zero n then Number.of_Z 0 else n
  | None => Number.of_Z 0
  end.

(** [`msg_${Date.now()}_${Math.random().toString(36).substr(2, 9)}`] *)
Definition fresh_id (clock : Clock) : string :=
  "msg_" ++ Number.toString (Number.of_Z (Date_now clock)) ++ "_"
  ++ substr 2 9 (Math_random_36 clock).

(** What the [try] block of [convertGeminiToAnthropic] returns or throws. *)
Definition convertGeminiToAnthropic_body (clock : Clock)
  (geminiResponse : GeminiResponse.t) (originalRequest : AnthropicRequest.t)
  : result (ConversionResult.t AnthropicResponse.t) :=
  match GeminiResponse.error geminiResponse with
  | Some e =>
      let message := ApiError.message e in
      ret (ConversionResult.fail
             (if nonempty message then message
              else "Unknown error from Gemini API"))
  | None =>
      (* geminiResponse.choices?.[0] *)
      match match GeminiResponse.choices geminiResponse with
            | Some l => hd_error l
            | None => None
            end with
      | None => ret (ConversionResult.fail "No response choices from Gemini API")
      | Some choice =>
          tool_part <-
            match GeminiChoice.message choice with
            | Some message =>
                match GeminiChoiceMessage.tool_calls message with
                | Some calls =>
                    if (0 <? List.length calls)%nat
                    then blocks <- tool_use_blocks calls ;; ret (blocks, tool_use)
                    else ret ([], end_turn)
                | None => ret ([], end_turn)
                end
            | None => ret ([], end_turn)
            end ;;
          let text_part :=
            match GeminiChoice.message choice with
            | Some message =>
                match GeminiChoiceMessage.content message with
                | Some c => if nonempty c then [AnthropicContent.text_block c] else []
                | None => []
                end
            | None => []
            end in
          let content := (fst tool_part ++ text_part)%list in
          (* content.length === 0 *)
          let content :=
            if (List.length content =? 0)%nat
            then [AnthropicContent.text_block ""]
            else content in
          let stopReason :=
            match GeminiChoice.finish_reason choice with
            | Some r => if nonempty r then map_finish_reason r else snd tool_part
            | None => snd tool_part
            end in
          ret (ConversionResult.ok {|
            AnthropicResponse.id := fresh_id clock;
            AnthropicResponse.type := "message";
            AnthropicResponse.role := "assistant";
            AnthropicResponse.content := content;
            AnthropicResponse.model := AnthropicRequest.model originalRequest;
            AnthropicResponse.stop_reason := stopReason;
            AnthropicResponse.stop_sequence := None;
            AnthropicResponse.usage :=
              AnthropicUsage.mk
                (or_zero (option_map GeminiUsage.prompt_tokens
                            (GeminiResponse.usage geminiResponse)))
                (or_zero (option_map GeminiUsage.completion_tokens
                            (GeminiResponse.usage geminiResponse)))
          |})
      end
  end.

Definition convertGeminiToAnthropic (clock : Clock)
  (geminiResponse : GeminiResponse.t) (originalRequest : AnthropicRequest.t)
  : ConversionResult.t AnthropicResponse.t :=
  match convertGeminiToAnthropic_body clock geminiResponse originalRequest with
  | inl r => r
  | inr error =>
      ConversionResult.fail ("Response conversion failed: " ++ exn_message error)
  end.

(** ** The stream translator *)

(** ToString, as a template literal applies it. *)
Fixpoint ToString (v : value) : string :=
  match v with
  | VUndefined => "undefined"
  | VNull => "null"
  | VBool b => if b then "true" else "false"
  | VNum n => Number.toString n
  | VStr s => s
  | VArr l =>
      join "," (map (fun x => match x with
                              | VUndefined | VNull => ""
                              | _ => ToString x
                              end) l)
  | VObj _ => "[object Object]"
  end.

(** [a || b] *)
Definition or_else (a b : value) : value := if JS.truthy a then a else b.

(** The three object literals [convertGeminiStreamChunk] returns. *)
Definition text_delta (text : value) : value :=
  VObj [ ("type", VStr "content_block_delta");
         ("index", VNum (Number.of_Z 0));
         ("delta", VObj [ ("type", VStr "text_delta"); ("text", text) ]) ].

Definition input_json_delta (partial_json : value) : value :=
  VObj [ ("type", VStr "content_block_delta");
         ("index", VNum (Number.of_Z 0));
         ("delta", VObj [ ("type", VStr "input_json_delta");
                          ("partial_json", partial_json) ]) ].

Definition message_stop : value := VObj [ ("type", VStr "message_stop") ].

(** [{ type: 'error' }] *)
Definition error_event : value := VObj [ ("type", VStr "error") ].

(** [geminiChunk] is whatever [JSON.parse] returned; the result is the
    event object or [null]. Reads of a parsed value have no effect, so a
    property read twice in the source is read once here. *)
Definition convertGeminiStreamChunk (geminiChunk : value)
  (originalRequest : AnthropicRequest.t) : result value :=
  choices <- JS.get geminiChunk "choices" ;;
  choice <- JS.first_opt choices ;;
  if negb (JS.truthy choice) then ret VNull else
  delta <- JS.get choice "delta" ;;
  delta_content <- JS.get_opt delta "content" ;;
  let content := or_else delta_content (VStr "") in
  if JS.truthy content then ret (text_delta content) else
  tool_calls <- JS.get_opt delta "tool_calls" ;;
  has_calls <-
    (if JS.truthy tool_calls
     then len <- JS.length tool_calls ;; ret (JS.gt0 len)
     else ret false) ;;
  if has_calls then
    toolCall <- JS.first tool_calls ;;
    f <- JS.get toolCall "function" ;;
    arguments <- JS.get f "arguments" ;;
    ret (input_json_delta (or_else arguments (VStr "")))
  else
    finish_reason <- JS.get choice "finish_reason" ;;
    if JS.truthy finish_reason then ret message_stop else ret VNull.

(** The writer end of the TransformStream: the records written so far, and
    whether it has been closed. Writes are taken to succeed. *)
Record Writer : Type := mkWriter { written : list string; closed : bool }.

Definition write (w : Writer) (record : string) : Writer :=
  mkWriter (written w ++ [record])%list (closed w).

Definition close (w : Writer) : Writer := mkWriter (written w) true.

(** [`event: ${type}\ndata: ${JSON.stringify(chunk)}\n\n`] *)
Definition sse_record (type : value) (chunk : value) : string :=
  "event: " ++ ToString type ++ LF
  ++ "data: " ++ JSON.stringify_text chunk ++ LF ++ LF.

(** The type of an event object of the worker. *)
Definition type_of (event : value) : value :=
  match JS.get event "type" with
  | inl t => t
  | inr _ => VUndefined
  end.

(** The inner [try] of the line loop: parse, convert, write; whatever is
    thrown is logged and dropped. *)
Definition process_data (data : string) (originalRequest : AnthropicRequest.t)
  (writer : Writer) : Writer :=
  match (geminiChunk <- JSON.parse data ;;
         convertGeminiStreamChunk geminiChunk originalRequest) with
  | inl anthropicChunk =>
      if JS.truthy anthropicChunk
      then write writer (sse_record (type_of anthropicChunk) anthropicChunk)
      else writer
  | inr parseError => writer
  end.

(** [for (const line of lines)]: the [break] at the terminator leaves this
    loop, and only this loop. *)
Fixpoint process_lines (lines : list string)
  (originalRequest : AnthropicRequest.t) (writer : Writer) : Writer :=
  match lines with
  | [] => writer
  | line :: rest =>
      if startsWith line "data: " then
        let data := slice 6 line in
        if String.eqb data "[DONE]"
        then write writer (sse_record (VStr "message_stop") message_stop)
        else process_lines rest originalRequest
               (process_data data originalRequest writer)
      else process_lines rest originalRequest writer
  end.

(** One outcome of [reader.read()] before the body is exhausted: a chunk
    (its text, as the streaming decoder yields it), or a rejection. *)
Inductive read : Type :=
| Chunk (text : string)
| Rejected (e : exn).

(** [while (true)]: the loop ends when the body is exhausted ([done]) or a
    read throws; it returns the writer and what was thrown, if anything. *)
Fixpoint read_loop (reads : list read) (buffer : string)
  (originalRequest : AnthropicRequest.t) (writer : Writer)
  : Writer * option exn :=
  match reads with
  | [] => (writer, None)
  | Rejected e :: _ => (writer, Some e)
  | Chunk text :: rest =>
      let lines := split_lines (buffer ++ text) in
      (* buffer = lines.pop() || '' *)
      let buffer' := last lines "" in
      let lines' := removelast lines in
      read_loop rest buffer' originalRequest
        (process_lines lines' originalRequest writer)
  end.

(** [body] is [geminiResponse.body]: [None] when the response has none. *)
Definition processGeminiStream (body : option (list read)) (writer : Writer)
  (originalRequest : AnthropicRequest.t) : Writer :=
  let '(w, thrown) :=
    match body with
    | None => (writer, Some (Error "No response body to read"))
    | Some reads => read_loop reads "" originalRequest writer
    end in
  close (match thrown with
         | Some _ => write w (sse_record (VStr "error") error_event)
         | None => w
         end).

(** A writer nothing has been written to. *)
Definition new_writer : Writer := mkWriter [] false.

(** ** The transport shell *)

Definition GEMINI_API_BASE : string :=
  "https://api.aimlapi.com/v1/chat/completions".

(** [env.GEMINI_API_KEY], absent when the secret is not set. *)
Module Env.
Record t : Type := mk { GEMINI_API_KEY : option string }.
End Env.

(** An inbound request: its method, what [new URL(request.url).pathname]
    evaluates to or throws, and what [request.json()] resolves to (the body
    seen through the interface [AnthropicRequest]) or rejects with. *)
Module Request.
Record t : Type := mk {
  method : string;
  pathname : result string;
  json : result AnthropicRequest.t
}.
End Request.

(** The arguments of the one call to the global [fetch]. *)
Module FetchInit.
Record t : Type := mk {
  url : string;
  method : string;
  headers : list (string * string);
  body : string
}.
End FetchInit.

(** What the backend answered: [text()] and [json()] resolve or reject;
    [body] is the stream the stream translator reads. *)
Module FetchResponse.
Record t : Type := mk {
  ok : bool;
  status : Z;
  statusText : string;
  text : result string;
  json : result GeminiResponse.t;
  body : option (list read)
}.
End FetchResponse.

(** The body of an outbound response: none, a text, or the readable end of
    the TransformStream, given by what its writer end received. *)
Inductive ResponseBody : Type :=
| NullBody
| TextBody (text : string)
| StreamBody (writer : Writer).

Module Response.
Record t : Type := mk {
  status : Z;
  headers : list (string * string);
  body : ResponseBody
}.
End Response.

(** [{ type: 'error', error: { type, message } }] *)
Definition ErrorResponse_value (type message : string) : value :=
  VObj [ ("type", VStr "error");
         ("error", VObj [ ("type", VStr type); ("message", VStr message) ]) ].

Definition createErrorResponse (type message : string) (status : Z)
  : Response.t :=
  Response.mk status
    [ ("Content-Type", "application/json");
      ("Access-Control-Allow-Origin", "*") ]
    (TextBody (JSON.stringify_text (ErrorResponse_value type message))).

Definition handleCORS : Response.t :=
  Response.mk 200
    [ ("Access-Control-Allow-Origin", "*");
      ("Access-Control-Allow-Methods", "GET, POST, PUT, DELETE, OPTIONS");
      ("Access-Control-Allow-Headers",
       "Content-Type, Authorization, x-api-key, anthropic-version") ]
    NullBody.

(** *** What [JSON.stringify] is applied to

    Each record as the object the worker builds, its properties in the
    order the source sets them; an absent field is [undefined] and is left
    out by [JSON.stringify]. *)

Definition opt_value {A} (f : A -> value) (o : option A) : value :=
  match o with
  | Some a => f a
  | None => VUndefined
  end.

Definition GeminiRole_name (r : GeminiRole) : string :=
  match r with
  | system => "system"
  | user => "user"
  | assistant => "assistant"
  end.

Definition GeminiMessage_value (m : GeminiMessage.t) : value :=
  VObj [ ("role", VStr (GeminiRole_name (GeminiMessage.role m)));
         ("content", VStr (GeminiMessage.content m)) ].

Definition GeminiTool_value (t : GeminiTool.t) : value :=
  let f := GeminiTool.function t in
  VObj [ ("type", VStr (GeminiTool.type t));
         ("function",
          VObj [ ("name", VStr (GeminiFunction.name f));
                 ("description", VStr (GeminiFunction.description f));
                 ("parameters", GeminiFunction.parameters f) ]) ].

Definition GeminiToolChoice_value (c : GeminiToolChoice) : value :=
  match c with
  | choice_none => VStr "none"
  | choice_auto => VStr "auto"
  | choice_function name =>
      VObj [ ("type", VStr "function");
             ("function", VObj [ ("name", VStr name) ]) ]
  end.

(** A member of [Object.prototype] is a function, which [JSON.stringify]
    leaves out like [undefined], or, for [__proto__], the prototype
    itself, an object without enumerable properties. *)
Definition ModelValue_value (m : ModelValue) : value :=
  match m with
  | ModelName s => VStr s
  | ObjectPrototypeMember key =>
      if String.eqb key "__proto__" then VObj [] else VUndefined
  end.

Definition GeminiRequest_value (r : GeminiRequest.t) : value :=
  VObj [ ("model", ModelValue_value (GeminiRequest.model r));
         ("messages", VArr (map GeminiMessage_value (GeminiRequest.messages r)));
         ("max_tokens", opt_value VNum (GeminiRequest.max_tokens r));
         ("temperature", opt_value VNum (GeminiRequest.temperature r));
         ("top_p", opt_value VNum (GeminiRequest.top_p r));
         ("stop", opt_value (fun l => VArr (map VStr l)) (GeminiRequest.stop r));
         ("tools",
          opt_value (fun l => VArr (map GeminiTool_value l)) (GeminiRequest.tools r));
         ("tool_choice",
          opt_value GeminiToolChoice_value (GeminiRequest.tool_choice r));
         ("stream", opt_value VBool (GeminiRequest.stream r)) ].

Definition ImageSource_value (src : ImageSource.t) : value :=
  VObj [ ("type", VStr (ImageSource.type src));
         ("media_type", VStr (ImageSource.media_type src));
         ("data", VStr (ImageSource.data src)) ].

(** For the two blocks the response translator builds this is their
    object literal: [type, tool_use_id, name, input] and [type, text]. *)
Definition AnthropicContent_value (b : AnthropicContent.t) : value :=
  VObj [ ("type", VStr (AnthropicContent.type b));
         ("text", opt_value VStr (AnthropicContent.text b));
         ("source", opt_value ImageSource_value (AnthropicContent.source b));
         ("tool_use_id", opt_value VStr (AnthropicContent.tool_use_id b));
         ("name", opt_value VStr (AnthropicContent.name b));
         ("input", AnthropicContent.input b);
         ("content", AnthropicContent.content b);
         ("is_error", opt_value VBool (AnthropicContent.is_error b)) ].

Definition StopReason_name (r : StopReason) : string :=
  match r with
  | end_turn => "end_turn"
  | max_tokens => "max_tokens"
  | stop_sequence => "stop_sequence"
  | tool_use => "tool_use"
  end.

Definition AnthropicResponse_value (r : AnthropicResponse.t) : value :=
  VObj [ ("id", VStr (AnthropicResponse.id r));
         ("type", VStr (AnthropicResponse.type r));
         ("role", VStr (AnthropicResponse.role r));
         ("content",
          VArr (map AnthropicContent_value (AnthropicResponse.content r)));
         ("model", opt_value VStr (AnthropicResponse.model r));
         ("stop_reason", VStr (StopReason_name (AnthropicResponse.stop_reason r)));
         ("stop_sequence",
          match AnthropicResponse.stop_sequence r with
          | Some q => VStr q
          | None => VNull
          end);
         ("usage",
          VObj [ ("input_tokens",
                  VNum (AnthropicUsage.input_tokens (AnthropicResponse.usage r)));
                 ("output_tokens",
                  VNum (AnthropicUsage.output_tokens (AnthropicResponse.usage r))) ]) ].

(** *** The handlers *)

(** The writer is handed to [processGeminiStream], which runs on while the
    response is returned; the body is what it writes. *)
Definition handleStreamingResponse (geminiResponse : FetchResponse.t)
  (originalRequest : AnthropicRequest.t) : Response.t :=
  Response.mk 200
    [ ("Content-Type", "text/event-stream");
      ("Cache-Control", "no-cache");
      ("Connection", "keep-alive");
      ("Access-Control-Allow-Origin", "*") ]
    (StreamBody
       (processGeminiStream (FetchResponse.body geminiResponse) new_writer
          originalRequest)).

(** [e || fallback] on an optional string. *)
Definition or_default (e : option string) (fallback : string) : string :=
  match e with
  | Some m => if nonempty m then m else fallback
  | None => fallback
  end.

(** The [catch] of [handleAnthropicToGemini]. *)
Definition processing_failed (error : exn) : Response.t :=
  createErrorResponse "internal_error"
    ("Processing failed: " ++ exn_message error) 500.

(** [fetch] stands for the global [fetch]: what a call resolves to, or
    what it rejects with. The result is the response and the calls made to
    the backend, in order. *)
Definition handleAnthropicToGemini
  (fetch : FetchInit.t -> result FetchResponse.t) (clock : Clock)
  (request : Request.t) (env : Env.t) : Response.t * list FetchInit.t :=
  match Request.json request with
  | inr _ =>
      (createErrorResponse "invalid_request_error"
         "Invalid JSON in request body" 400, [])
  | inl anthropicRequest =>
      let validation := validateAnthropicRequest anthropicRequest in
      if negb (ConversionResult.success validation) then
        (createErrorResponse "invalid_request_error"
           (or_default (ConversionResult.error validation) "Invalid request")
           400, [])
      else
        (* anthropicRequest.stream === true *)
        let isStreaming :=
          match AnthropicRequest.stream anthropicRequest with
          | Some true => true
          | _ => false
          end in
        let conversionResult := convertAnthropicToGemini anthropicRequest in
        match ConversionResult.success conversionResult,
              ConversionResult.data conversionResult with
        | true, Some converted =>
            let geminiRequest :=
              if isStreaming then
                {| GeminiRequest.model := GeminiRequest.model converted;
                   GeminiRequest.messages := GeminiRequest.messages converted;
                   GeminiRequest.max_tokens := GeminiRequest.max_tokens converted;
                   GeminiRequest.temperature := GeminiRequest.temperature converted;
                   GeminiRequest.top_p := GeminiRequest.top_p converted;
                   GeminiRequest.tools := GeminiRequest.tools converted;
                   GeminiRequest.tool_choice := GeminiRequest.tool_choice converted;
                   GeminiRequest.stop := GeminiRequest.stop converted;
                   GeminiRequest.stream := Some true |}
              else converted in
            let init :=
              FetchInit.mk GEMINI_API_BASE "POST"
                [ ("Authorization",
                   "Bearer " ++ match Env.GEMINI_API_KEY env with
                                | Some key => key
                                | None => "undefined"
                                end);
                  ("Content-Type", "application/json") ]
                (JSON.stringify_text (GeminiRequest_value geminiRequest)) in
            match fetch init with
            | inr error => (processing_failed error, [init])
            | inl geminiResponse =>
                if negb (FetchResponse.ok geminiResponse) then
                  match FetchResponse.text geminiResponse with
                  | inr error => (processing_failed error, [init])
                  | inl errorText =>
                      (createErrorResponse "api_error"
                         ("Gemini API error: "
                          ++ Number.toString
                               (Number.of_Z (FetchResponse.status geminiResponse))
                          ++ " " ++ FetchResponse.statusText geminiResponse)
                         502, [init])
                  end
                else if isStreaming then
                  (handleStreamingResponse geminiResponse anthropicRequest, [init])
                else
                  match FetchResponse.json geminiResponse with
                  | inr error => (processing_failed error, [init])
                  | inl geminiData =>
                      let responseResult :=
                        convertGeminiToAnthropic clock geminiData anthropicRequest in
                      match ConversionResult.success responseResult,
                            ConversionResult.data responseResult with
                      | true, Some data =>
                          (Response.mk 200
                             [ ("Content-Type", "application/json");
                               ("Access-Control-Allow-Origin", "*") ]
                             (TextBody
                                (JSON.stringify_text (AnthropicResponse_value data))),
                           [init])
                      | _, _ =>
                          (createErrorResponse "conversion_error"
                             (or_default (ConversionResult.error responseResult)
                                "Failed to convert response") 400, [init])
                      end
                  end
            end
        | _, _ =>
            (createErrorResponse "conversion_error"
               (or_default (ConversionResult.error conversionResult)
                  "Failed to convert request") 400, [])
        end
  end.

(** The [fetch] handler of the default export. *)
Definition worker_fetch
  (fetch : FetchInit.t -> result FetchResponse.t) (clock : Clock)
  (request : Request.t) (env : Env.t) : Response.t * list FetchInit.t :=
  if String.eqb (Request.method request) "OPTIONS" then (handleCORS, [])
  else
    match Request.pathname request with
    | inr error =>
        (createErrorResponse "internal_error" (exn_message error) 500, [])
    | inl pathname =>
        if negb (present (Env.GEMINI_API_KEY env)) then
          (createErrorResponse "configuration_error"
             "GEMINI_API_KEY not configured" 500, [])
        else if String.eqb pathname "/v1/messages" then
          handleAnthropicToGemini fetch clock request env
        else
          (createErrorResponse "not_found" "Endpoint not found" 404, [])
    end.

(** ** Vocabulary of the statements *)

(** The three tier identifiers. *)
Definition tiers : list string :=
  [ "google/gemini-2.5-pro"; "google/gemini-2.5-flash";
    "google/gemini-2.5-flash-lite" ].




(** The complete lines of a text: what precedes each of its line feeds. *)
Definition complete_lines (text : string) : list string :=
  removelast (split_lines text).

(** The text of a stream: its chunks, one after the other. *)
Definition stream_text (texts : list string) : string :=
  String.concat "" texts.

(** What the read loop holds back after each chunk of [texts]. *)
Fixpoint buffer_after (buffer : string) (texts : list string) : string :=
  match texts with
  | [] => buffer
  | text :: rest => buffer_after (last (split_lines (buffer ++ text)) "") rest
  end.

(** The complete lines the line loop is run on, read after read. *)
Fixpoint batches (buffer : string) (texts : list string) : list (list string) :=
  match texts with
  | [] => []
  | text :: rest =>
      let lines := split_lines (buffer ++ text) in
      removelast lines :: batches (last lines "") rest
  end.

(** The line loop, batch after batch. *)
Definition process_batches (bs : list (list string))
  (originalRequest : AnthropicRequest.t) (writer : Writer) : Writer :=
  fold_left (fun w b => process_lines b originalRequest w) bs writer.

(** A data line with the given payload. *)
Definition data_line (payload : string) : string := "data: " ++ payload.

(** The lines the line loop looks into. *)
Definition data_lines (lines : list string) : list string :=
  filter (fun line => startsWith line "data: ") lines.

(** The text ends where a line ends: it is empty or ends with a line feed. *)
Definition at_line_boundary (text : string) : Prop :=
  text = "" \/ exists s, text = s ++ LF.

(** No line feed inside. *)
Definition one_line (text : string) : Prop :=
  split_lines text = [text].

(** The first choice of a parsed chunk: [choice] lists its properties. *)
Definition first_choice (chunk : value) (choice : list (string * value)) : Prop :=
  exists props rest,
    chunk = VObj props /\
    JS.assoc "choices" props = Some (VArr (VObj choice :: rest)).

(** [payload] is the JSON text of a chunk whose first choice's delta
    carries the non-empty text [t]. *)
Definition carries_text (payload t : string) : Prop :=
  exists chunk choice delta,
    JSON.parse payload = inl chunk /\
    first_choice chunk choice /\
    JS.assoc "delta" choice = Some (VObj delta) /\
    JS.assoc "content" delta = Some (VStr t) /\
    t <> "".

(** [payload] is the JSON text of a chunk whose first choice carries a
    finish reason and nothing else to report: no delta, or a delta with
    neither content nor tool calls. *)
Definition carries_only_finish_reason (payload : string) : Prop :=
  exists chunk choice reason,
    JSON.parse payload = inl chunk /\
    first_choice chunk choice /\
    (JS.assoc "delta" choice = None \/
     exists delta,
       JS.assoc "delta" choice = Some (VObj delta) /\
       JS.assoc "content" delta = None /\
       JS.assoc "tool_calls" delta = None) /\
    JS.assoc "finish_reason" choice = Some (VStr reason) /\
    reason <> "".

(** The record written for an event object. *)
Definition record_of (event : value) : string :=
  sse_record (type_of event) event.

(** A request with a model, messages and nothing else. *)
Definition plain_request (model : option string)
  (messages : AnthropicRequest.messages_field) : AnthropicRequest.t :=
  AnthropicRequest.mk model messages None None None None None None None None.

(** [{ role: 'user', content: text }] *)
Definition user_text (text : string) : AnthropicMessage.t :=
  AnthropicMessage.mk (Some "user") (AnthropicMessage.PlainText text).

(** A backend response with one choice. *)
Definition single_choice_response (choice : GeminiChoice.t) : GeminiResponse.t :=
  GeminiResponse.mk "resp_123" "chat.completion" (Number.of_Z 1234567890)
    "google/gemini-2.5-flash" (Some [choice]) None None.

(** ** Sample data, after the repository's tests *)

Module Sample.

Definition clock : Clock := mkClock 1700000000000 "0.k3j9x2m1qz7".

Definition hello_request : AnthropicRequest.t :=
  plain_request (Some "claude-3-sonnet")
    (AnthropicRequest.Array [user_text "Hello!"]).

Definition text_response (text : string) : GeminiResponse.t :=
  single_choice_response
    (GeminiChoice.mk (Number.of_Z 0)
       (Some (GeminiChoiceMessage.mk "assistant" (Some text) None))
       (Some "stop")).

Definition tool_call_response (arguments : string) : GeminiResponse.t :=
  single_choice_response
    (GeminiChoice.mk (Number.of_Z 0)
       (Some (GeminiChoiceMessage.mk "assistant" None
                (Some [GeminiToolCall.mk "call_123" "function"
                         (GeminiFunctionCall.mk "calculator" arguments)])))
       (Some "tool_calls")).

Definition image_only : AnthropicMessage.t :=
  AnthropicMessage.mk (Some "user")
    (AnthropicMessage.Blocks
       [AnthropicContent.image_block (ImageSource.mk "base64" "image/png" "iVBORw0KGgo=")]).

Definition calculator : AnthropicTool.t :=
  AnthropicTool.mk "calculator" "A calculator"
    (VObj [ ("type", VStr "object");
            ("properties", VObj [ ("operation", VObj [ ("type", VStr "string") ]) ]) ]).

Definition chunk_1 : string :=
  js "{'id':'chunk_1','object':'chat.completion.chunk','created':1234567890,'model':'google/gemini-2.5-flash','choices':[{'index':0,'delta':{'content':'Hello'}}]}".

Definition chunk_2 : string :=
  js "{'id':'chunk_2','object':'chat.completion.chunk','created':1234567890,'model':'google/gemini-2.5-flash','choices':[{'index':0,'delta':{'content':' there'}}]}".

Definition chunk_3 : string :=
  js "{'id':'chunk_3','object':'chat.completion.chunk','created':1234567890,'model':'google/gemini-2.5-flash','choices':[{'index':0,'finish_reason':'stop'}]}".

(** [max_tokens: 0, temperature: 0] *)
Definition zero_request : AnthropicRequest.t :=
  AnthropicRequest.mk (Some "claude-3-sonnet")
    (AnthropicRequest.Array [user_text "Hello!"])
    (Some (Number.of_Z 0)) (Some (Number.of_Z 0))
    None None None None None None.

(** Tools, and no [tool_choice]. *)
Definition tools_request : AnthropicRequest.t :=
  AnthropicRequest.mk (Some "claude-3-sonnet")
    (AnthropicRequest.Array [user_text "Calculate 2+2"])
    None None None None (Some [calculator]) None None None.

(** An SSE record of the backend: [data: <payload>\n\n]. *)
Definition backend_record (payload : string) : string :=
  "data: " ++ payload ++ LF ++ LF.

(** A chunk cut short: not valid JSON. *)
Definition broken_chunk : string :=
  js "{'id':'chunk_x','choices':[{'index':0,'delta':{'content':'Hel".

Definition streamData : list string :=
  [ backend_record chunk_1; backend_record chunk_2;
    backend_record chunk_3; backend_record "[DONE]" ].

End Sample.

(** ** Vocabulary of the further statements *)

(** The tool calls of a choice: those of its message, none without one. *)
Definition tool_calls_of (choice : GeminiChoice.t) : list GeminiToolCall.t :=
  match GeminiChoice.message choice with
  | Some message =>
      match GeminiChoiceMessage.tool_calls message with
      | Some calls => calls
      | None => []
      end
  | None => []
  end.

(** The text of a choice, when its message has a non-empty one. *)
Definition text_of (choice : GeminiChoice.t) : option string :=
  match GeminiChoice.message choice with
  | Some message =>
      match GeminiChoiceMessage.content message with
      | Some c => if nonempty c then Some c else None
      | None => None
      end
  | None => None
  end.

(** The finish reason of a choice, when it has a non-empty one. *)
Definition finish_of (choice : GeminiChoice.t) : option string :=
  match GeminiChoice.finish_reason choice with
  | Some r => if nonempty r then Some r else None
  | None => None
  end.

(** The block a tool call is translated to, given its decoded input. *)
Definition block_of_call (call : GeminiToolCall.t) (input : value)
  : AnthropicContent.t :=
  AnthropicContent.tool_use_block (GeminiToolCall.id call)
    (GeminiFunctionCall.name (GeminiToolCall.function call)) input.

(** What [JSON.parse] is applied to for a tool call. *)
Definition arguments_text (call : GeminiToolCall.t) : string :=
  let arguments := GeminiFunctionCall.arguments (GeminiToolCall.function call) in
  if nonempty arguments then arguments else "{}".

(** The message a source message is translated to, if it is kept. *)
Definition kept (msgs : list AnthropicMessage.t) : list GeminiMessage.t :=
  flat_map (fun msg => match convertAnthropicMessage msg 0 with
                       | Some g => [g]
                       | None => []
                       end) msgs.

(** A suffix as dated snapshots carry: digits and dashes only. *)
Fixpoint digits_and_dashes (x : string) : bool :=
  match x with
  | "" => true
  | String c r =>
      let n := code c in
      (((48 <=? n) && (n <=? 57)) || (n =? 45))%N && digits_and_dashes r
  end.

(** A text of lower-case ASCII letters, as the three tier tokens are. *)
Fixpoint lowercase_letters (t : string) : bool :=
  match t with
  | "" => true
  | String c r =>
      let n := code c in
      ((97 <=? n) && (n <=? 122))%N && lowercase_letters r
  end.

(** The terminator line. *)
Definition terminator : string := data_line "[DONE]".

(** No data line follows a terminator: the terminator occurs last among
    the data lines, or not at all. *)
Definition terminator_only_last (lines : list string) : bool :=
  forallb (fun line => negb (String.eqb line terminator))
    (removelast (data_lines lines)).

(** The records the stream translator can write. *)
Definition event_record (r : string) : Prop :=
  (exists text, r = record_of (text_delta text)) \/
  (exists partial_json, r = record_of (input_json_delta partial_json)) \/
  r = record_of message_stop \/
  r = record_of error_event.

(** The status codes of the worker. *)
Definition status_codes : list Z := [200; 400; 404; 500; 502]%Z.

(** The three messages of the validator. *)
Definition validation_errors : list string :=
  [ "Missing required field: model";
    "Missing or invalid messages field";
    "Messages array cannot be empty" ].

(** [geminiRequest.stream = true] *)
Definition with_stream (r : GeminiRequest.t) : GeminiRequest.t :=
  {| GeminiRequest.model := GeminiRequest.model r;
     GeminiRequest.messages := GeminiRequest.messages r;
     GeminiRequest.max_tokens := GeminiRequest.max_tokens r;
     GeminiRequest.temperature := GeminiRequest.temperature r;
     GeminiRequest.top_p := GeminiRequest.top_p r;
     GeminiRequest.tools := GeminiRequest.tools r;
     GeminiRequest.tool_choice := GeminiRequest.tool_choice r;
     GeminiRequest.stop := GeminiRequest.stop r;
     GeminiRequest.stream := Some true |}.

(** The error types of the worker's envelopes. *)
Definition error_types : list string :=
  [ "invalid_request_error"; "conversion_error"; "api_error";
    "internal_error"; "configuration_error"; "not_found" ].

(** The response is an error envelope of one of the worker's types. *)
Definition error_envelope (r : Response.t) : Prop :=
  exists type message,
    In type error_types /\
    r = createErrorResponse type message (Response.status r).

(** The response may be read from any origin. *)
Definition allows_any_origin (r : Response.t) : Prop :=
  In ("Access-Control-Allow-Origin", "*") (Response.headers r).

(** A request for the translating endpoint that comes with a key. *)
Definition routed (request : Request.t) (env : Env.t) : Prop :=
  Request.method request <> "OPTIONS" /\
  Request.pathname request = inl "/v1/messages" /\
  present (Env.GEMINI_API_KEY env) = true.

(** The call the worker makes for a translated request. *)
Definition backend_call (key : string) (t : GeminiRequest.t) : FetchInit.t :=
  FetchInit.mk GEMINI_API_BASE "POST"
    [ ("Authorization", "Bearer " ++ key);
      ("Content-Type", "application/json") ]
    (JSON.stringify_text (GeminiRequest_value t)).

(** [stream = true] is set on the target request of a streaming request. *)
Definition sent_request (request : AnthropicRequest.t) (t : GeminiRequest.t)
  : GeminiRequest.t :=
  match AnthropicRequest.stream request with
  | Some true => with_stream t
  | _ => t
  end.

(** The response of the worker, and its calls to the backend. *)
Definition response_of (fetch : FetchInit.t -> result FetchResponse.t)
  (clock : Clock) (request : Request.t) (env : Env.t) : Response.t :=
  fst (worker_fetch fetch clock request env).

Definition calls_of (fetch : FetchInit.t -> result FetchResponse.t)
  (clock : Clock) (request : Request.t) (env : Env.t) : list FetchInit.t :=
  snd (worker_fetch fetch clock request env).

(** The 200 response with a translated response as JSON. *)
Definition json_response (data : AnthropicResponse.t) : Response.t :=
  Response.mk 200
    [ ("Content-Type", "application/json");
      ("Access-Control-Allow-Origin", "*") ]
    (TextBody (JSON.stringify_text (AnthropicResponse_value data))).

(** No line feed among the characters. *)
Fixpoint no_line_feed (s : string) : bool :=
  match s with
  | "" => true
  | String c r => negb (code c =? 10)%N && no_line_feed r
  end.

(** The types of the events of the outgoing stream. *)
Definition event_types : list string :=
  [ "content_block_delta"; "message_stop"; "error" ].

(** One event of an event stream: the line of its type, the line of its
    data, and the blank line that ends it. *)
Definition framed (record : string) : Prop :=
  exists type data,
    In type event_types /\
    split_lines record = [ "event: " ++ type; "data: " ++ data; ""; "" ].

(** A printable ASCII character other than the space. *)
Definition printable (c : ascii) : bool :=
  ((33 <=? code c) && (code c <=? 126))%N.

Fixpoint has_printable (s : string) : bool :=
  match s with
  | "" => false
  | String c r => printable c || has_printable r
  end.

(** A block that stands for a tool: a tool result, or a tool use with a
    name and a truthy input. *)
Definition tool_block (block : AnthropicContent.t) : Prop :=
  AnthropicContent.type block = "tool_result" \/
  (AnthropicContent.type block = "tool_use" /\
   present (AnthropicContent.name block) = true /\
   JS.truthy (AnthropicContent.input block) = true).

(** [msg.role === 'assistant' ? 'assistant' : 'user'] *)
Definition target_role (role : option string) : GeminiRole :=
  match role with
  | Some "assistant" => assistant
  | _ => user
  end.

(** More sample data, after the repository's integration tests. *)
Module Shell.

Definition env : Env.t := Env.mk (Some "test-api-key").

Definition post (json : result AnthropicRequest.t) : Request.t :=
  Request.mk "POST" (inl "/v1/messages") json.

(** What [Sample.hello_request] is translated to. *)
Definition hello_translated : GeminiRequest.t :=
  GeminiRequest.mk (ModelName "google/gemini-2.5-flash")
    [GeminiMessage.mk user "Hello!"]
    (Some (Number.of_Z 1024)) (Some (Num 7 (-1)))
    None None None None None.

(** What [Sample.tools_request] is translated to. *)
Definition tools_translated : GeminiRequest.t :=
  GeminiRequest.mk (ModelName "google/gemini-2.5-flash")
    [GeminiMessage.mk user "Calculate 2+2"]
    (Some (Number.of_Z 1024)) (Some (Num 7 (-1)))
    None (Some (convertAnthropicToolsToGemini [Sample.calculator]))
    None None None.

(** What the tool call of the repository's test is translated to. *)
Definition tool_call_translated : AnthropicResponse.t :=
  AnthropicResponse.mk (fresh_id Sample.clock) "message" "assistant"
    [ AnthropicContent.tool_use_block "call_123" "calculator"
        (VObj [ ("operation", VStr "add");
                ("a", VNum (Number.of_Z 1));
                ("b", VNum (Number.of_Z 2)) ]) ]
    (Some "claude-3-sonnet") tool_use None
    (AnthropicUsage.mk (Number.of_Z 0) (Number.of_Z 0)).

(** A record whose data marker lacks the space. *)
Definition no_space_line : string := "data:" ++ Sample.chunk_2.

Definition streaming_request : AnthropicRequest.t :=
  AnthropicRequest.mk (Some "claude-3-sonnet")
    (AnthropicRequest.Array [user_text "Hello!"])
    (Some (Number.of_Z 100)) None None None None None None (Some true).

(** What [Shell.streaming_request] is translated to, before [stream] is
    set. *)
Definition streaming_translated : GeminiRequest.t :=
  GeminiRequest.mk (ModelName "google/gemini-2.5-flash")
    [GeminiMessage.mk user "Hello!"]
    (Some (Number.of_Z 100)) (Some (Num 7 (-1)))
    None None None None None.

(** A backend that answers every call with the same response. *)
Definition backend (r : FetchResponse.t) : FetchInit.t -> result FetchResponse.t :=
  fun _ => inl r.

Definition answer_json (data : GeminiResponse.t) : FetchResponse.t :=
  FetchResponse.mk true 200 "OK" (inl "") (inl data) None.

Definition answer_stream (reads : list read) : FetchResponse.t :=
  FetchResponse.mk true 200 "OK" (inl "")
    (inr (SyntaxError "the body is not JSON")) (Some reads).

Definition answer_error (status : Z) (statusText : string) : FetchResponse.t :=
  FetchResponse.mk false status statusText (inl "{}")
    (inr (SyntaxError "unused")) None.

Definition error_object : GeminiResponse.t :=
  GeminiResponse.mk "" "chat.completion" (Number.of_Z 0) "" None None
    (Some (ApiError.mk "invalid_request_error" "Invalid model specified")).

(** A tool result with an empty content, next to an image. *)
Definition tool_result_message : AnthropicMessage.t :=
  AnthropicMessage.mk (Some "tool")
    (AnthropicMessage.Blocks
       [ AnthropicContent.image_block
           (ImageSource.mk "base64" "image/png" "iVBORw0KGgo=");
         AnthropicContent.tool_result_block "call_123" (VStr "") ]).

(** The first choice of a chunk that carries a text, two tool calls and a
    finish reason at once, and the same without the text. *)
Definition crowded_delta (content : list (string * value))
  : list (string * value) :=
  (content
   ++ [ ("tool_calls",
         VArr [ VObj [ ("id", VStr "call_1");
                       ("function",
                        VObj [ ("name", VStr "calculator");
                               ("arguments", VStr "{") ]) ];
                VObj [ ("id", VStr "call_2");
                       ("function",
                        VObj [ ("name", VStr "clock");
                               ("arguments", VStr "{}") ]) ] ]) ])%list.

Definition crowded_choice (content : list (string * value))
  : list (string * value) :=
  [ ("index", VNum (Number.of_Z 0));
    ("delta", VObj (crowded_delta content));
    ("finish_reason", VStr "tool_calls") ].

Definition crowded_chunk (content : list (string * value)) : value :=
  VObj [ ("id", VStr "chunk_9");
         ("choices", VArr [ VObj (crowded_choice content) ]) ].

(** Two text chunks and the terminator, cut in the middle of a line. *)
Definition text_stream : list string :=
  [ "data: " ++ Sample.chunk_1 ++ LF ++ LF ++ "data: {";
    slice 1 Sample.chunk_2 ++ LF ++ LF ++ "data: [DONE]" ++ LF ++ LF ].

End Shell.

(** * Properties *)

(** ** Falsy strings *)

Lemma nonempty_iff (s : string) : nonempty s = true <-> s <> "".
Proof.
  destruct s; simpl; split; intro H; try discriminate; try reflexivity.
  now contradiction H.
Qed.

Lemma nonempty_false_iff (s : string) : nonempty s = false <-> s = "".
Proof.
  destruct s; simpl; split; intro H; try discriminate; reflexivity.
Qed.

Lemma present_false_iff (o : option string) :
  present o = false <-> o = None \/ o = Some "".
Proof.
  destruct o as [s|]; simpl.
  - rewrite nonempty_false_iff. split.
    + intros ->. now right.
    + intros [H|H]; [discriminate | now inversion H].
  - split; [now left | reflexivity].
Qed.

Lemma present_true_iff (o : option string) :
  present o = true <-> exists s, o = Some s /\ s <> "".
Proof.
  destruct o as [s|]; simpl.
  - rewrite nonempty_iff. split.
    + intro H. now exists s.
    + intros (s' & E & H). now inversion E; subst.
  - split; [discriminate | intros (s & E & _); discriminate].
Qed.

(** ** The validator *)

Section Validator.

Variable request : AnthropicRequest.t.

Let model := AnthropicRequest.model request.
Let messages := AnthropicRequest.messages request.

Lemma validate_missing_model :
  model = None \/ model = Some "" ->
  validateAnthropicRequest request
  = ConversionResult.fail "Missing required field: model".
Proof.
  intro H. apply present_false_iff in H.
  unfold validateAnthropicRequest. fold model. now rewrite H.
Qed.

Lemma validate_invalid_messages :
  present model = true ->
  isArray messages = false ->
  validateAnthropicRequest request
  = ConversionResult.fail "Missing or invalid messages field".
Proof.
  intros Hm Ha. unfold validateAnthropicRequest. fold model messages.
  rewrite Hm, Ha. simpl. now rewrite orb_true_r.
Qed.

Lemma validate_empty_messages :
  present model = true ->
  messages = AnthropicRequest.Array [] ->
  validateAnthropicRequest request
  = ConversionResult.fail "Messages array cannot be empty".
Proof.
  intros Hm Ha. unfold validateAnthropicRequest. fold model messages.
  now rewrite Hm, Ha.
Qed.

Lemma validate_accepts (m : AnthropicMessage.t) (l : list AnthropicMessage.t) :
  present model = true ->
  messages = AnthropicRequest.Array (m :: l) ->
  validateAnthropicRequest request = ConversionResult.ok_void.
Proof.
  intros Hm Ha. unfold validateAnthropicRequest. fold model messages.
  now rewrite Hm, Ha.
Qed.

End Validator.

(** C6. The validator fails exactly when the model is absent or empty, or
    the messages field is absent, not an array, or an empty array; the
    three checks run in that order, the first failing one decides the error
    string, and a request with a non-empty model and a non-empty messages
    array is accepted. *)
Theorem validateAnthropicRequest_spec (request : AnthropicRequest.t) :
  let model := AnthropicRequest.model request in
  let messages := AnthropicRequest.messages request in
  let result := validateAnthropicRequest request in
  let missing_model := model = None \/ model = Some "" in
  let not_an_array := forall msgs, messages <> AnthropicRequest.Array msgs in
  let empty_array := messages = AnthropicRequest.Array [] in
  (missing_model ->
   result = ConversionResult.fail "Missing required field: model") /\
  (~ missing_model -> not_an_array ->
   result = ConversionResult.fail "Missing or invalid messages field") /\
  (~ missing_model -> empty_array ->
   result = ConversionResult.fail "Messages array cannot be empty") /\
  (forall M m l,
     model = Some M -> M <> "" -> messages = AnthropicRequest.Array (m :: l) ->
     result = ConversionResult.ok_void) /\
  (ConversionResult.success result = false
   <-> missing_model \/ not_an_array \/ empty_array).
Proof.
  intros model messages result missing_model not_an_array empty_array.
  assert (Hpresent : ~ missing_model -> present model = true).
  { intro H. destruct (present model) eqn:E; [reflexivity|].
    apply present_false_iff in E. contradiction. }
  assert (Harr : not_an_array -> isArray messages = false).
  { intro H. destruct messages as [|v|msgs] eqn:E; try reflexivity.
    now contradiction (H msgs). }
  repeat split.
  - apply validate_missing_model.
  - intros Hm Ha. apply validate_invalid_messages; auto.
  - intros Hm He. apply validate_empty_messages; auto.
  - intros M m l EM HM Ha. apply validate_accepts with (m := m) (l := l); auto.
    apply present_true_iff. now exists M.
  - intro Hfail.
    destruct (present model) eqn:Ep.
    + right. destruct messages as [|v|[|m l]] eqn:Em.
      * left. intros msgs. discriminate.
      * left. intros msgs. discriminate.
      * now right.
      * subst result. rewrite (validate_accepts request m l Ep Em) in Hfail.
        discriminate.
    + left. now apply present_false_iff.
  - intros [Hm | [Ha | He]].
    + subst result. now rewrite validate_missing_model.
    + destruct (present model) eqn:Ep.
      * subst result. rewrite validate_invalid_messages; auto.
      * subst result. rewrite validate_missing_model; auto.
        now apply present_false_iff.
    + destruct (present model) eqn:Ep.
      * subst result. rewrite validate_empty_messages; auto.
      * subst result. rewrite validate_missing_model; auto.
        now apply present_false_iff.
Qed.

(** ** The model mapper *)


Lemma own_in (key : string) (table : list (string * string)) (v : string) :
  own key table = Some v -> In (key, v) table.
Proof.
  induction table as [|[k w] r IH]; simpl; [discriminate|].
  destruct (String.eqb key k) eqn:E.
  - apply String.eqb_eq in E. intro H. inversion H. subst. now left.
  - intro H. right. now apply IH.
Qed.

Lemma MODEL_MAPPING_values :
  Forall (fun kv => In (snd kv) tiers /\ nonempty (snd kv) = true) MODEL_MAPPING.
Proof.
  unfold MODEL_MAPPING, tiers.
  repeat (constructor; [simpl; tauto|]). constructor.
Qed.

(** The table is read as written: each key yields its own value. *)
Lemma getGeminiModel_known :
  Forall (fun kv => getGeminiModel (fst kv) = ModelName (snd kv)) MODEL_MAPPING.
Proof.
  unfold MODEL_MAPPING. repeat (constructor; [reflexivity|]). constructor.
Qed.


Lemma getGeminiModel_unrecognized (claudeModel : string) :
  inherited claudeModel = false ->
  own claudeModel MODEL_MAPPING = None ->
  let lowerModel := toLowerCase claudeModel in
  getGeminiModel claudeModel =
  ModelName
    (if includes lowerModel "opus" then "google/gemini-2.5-pro"
     else if includes lowerModel "sonnet" then "google/gemini-2.5-flash"
     else if includes lowerModel "haiku" then "google/gemini-2.5-flash-lite"
     else "google/gemini-2.5-flash").
Proof.
  intros Hin Hown. unfold getGeminiModel, MODEL_MAPPING_get.
  now rewrite Hown, Hin.
Qed.

(** C5. On the identifier [constructor], which is not a key of the table,
    the table read [MODEL_MAPPING[claudeModel]] finds the member inherited
    from [Object.prototype]; it is truthy, so the mapper returns it: not a
    tier identifier, and not the balanced tier the claim promises for an
    unrecognized identifier. *)
Theorem getGeminiModel_constructor :
  own "constructor" MODEL_MAPPING = None /\
  getGeminiModel "constructor" = ObjectPrototypeMember "constructor" /\
  ~ In (getGeminiModel "constructor") (map ModelName tiers).
Proof.
  split; [reflexivity|]. split; [reflexivity|].
  simpl. intros [H|[H|[H|[]]]]; discriminate.
Qed.


(** ** The request translator *)

Lemma convertAnthropicToGemini_returns (request : AnthropicRequest.t)
  (model : string) (msgs : list AnthropicMessage.t) :
  AnthropicRequest.model request = Some model ->
  AnthropicRequest.messages request = AnthropicRequest.Array msgs ->
  exists t,
    convertAnthropicToGemini_body request = inl t /\
    convertAnthropicToGemini request = ConversionResult.ok t.
Proof.
  intros Hm Hs. unfold convertAnthropicToGemini, convertAnthropicToGemini_body.
  rewrite Hm, Hs. simpl. eexists. split; reflexivity.
Qed.

(** A request without a model or without an array of messages makes the
    translation throw; the throw is caught and reported. *)
Lemma convertAnthropicToGemini_fails (request : AnthropicRequest.t) :
  AnthropicRequest.model request = None \/
  isArray (AnthropicRequest.messages request) = false ->
  exists m,
    convertAnthropicToGemini request
    = ConversionResult.fail ("Request conversion failed: " ++ m).
Proof.
  unfold convertAnthropicToGemini, convertAnthropicToGemini_body.
  intros [H|H].
  - rewrite H. simpl. eexists. reflexivity.
  - destruct (AnthropicRequest.model request);
      destruct (AnthropicRequest.messages request) as [|[]|]; simpl in *;
      try discriminate; eexists; reflexivity.
Qed.

(** C10. When the translation returns a target request (the request has a
    model and an array of messages), an explicit [max_tokens] of 0 is
    replaced by 1024 exactly as an absent one is, any other value is kept;
    an explicit temperature, 0 included, is kept, and only an absent one
    becomes 0.7. *)
Theorem scalar_defaults (request : AnthropicRequest.t) (model : string)
  (msgs : list AnthropicMessage.t) :
  AnthropicRequest.model request = Some model ->
  AnthropicRequest.messages request = AnthropicRequest.Array msgs ->
  exists t,
    convertAnthropicToGemini request = ConversionResult.ok t /\
    (forall n, AnthropicRequest.max_tokens request = Some n ->
               Number.is_zero n = true ->
               GeminiRequest.max_tokens t = Some (Number.of_Z 1024)) /\
    (AnthropicRequest.max_tokens request = None ->
     GeminiRequest.max_tokens t = Some (Number.of_Z 1024)) /\
    (forall n, AnthropicRequest.max_tokens request = Some n ->
               Number.is_zero n = false ->
               GeminiRequest.max_tokens t = Some n) /\
    (forall x, AnthropicRequest.temperature request = Some x ->
               GeminiRequest.temperature t = Some x) /\
    (AnthropicRequest.temperature request = None ->
     GeminiRequest.temperature t = Some (Num 7 (-1))).
Proof.
  intros Hm Hs.
  destruct (convertAnthropicToGemini_returns request model msgs Hm Hs)
    as (t & Hbody & Hok).
  exists t. split; [exact Hok|].
  unfold convertAnthropicToGemini_body in Hbody.
  rewrite Hm, Hs in Hbody. simpl in Hbody.
  injection Hbody as <-. simpl.
  repeat split.
  - intros n -> Hz. now rewrite Hz.
  - now intros ->.
  - intros n -> Hz. now rewrite Hz.
  - now intros x ->.
  - now intros ->.
Qed.

Lemma scalar_defaults_witness :
  exists t,
    convertAnthropicToGemini Sample.zero_request = ConversionResult.ok t /\
    (forall n, AnthropicRequest.max_tokens Sample.zero_request = Some n ->
               Number.is_zero n = true ->
               GeminiRequest.max_tokens t = Some (Number.of_Z 1024)) /\
    (AnthropicRequest.max_tokens Sample.zero_request = None ->
     GeminiRequest.max_tokens t = Some (Number.of_Z 1024)) /\
    (forall n, AnthropicRequest.max_tokens Sample.zero_request = Some n ->
               Number.is_zero n = false ->
               GeminiRequest.max_tokens t = Some n) /\
    (forall x, AnthropicRequest.temperature Sample.zero_request = Some x ->
               GeminiRequest.temperature t = Some x) /\
    (AnthropicRequest.temperature Sample.zero_request = None ->
     GeminiRequest.temperature t = Some (Num 7 (-1))).
Proof.
  apply (scalar_defaults Sample.zero_request "claude-3-sonnet"
           [user_text "Hello!"]); reflexivity.
Defined.

(** The sample request with [max_tokens: 0, temperature: 0] is sent with
    [max_tokens: 1024, temperature: 0]. *)
Example zero_request_translated :
  option_map (fun t => (GeminiRequest.max_tokens t, GeminiRequest.temperature t))
    (ConversionResult.data (convertAnthropicToGemini Sample.zero_request))
  = Some (Some (Number.of_Z 1024), Some (Number.of_Z 0)).
Proof. reflexivity. Qed.

(** ** Tool choice *)

(** C8, as the code has it. ['auto'] and ['any'] become ['auto']; a named
    tool becomes the function of that name when the name is not empty, and
    ['auto'] when it is empty; an absent choice becomes no value. A request
    with tools and no [tool_choice] is translated with its tools and
    without a [tool_choice]. *)
Theorem convertAnthropicToolChoice_spec :
  convertAnthropicToolChoice (Some (AnthropicToolChoice.Str "auto"))
  = Some choice_auto /\
  convertAnthropicToolChoice (Some (AnthropicToolChoice.Str "any"))
  = Some choice_auto /\
  (forall N, N <> "" ->
     convertAnthropicToolChoice (Some (AnthropicToolChoice.Obj "tool" N))
     = Some (choice_function N)) /\
  convertAnthropicToolChoice (Some (AnthropicToolChoice.Obj "tool" ""))
  = Some choice_auto /\
  convertAnthropicToolChoice None = None /\
  (forall request model msgs tool tools,
     AnthropicRequest.model request = Some model ->
     AnthropicRequest.messages request = AnthropicRequest.Array msgs ->
     AnthropicRequest.tools request = Some (tool :: tools) ->
     AnthropicRequest.tool_choice request = None ->
     exists t,
       convertAnthropicToGemini request = ConversionResult.ok t /\
       GeminiRequest.tools t
       = Some (convertAnthropicToolsToGemini (tool :: tools)) /\
       GeminiRequest.tool_choice t = None).
Proof.
  repeat split.
  - intros N HN. apply nonempty_iff in HN.
    unfold convertAnthropicToolChoice. simpl. now rewrite HN.
  - intros request model msgs tool tools Hm Hs Ht Hc.
    destruct (convertAnthropicToGemini_returns request model msgs Hm Hs)
      as (t & Hbody & Hok).
    exists t. split; [exact Hok|].
    unfold convertAnthropicToGemini_body in Hbody.
    rewrite Hm, Hs, Ht, Hc in Hbody. simpl in Hbody.
    injection Hbody as <-. split; reflexivity.
Qed.

(** The claim of C8 fails for the empty name: [{ type: 'tool', name: '' }]
    is not mapped to the function of that name. *)
Lemma tool_choice_empty_name :
  convertAnthropicToolChoice (Some (AnthropicToolChoice.Obj "tool" ""))
  <> Some (choice_function "").
Proof. discriminate. Qed.

(** The repository's own cases. *)
Example tool_choice_calculator :
  convertAnthropicToolChoice (Some (AnthropicToolChoice.Obj "tool" "calculator"))
  = Some (choice_function "calculator").
Proof. reflexivity. Qed.

Example tools_request_translated :
  option_map (fun t => (List.length (match GeminiRequest.tools t with
                                      | Some l => l
                                      | None => []
                                      end),
                         GeminiRequest.tool_choice t))
    (ConversionResult.data (convertAnthropicToGemini Sample.tools_request))
  = Some (1%nat, None).
Proof. reflexivity. Qed.

(** ** The unary response translator *)






(** The tool call of the repository's test, with well-formed arguments. *)
Example tool_call_translated :
  option_map (fun r => (AnthropicResponse.content r, AnthropicResponse.stop_reason r))
    (ConversionResult.data
       (convertGeminiToAnthropic Sample.clock
          (Sample.tool_call_response (js "{'operation':'add','a':1,'b':2}"))
          Sample.hello_request))
  = Some ([AnthropicContent.tool_use_block "call_123" "calculator"
             (VObj [ ("operation", VStr "add");
                     ("a", VNum (Number.of_Z 1));
                     ("b", VNum (Number.of_Z 2)) ])],
          tool_use).
Proof. vm_compute. reflexivity. Qed.

(** C2. A plain-text request with one user message and a non-empty model
    identifier, once translated, and a single-choice, text-only backend
    response finished by [stop] that carries the same text, translate back
    to a response whose only block is that text, whose stop reason is
    [end_turn] and whose model is the identifier the caller asked for. *)
Theorem round_trip_plain_text (clock : Clock) (T M : string)
  (request : AnthropicRequest.t) (geminiResponse : GeminiResponse.t)
  (choice : GeminiChoice.t) (message : GeminiChoiceMessage.t) :
  M <> "" ->
  AnthropicRequest.model request = Some M ->
  AnthropicRequest.messages request = AnthropicRequest.Array [user_text T] ->
  ConversionResult.success (convertAnthropicToGemini request) = true ->
  GeminiResponse.error geminiResponse = None ->
  GeminiResponse.choices geminiResponse = Some [choice] ->
  GeminiChoice.message choice = Some message ->
  GeminiChoiceMessage.content message = Some T ->
  (GeminiChoiceMessage.tool_calls message = None \/
   GeminiChoiceMessage.tool_calls message = Some []) ->
  GeminiChoice.finish_reason choice = Some "stop" ->
  exists response,
    convertGeminiToAnthropic clock geminiResponse request
    = ConversionResult.ok response /\
    AnthropicResponse.content response = [AnthropicContent.text_block T] /\
    AnthropicResponse.stop_reason response = end_turn /\
    AnthropicResponse.model response = Some M.
Proof.
  intros _ Hmodel _ _ Herr Hch Hmsg Hcontent Hcalls Hfinish.
  unfold convertGeminiToAnthropic, convertGeminiToAnthropic_body.
  rewrite Herr, Hch. simpl. rewrite Hmsg, Hcontent, Hfinish, Hmodel.
  assert (Htools :
    match GeminiChoiceMessage.tool_calls message with
    | Some calls =>
        if (0 <? List.length calls)%nat
        then blocks <- tool_use_blocks calls ;; ret (blocks, tool_use)
        else ret ([], end_turn)
    | None => ret ([], end_turn)
    end = inl ([], end_turn)).
  { destruct Hcalls as [-> | ->]; reflexivity. }
  rewrite Htools. simpl.
  eexists. split; [reflexivity|]. simpl.
  destruct T; simpl; auto.
Qed.

Lemma round_trip_plain_text_witness :
  exists response,
    convertGeminiToAnthropic Sample.clock (Sample.text_response "Hello!")
      Sample.hello_request
    = ConversionResult.ok response /\
    AnthropicResponse.content response = [AnthropicContent.text_block "Hello!"] /\
    AnthropicResponse.stop_reason response = end_turn /\
    AnthropicResponse.model response = Some "claude-3-sonnet".
Proof.
  eapply (round_trip_plain_text Sample.clock "Hello!" "claude-3-sonnet"
            Sample.hello_request (Sample.text_response "Hello!")).
  - discriminate.
  - reflexivity.
  - reflexivity.
  - reflexivity.
  - reflexivity.
  - reflexivity.
  - reflexivity.
  - reflexivity.
  - left. reflexivity.
  - reflexivity.
Defined.

(** The mapped identifier is not the one echoed: the request is sent for
    [google/gemini-2.5-flash] and answered for [claude-3-sonnet]. *)
Example round_trip_models :
  option_map GeminiRequest.model
    (ConversionResult.data (convertAnthropicToGemini Sample.hello_request))
  = Some (ModelName "google/gemini-2.5-flash") /\
  option_map AnthropicResponse.model
    (ConversionResult.data
       (convertGeminiToAnthropic Sample.clock (Sample.text_response "Hello!")
          Sample.hello_request))
  = Some (Some "claude-3-sonnet").
Proof. split; reflexivity. Qed.

(** ** Messages without content *)





(** The index of a message only serves the log. *)
Lemma convertAnthropicMessage_index (msg : AnthropicMessage.t) (i j : nat) :
  convertAnthropicMessage msg i = convertAnthropicMessage msg j.
Proof. reflexivity. Qed.



Lemma convertAnthropicMessage_role (msg : AnthropicMessage.t) (i : nat)
  (g : GeminiMessage.t) :
  convertAnthropicMessage msg i = Some g -> GeminiMessage.role g <> system.
Proof.
  unfold convertAnthropicMessage.
  destruct (negb (nonempty (trim (flatten msg)))); [discriminate|].
  intro H. injection H as <-. simpl.
  destruct (AnthropicMessage.role msg) as [r|]; [|discriminate].
  destruct (String.eqb r "assistant"); discriminate.
Qed.





(** The case of the specification: a text message, then a message with
    nothing but an image. *)
Example image_only_dropped :
  option_map GeminiRequest.messages
    (ConversionResult.data
       (convertAnthropicToGemini
          (plain_request (Some "claude-3-sonnet")
             (AnthropicRequest.Array [user_text "Hello!"; Sample.image_only]))))
  = Some [GeminiMessage.mk user "Hello!"].
Proof. reflexivity. Qed.

(** White space beyond ASCII counts: a no-break space and an ideographic
    space make a message without content. *)
Example trim_unicode_spaces :
  convertAnthropicMessage
    (user_text (" " ++ of_codes [194; 160; 227; 128; 128]%N ++ LF)) 0 = None.
Proof. reflexivity. Qed.

(** ** Lines *)

Lemma append_assoc (a b c : string) : (a ++ b) ++ c = a ++ (b ++ c).
Proof. induction a as [|x a IH]; simpl; [reflexivity | now rewrite IH]. Qed.

Lemma append_empty_r (a : string) : a ++ "" = a.
Proof. induction a as [|x a IH]; simpl; [reflexivity | now rewrite IH]. Qed.

Lemma split_lines_nonempty (s : string) : split_lines s <> [].
Proof.
  destruct s as [|c r]; simpl; [discriminate|].
  destruct (code c =? 10)%N; [discriminate|].
  destruct (split_lines r); discriminate.
Qed.

(** Splitting a text in two pieces: the last line of the first piece is
    continued by the first line of the second. *)
Lemma split_lines_app (a b : string) :
  split_lines (a ++ b)
  = (removelast (split_lines a)
     ++ match split_lines b with
        | h :: t => (last (split_lines a) "" ++ h)%string :: t
        | [] => []
        end)%list.
Proof.
  pose proof (split_lines_nonempty b) as Hb.
  destruct (split_lines b) as [|hb tb] eqn:Eb; [contradiction|clear Hb].
  induction a as [|c r IH]; [simpl; now rewrite Eb|].
  pose proof (split_lines_nonempty r) as Hr.
  simpl. rewrite IH.
  destruct (split_lines r) as [|h0 t0]; [contradiction|].
  destruct (code c =? 10)%N.
  - reflexivity.
  - destruct t0 as [|h1 t1]; reflexivity.
Qed.

Lemma split_lines_one_line (s : string) : Forall one_line (split_lines s).
Proof.
  induction s as [|c r IH]; [repeat constructor|].
  pose proof (split_lines_nonempty r) as Hr.
  simpl. destruct (code c =? 10)%N eqn:Ec.
  - constructor; [reflexivity | exact IH].
  - destruct (split_lines r) as [|h t]; [contradiction|].
    inversion IH as [|? ? Hh Ht]; subst.
    constructor; [|exact Ht].
    unfold one_line in *. simpl. now rewrite Ec, Hh.
Qed.

Lemma last_split_lines_one_line (s : string) :
  one_line (last (split_lines s) "").
Proof.
  pose proof (split_lines_one_line s) as H.
  pose proof (split_lines_nonempty s) as Hn.
  induction H as [|x l Hx Hl IH]; [contradiction|].
  destruct l as [|y l']; [exact Hx|].
  apply IH. discriminate.
Qed.

(** After a piece that is a single unfinished line, the lines are those of
    what follows, the first continued. *)
Lemma split_lines_after_one_line (buffer b : string) :
  one_line buffer ->
  split_lines (buffer ++ b)
  = match split_lines b with
    | h :: t => (buffer ++ h) :: t
    | [] => []
    end.
Proof.
  intro H. rewrite split_lines_app. unfold one_line in H. now rewrite H.
Qed.

Lemma last_app_cons {A} (l : list A) (x : A) (r : list A) (d : A) :
  last (l ++ x :: r) d = last (x :: r) d.
Proof.
  induction l as [|y l IH]; [reflexivity|].
  simpl app. rewrite <- IH. simpl.
  destruct (l ++ x :: r)%list eqn:E; [|reflexivity].
  now destruct l.
Qed.

Lemma removelast_app_cons {A} (l : list A) (x : A) (r : list A) :
  removelast (l ++ x :: r) = (l ++ removelast (x :: r))%list.
Proof. apply removelast_app. discriminate. Qed.

(** The buffer is the unfinished last line of the text read so far. *)
Lemma buffer_after_last (buffer : string) (texts : list string) :
  one_line buffer ->
  buffer_after buffer texts
  = last (split_lines (buffer ++ stream_text texts)) "".
Proof.
  revert buffer. induction texts as [|text rest IH]; intros buffer Hb.
  - simpl. rewrite append_empty_r. unfold one_line in Hb. now rewrite Hb.
  - simpl buffer_after. rewrite IH by apply last_split_lines_one_line.
    assert (E : stream_text (text :: rest) = text ++ stream_text rest).
    { unfold stream_text. simpl. destruct rest; [|reflexivity].
      simpl. now rewrite append_empty_r. }
    rewrite E, <- append_assoc.
    rewrite (split_lines_app (buffer ++ text)).
    rewrite (split_lines_after_one_line _ (stream_text rest))
      by apply last_split_lines_one_line.
    pose proof (split_lines_nonempty (stream_text rest)) as Hn.
    destruct (split_lines (stream_text rest)) as [|h t]; [contradiction|].
    now rewrite last_app_cons.
Qed.

(** The batches, put end to end, are the complete lines of the text. *)
Lemma batches_complete_lines (buffer : string) (texts : list string) :
  one_line buffer ->
  List.concat (batches buffer texts)
  = complete_lines (buffer ++ stream_text texts).
Proof.
  revert buffer. induction texts as [|text rest IH]; intros buffer Hb.
  - simpl. rewrite append_empty_r. unfold complete_lines, one_line in *.
    now rewrite Hb.
  - simpl batches. simpl List.concat.
    rewrite IH by apply last_split_lines_one_line.
    assert (E : stream_text (text :: rest) = text ++ stream_text rest).
    { unfold stream_text. simpl. destruct rest; [|reflexivity].
      simpl. now rewrite append_empty_r. }
    rewrite E, <- append_assoc. unfold complete_lines.
    rewrite (split_lines_app (buffer ++ text)).
    rewrite (split_lines_after_one_line _ (stream_text rest))
      by apply last_split_lines_one_line.
    pose proof (split_lines_nonempty (stream_text rest)) as Hn.
    destruct (split_lines (stream_text rest)) as [|h t]; [contradiction|].
    now rewrite removelast_app_cons.
Qed.

(** ** The read loop *)

Lemma read_loop_chunks (texts : list string) (rest : list read)
  (buffer : string) (req : AnthropicRequest.t) (w : Writer) :
  read_loop (map Chunk texts ++ rest) buffer req w
  = read_loop rest (buffer_after buffer texts) req
      (process_batches (batches buffer texts) req w).
Proof.
  revert buffer w. induction texts as [|text more IH]; intros buffer w.
  - reflexivity.
  - simpl. now rewrite IH.
Qed.

Lemma read_loop_all_chunks (texts : list string) (buffer : string)
  (req : AnthropicRequest.t) (w : Writer) :
  read_loop (map Chunk texts) buffer req w
  = (process_batches (batches buffer texts) req w, None).
Proof.
  rewrite <- (app_nil_r (map Chunk texts)). now rewrite read_loop_chunks.
Qed.

(** ** The line loop *)

Lemma startsWith_data_line (p : string) : startsWith (data_line p) "data: " = true.
Proof. unfold startsWith, data_line. simpl. now destruct p. Qed.

Lemma slice_data_line (p : string) : slice 6 (data_line p) = p.
Proof. reflexivity. Qed.

Lemma process_lines_cons (line : string) (rest : list string)
  (req : AnthropicRequest.t) (w : Writer) :
  process_lines (line :: rest) req w
  = if startsWith line "data: "
    then if String.eqb (slice 6 line) "[DONE]"
         then write w (record_of message_stop)
         else process_lines rest req (process_data (slice 6 line) req w)
    else process_lines rest req w.
Proof. reflexivity. Qed.

Lemma data_lines_cons (line : string) (rest : list string) :
  data_lines (line :: rest)
  = if startsWith line "data: " then line :: data_lines rest
    else data_lines rest.
Proof. reflexivity. Qed.

(** Lines without the data marker are passed over. *)
Lemma process_lines_data_lines (lines : list string)
  (req : AnthropicRequest.t) (w : Writer) :
  process_lines lines req w = process_lines (data_lines lines) req w.
Proof.
  revert w. induction lines as [|line rest IH]; intro w; [reflexivity|].
  rewrite data_lines_cons, process_lines_cons.
  destruct (startsWith line "data: ") eqn:E; [|apply IH].
  rewrite process_lines_cons, E.
  destruct (String.eqb (slice 6 line) "[DONE]"); [reflexivity | apply IH].
Qed.

(** Before the terminator the loop goes line by line. *)
Lemma process_lines_app (A R : list string) (req : AnthropicRequest.t)
  (w : Writer) :
  Forall (fun line => slice 6 line <> "[DONE]") A ->
  process_lines (A ++ R) req w = process_lines R req (process_lines A req w).
Proof.
  intro H. revert w. induction H as [|line A Hline _ IH]; intro w; [reflexivity|].
  rewrite <- app_comm_cons, !process_lines_cons.
  apply String.eqb_neq in Hline. rewrite Hline.
  destruct (startsWith line "data: "); apply IH.
Qed.

Lemma process_lines_terminator (rest : list string) (req : AnthropicRequest.t)
  (w : Writer) :
  process_lines (data_line "[DONE]" :: rest) req w
  = write w (record_of message_stop).
Proof. reflexivity. Qed.

Lemma process_lines_payload (p : string) (rest : list string)
  (req : AnthropicRequest.t) (w : Writer) :
  p <> "[DONE]" ->
  process_lines (data_line p :: rest) req w
  = process_lines rest req (process_data p req w).
Proof.
  intro H. apply String.eqb_neq in H.
  now rewrite process_lines_cons, startsWith_data_line, slice_data_line, H.
Qed.

Lemma data_lines_app (a b : list string) :
  data_lines (a ++ b) = (data_lines a ++ data_lines b)%list.
Proof. apply filter_app. Qed.

Lemma nil_or_last {A} (l : list A) :
  l = [] \/ exists front x, l = (front ++ [x])%list.
Proof.
  induction l as [|x front _] using rev_ind; [now left|].
  right. now exists front, x.
Qed.

(** Batches without a data line write nothing. *)
Lemma process_batches_no_data (bs : list (list string))
  (req : AnthropicRequest.t) (w : Writer) :
  data_lines (List.concat bs) = [] -> process_batches bs req w = w.
Proof.
  revert w. induction bs as [|b bs IH]; intros w H; [reflexivity|].
  simpl in H. rewrite data_lines_app in H.
  apply app_eq_nil in H as [Hb Hbs].
  unfold process_batches in *. simpl.
  rewrite process_lines_data_lines, Hb. simpl. now apply IH.
Qed.

(** When the terminator is the last data line of a stream, the batches
    write what the line loop writes on all the data lines at once. *)
Lemma process_batches_terminated (bs : list (list string))
  (D : list string) (req : AnthropicRequest.t) (w : Writer) :
  data_lines (List.concat bs) = (D ++ [data_line "[DONE]"])%list ->
  Forall (fun line => slice 6 line <> "[DONE]") D ->
  process_batches bs req w
  = write (process_lines D req w) (record_of message_stop).
Proof.
  revert D w. induction bs as [|b bs IH]; intros D w H HD.
  - simpl in H. now destruct D.
  - simpl in H. rewrite data_lines_app in H.
    change (process_batches (b :: bs) req w)
      with (process_batches bs req (process_lines b req w)).
    rewrite process_lines_data_lines.
    destruct (nil_or_last (data_lines (List.concat bs)))
      as [E | (Y & y & E)].
    + rewrite E, app_nil_r in H.
      rewrite process_batches_no_data by exact E.
      rewrite H, process_lines_app by exact HD.
      apply process_lines_terminator.
    + rewrite E, app_assoc in H. apply app_inj_tail in H as [H1 H2].
      subst D. apply Forall_app in HD as [HD1 HD2].
      rewrite H2 in E. rewrite (IH Y _ E HD2).
      now rewrite process_lines_app.
Qed.

(** ** Chunks *)

Lemma terminator_not_json : exists e, JSON.parse "[DONE]" = inr e.
Proof. eexists. vm_compute. reflexivity. Qed.

Lemma parsed_not_terminator (p : string) (chunk : value) :
  JSON.parse p = inl chunk -> p <> "[DONE]".
Proof.
  intros H ->. destruct terminator_not_json as (e & He). congruence.
Qed.

(** A chunk with text becomes a text delta at block 0. *)
Lemma convert_text_chunk (chunk : value) (choice delta : list (string * value))
  (t : string) (req : AnthropicRequest.t) :
  first_choice chunk choice ->
  JS.assoc "delta" choice = Some (VObj delta) ->
  JS.assoc "content" delta = Some (VStr t) ->
  t <> "" ->
  convertGeminiStreamChunk chunk req = inl (text_delta (VStr t)).
Proof.
  intros (props & rest & -> & Hch) Hd Hc Ht.
  assert (Hv : JS.truthy (VStr t) = true) by now apply nonempty_iff.
  unfold convertGeminiStreamChunk, or_else.
  unfold JS.get at 1. rewrite Hch.
  cbn [bind ret JS.or_undefined JS.first_opt JS.first hd JS.truthy negb].
  unfold JS.get at 1. rewrite Hd. cbn [bind ret JS.or_undefined JS.get_opt].
  unfold JS.get at 1. rewrite Hc. cbn [bind ret JS.or_undefined].
  now rewrite !Hv.
Qed.

(** A chunk with a finish reason and nothing else becomes [message_stop]. *)
Lemma convert_finish_chunk (chunk : value) (choice : list (string * value))
  (reason : string) (req : AnthropicRequest.t) :
  first_choice chunk choice ->
  (JS.assoc "delta" choice = None \/
   exists delta,
     JS.assoc "delta" choice = Some (VObj delta) /\
     JS.assoc "content" delta = None /\
     JS.assoc "tool_calls" delta = None) ->
  JS.assoc "finish_reason" choice = Some (VStr reason) ->
  reason <> "" ->
  convertGeminiStreamChunk chunk req = inl message_stop.
Proof.
  intros (props & rest & -> & Hch) Hd Hf Hr.
  assert (Hv : JS.truthy (VStr reason) = true) by now apply nonempty_iff.
  unfold convertGeminiStreamChunk, or_else.
  unfold JS.get at 1. rewrite Hch.
  cbn [bind ret JS.or_undefined JS.first_opt JS.first hd JS.truthy negb].
  destruct Hd as [Hd | (delta & Hd & Hc & Ht)].
  - unfold JS.get at 1. rewrite Hd.
    cbn [bind ret JS.or_undefined JS.get_opt JS.truthy nonempty].
    unfold JS.get. rewrite Hf. cbn [bind ret JS.or_undefined].
    now rewrite Hv.
  - unfold JS.get at 1. rewrite Hd. cbn [bind ret JS.or_undefined JS.get_opt].
    unfold JS.get at 1. rewrite Hc.
    cbn [bind ret JS.or_undefined JS.truthy nonempty].
    unfold JS.get at 1. rewrite Ht. cbn [bind ret JS.or_undefined JS.truthy].
    unfold JS.get. rewrite Hf. cbn [bind ret JS.or_undefined].
    now rewrite Hv.
Qed.

Lemma process_data_event (p : string) (chunk event : value)
  (req : AnthropicRequest.t) (w : Writer) :
  JSON.parse p = inl chunk ->
  convertGeminiStreamChunk chunk req = inl event ->
  JS.truthy event = true ->
  process_data p req w = write w (record_of event).
Proof.
  intros Hp Hc Ht. unfold process_data. rewrite Hp. cbn [bind].
  now rewrite Hc, Ht.
Qed.

Lemma process_data_text (p t : string) (req : AnthropicRequest.t) (w : Writer) :
  carries_text p t ->
  process_data p req w = write w (record_of (text_delta (VStr t))).
Proof.
  intros (chunk & choice & delta & Hp & Hch & Hd & Hc & Ht).
  apply process_data_event with (chunk := chunk); auto.
  now apply convert_text_chunk with (choice := choice) (delta := delta).
Qed.

Lemma process_data_finish (p : string) (req : AnthropicRequest.t) (w : Writer) :
  carries_only_finish_reason p ->
  process_data p req w = write w (record_of message_stop).
Proof.
  intros (chunk & choice & reason & Hp & Hch & Hd & Hf & Hr).
  apply process_data_event with (chunk := chunk); auto.
  now apply convert_finish_chunk with (choice := choice) (reason := reason).
Qed.


(** ** The stream translator *)

(** C3. Fed two chunks with text, a chunk with only a finish reason and
    the terminator, each on a complete data line, however the lines are cut
    into reads and whatever other lines come between them, the translator
    writes four records and closes: two text deltas at block 0, the
    [message_stop] of the finish reason, and the [message_stop] of the
    terminator. *)
Theorem stream_two_deltas_then_double_stop (texts : list string)
  (p1 p2 p3 t1 t2 : string) (req : AnthropicRequest.t) :
  data_lines (complete_lines (stream_text texts))
  = [data_line p1; data_line p2; data_line p3; data_line "[DONE]"] ->
  carries_text p1 t1 ->
  carries_text p2 t2 ->
  carries_only_finish_reason p3 ->
  processGeminiStream (Some (map Chunk texts)) new_writer req
  = mkWriter [ record_of (text_delta (VStr t1));
               record_of (text_delta (VStr t2));
               record_of message_stop;
               record_of message_stop ] true.
Proof.
  intros Hlines H1 H2 H3.
  assert (N1 : p1 <> "[DONE]").
  { destruct H1 as (c & _ & _ & Hp & _). exact (parsed_not_terminator _ _ Hp). }
  assert (N2 : p2 <> "[DONE]").
  { destruct H2 as (c & _ & _ & Hp & _). exact (parsed_not_terminator _ _ Hp). }
  assert (N3 : p3 <> "[DONE]").
  { destruct H3 as (c & _ & _ & Hp & _). exact (parsed_not_terminator _ _ Hp). }
  unfold processGeminiStream. rewrite read_loop_all_chunks.
  rewrite (process_batches_terminated _
             [data_line p1; data_line p2; data_line p3]).
  - rewrite !process_lines_payload by assumption.
    rewrite (process_data_text p1 t1), (process_data_text p2 t2),
      (process_data_finish p3) by assumption.
    reflexivity.
  - rewrite batches_complete_lines by reflexivity. exact Hlines.
  - repeat constructor; assumption.
Qed.

(** The shape of a sample chunk is read off its parse. *)
Ltac chunk_shape :=
  repeat eexists;
  first [ vm_compute; reflexivity | reflexivity | discriminate
        | left; reflexivity ].

Lemma stream_two_deltas_then_double_stop_witness :
  processGeminiStream (Some (map Chunk Sample.streamData)) new_writer
    Sample.hello_request
  = mkWriter [ record_of (text_delta (VStr "Hello"));
               record_of (text_delta (VStr " there"));
               record_of message_stop;
               record_of message_stop ] true.
Proof.
  apply (stream_two_deltas_then_double_stop Sample.streamData
           Sample.chunk_1 Sample.chunk_2 Sample.chunk_3 "Hello" " there").
  - vm_compute. reflexivity.
  - unfold carries_text, first_choice. chunk_shape.
  - unfold carries_text, first_choice. chunk_shape.
  - unfold carries_only_finish_reason, first_choice. chunk_shape.
Defined.

(** The same four lines in a single read, or cut in the middle of a line,
    give the same four records. *)
Example stream_in_one_read :
  processGeminiStream
    (Some [Chunk (stream_text Sample.streamData)]) new_writer Sample.hello_request
  = processGeminiStream
      (Some (map Chunk Sample.streamData)) new_writer Sample.hello_request.
Proof. vm_compute. reflexivity. Qed.

Example stream_cut_mid_line :
  processGeminiStream
    (Some [ Chunk "da";
            Chunk ("ta: " ++ Sample.chunk_1 ++ LF ++ LF ++ "data: ");
            Chunk (Sample.chunk_2 ++ LF);
            Chunk (LF ++ Sample.backend_record Sample.chunk_3 ++ "data: [DO");
            Chunk ("NE]" ++ LF ++ LF) ])
    new_writer Sample.hello_request
  = processGeminiStream
      (Some (map Chunk Sample.streamData)) new_writer Sample.hello_request.
Proof. vm_compute. reflexivity. Qed.

(** C4. On the terminator the line loop writes one [message_stop] and
    stops, so the lines that follow it in the same read are never looked
    at; but the read loop goes on, and a chunk that arrives in a later read
    is translated: after the [message_stop] of the terminator comes the
    text delta of the late chunk. *)
Theorem events_after_terminator :
  written
    (processGeminiStream
       (Some [ Chunk (Sample.backend_record "[DONE]"
                      ++ Sample.backend_record Sample.chunk_1) ])
       new_writer Sample.hello_request)
  = [ record_of message_stop ] /\
  written
    (processGeminiStream
       (Some [ Chunk (Sample.backend_record "[DONE]");
               Chunk (Sample.backend_record Sample.chunk_1) ])
       new_writer Sample.hello_request)
  = [ record_of message_stop; record_of (text_delta (VStr "Hello")) ].
Proof. split; vm_compute; reflexivity. Qed.

(** In general: a read that holds the terminator line and nothing else
    writes [message_stop], and the loop goes on with the reads that
    follow. *)
Lemma read_loop_after_terminator (rest : list read)
  (req : AnthropicRequest.t) (w : Writer) :
  read_loop (Chunk (data_line "[DONE]" ++ LF) :: rest) "" req w
  = read_loop rest "" req (write w (record_of message_stop)).
Proof. reflexivity. Qed.

(** ** Malformed lines *)

Lemma at_line_boundary_last (text : string) :
  at_line_boundary text -> last (split_lines text) "" = "".
Proof.
  intros [-> | (s & ->)]; [reflexivity|].
  rewrite split_lines_app.
  change (split_lines LF) with [""; ""]. cbv iota.
  now rewrite last_app_cons.
Qed.



(** The lines of a read with and without a line inserted at a line start. *)
Lemma split_lines_inserted (x l b : string) :
  last (split_lines x) "" = "" ->
  one_line l ->
  split_lines (x ++ l ++ LF ++ b)
  = (removelast (split_lines x) ++ l :: split_lines b)%list /\
  split_lines (x ++ b) = (removelast (split_lines x) ++ split_lines b)%list.
Proof.
  intros Hx Hl.
  pose proof (split_lines_nonempty b) as Hb.
  split.
  - rewrite split_lines_app, Hx.
    rewrite (split_lines_after_one_line l (LF ++ b) Hl).
    change (split_lines (LF ++ b)) with ("" :: split_lines b). cbv iota.
    now rewrite append_empty_r.
  - rewrite split_lines_app, Hx.
    now destruct (split_lines b).
Qed.



(** The stream of the witness: the text before and after the broken line
    is translated, and the terminator ends it. *)
Example malformed_line_stream :
  written
    (processGeminiStream
       (Some [ Chunk (Sample.backend_record Sample.chunk_1);
               Chunk (Sample.backend_record Sample.broken_chunk
                      ++ Sample.backend_record Sample.chunk_2);
               Chunk (Sample.backend_record "[DONE]") ])
       new_writer Sample.hello_request)
  = [ record_of (text_delta (VStr "Hello"));
      record_of (text_delta (VStr " there"));
      record_of message_stop ].
Proof. vm_compute. reflexivity. Qed.

(** A chunk that parses but cannot be read, such as [null], is dropped in
    the same way: the property read throws inside the same [try]. *)
Example null_chunk_dropped (w : Writer) :
  process_data "null" Sample.hello_request w = w.
Proof. reflexivity. Qed.

(** When a read fails, an [error] record is written and the writer is
    closed all the same. *)
Example read_failure_reported :
  processGeminiStream
    (Some [ Chunk (Sample.backend_record Sample.chunk_1);
            Rejected (Error "network") ])
    new_writer Sample.hello_request
  = mkWriter [ record_of (text_delta (VStr "Hello")); record_of error_event ] true.
Proof. vm_compute. reflexivity. Qed.

(** The writer is closed whatever the body was. *)
Lemma processGeminiStream_closes (body : option (list read)) (w : Writer)
  (req : AnthropicRequest.t) :
  closed (processGeminiStream body w req) = true.
Proof.
  unfold processGeminiStream.
  destruct (match body with
            | Some reads => read_loop reads "" req w
            | None => (w, Some (Error "No response body to read"))
            end) as [w' [e|]]; reflexivity.
Qed.

(** ** The repository's unit tests, replayed *)

Example maps_known_models :
  map getGeminiModel
    [ "claude-3-sonnet"; "claude-3-opus"; "claude-3-haiku";
      "claude-3.5-sonnet-20240620" ]
  = map ModelName
      [ "google/gemini-2.5-flash"; "google/gemini-2.5-pro";
        "google/gemini-2.5-flash-lite"; "google/gemini-2.5-flash" ].
Proof. reflexivity. Qed.

Example maps_by_pattern :
  map getGeminiModel
    [ "claude-unknown-opus"; "claude-unknown-sonnet"; "claude-unknown-haiku";
      "unknown-model"; "" ]
  = map ModelName
      [ "google/gemini-2.5-pro"; "google/gemini-2.5-flash";
        "google/gemini-2.5-flash-lite"; "google/gemini-2.5-flash";
        "google/gemini-2.5-flash" ].
Proof. reflexivity. Qed.

Example validates_requests :
  validateAnthropicRequest Sample.hello_request = ConversionResult.ok_void /\
  validateAnthropicRequest
    (plain_request None (AnthropicRequest.Array [user_text "Hello"]))
  = ConversionResult.fail "Missing required field: model" /\
  validateAnthropicRequest
    (plain_request (Some "claude-3-sonnet") AnthropicRequest.Absent)
  = ConversionResult.fail "Missing or invalid messages field" /\
  validateAnthropicRequest
    (plain_request (Some "claude-3-sonnet") (AnthropicRequest.Array []))
  = ConversionResult.fail "Messages array cannot be empty".
Proof. repeat split. Qed.

Example converts_text_parts :
  convertAnthropicMessage
    (AnthropicMessage.mk (Some "user")
       (AnthropicMessage.Blocks
          [ AnthropicContent.text_block "First part";
            AnthropicContent.text_block "Second part" ])) 0
  = Some (GeminiMessage.mk user ("First part" ++ LF ++ "Second part")).
Proof. reflexivity. Qed.

Example converts_tool_use :
  convertAnthropicMessage
    (AnthropicMessage.mk (Some "assistant")
       (AnthropicMessage.Blocks
          [ AnthropicContent.tool_use_block "tool_123" "calculator"
              (VObj [ ("operation", VStr "add");
                      ("a", VNum (Number.of_Z 1));
                      ("b", VNum (Number.of_Z 2)) ]) ])) 0
  = Some (GeminiMessage.mk assistant
            (js "[Tool Call: calculator({'operation':'add','a':1,'b':2})]")).
Proof. reflexivity. Qed.

Example converts_tool_result :
  convertAnthropicMessage
    (AnthropicMessage.mk (Some "user")
       (AnthropicMessage.Blocks
          [ AnthropicContent.tool_result_block "tool_123" (VStr "Result: 3") ])) 0
  = Some (GeminiMessage.mk user "[Tool Result: Result: 3]").
Proof. reflexivity. Qed.

Example converts_basic_request :
  convertAnthropicToGemini
    (AnthropicRequest.mk (Some "claude-3-sonnet")
       (AnthropicRequest.Array [user_text "Hello!"])
       (Some (Number.of_Z 100)) (Some (Num 7 (-1)))
       None None None None None None)
  = ConversionResult.ok
      (GeminiRequest.mk (ModelName "google/gemini-2.5-flash")
         [GeminiMessage.mk user "Hello!"]
         (Some (Number.of_Z 100)) (Some (Num 7 (-1)))
         None None None None None).
Proof. reflexivity. Qed.

Example converts_system_and_stop :
  option_map (fun t => (GeminiRequest.messages t, GeminiRequest.top_p t,
                        GeminiRequest.stop t))
    (ConversionResult.data
       (convertAnthropicToGemini
          (AnthropicRequest.mk (Some "claude-3-sonnet")
             (AnthropicRequest.Array [user_text "Hello!"])
             None None (Some (Num 9 (-1)))
             (Some "You are a helpful assistant") None None
             (Some ["stop1"; "stop2"]) None)))
  = Some ([ GeminiMessage.mk system "You are a helpful assistant";
            GeminiMessage.mk user "Hello!" ],
          Some (Num 9 (-1)), Some ["stop1"; "stop2"]).
Proof. reflexivity. Qed.

Example reports_backend_error :
  convertGeminiToAnthropic Sample.clock
    (GeminiResponse.mk "resp_123" "chat.completion" (Number.of_Z 1234567890)
       "google/gemini-2.5-flash" (Some []) None
       (Some (ApiError.mk "invalid_request" "Invalid input")))
    Sample.hello_request
  = ConversionResult.fail "Invalid input" /\
  convertGeminiToAnthropic Sample.clock
    (GeminiResponse.mk "resp_123" "chat.completion" (Number.of_Z 1234567890)
       "google/gemini-2.5-flash" (Some []) None None)
    Sample.hello_request
  = ConversionResult.fail "No response choices from Gemini API".
Proof. split; reflexivity. Qed.

Example converts_stream_chunks :
  (chunk <- JSON.parse
              (js "{'choices':[{'index':0,'delta':{'tool_calls':[{'id':'call_123','type':'function','function':{'name':'calculator','arguments':'{}'}}]}}]}") ;;
   convertGeminiStreamChunk chunk Sample.hello_request)
  = inl (input_json_delta (VStr "{}")) /\
  (chunk <- JSON.parse (js "{'id':'chunk_123','choices':[]}") ;;
   convertGeminiStreamChunk chunk Sample.hello_request)
  = inl VNull.
Proof. split; vm_compute; reflexivity. Qed.

Example fresh_id_sample : fresh_id Sample.clock = "msg_1700000000000_k3j9x2m1q".
Proof. reflexivity. Qed.

(** * Further properties *)

(** ** Validator and request translator together *)

(** A translation that returned a target request had a model and an array
    of messages to work on. *)
Lemma convertAnthropicToGemini_ok_inv (request : AnthropicRequest.t)
  (t : GeminiRequest.t) :
  convertAnthropicToGemini request = ConversionResult.ok t ->
  exists model msgs,
    AnthropicRequest.model request = Some model /\
    AnthropicRequest.messages request = AnthropicRequest.Array msgs /\
    convertAnthropicToGemini_body request = inl t.
Proof.
  intro H.
  destruct (AnthropicRequest.model request) as [model|] eqn:Em.
  - destruct (AnthropicRequest.messages request) as [|v|msgs] eqn:Es.
    + destruct (convertAnthropicToGemini_fails request) as (m & Hf).
      { right. now rewrite Es. }
      rewrite Hf in H. discriminate.
    + destruct (convertAnthropicToGemini_fails request) as (m & Hf).
      { right. now rewrite Es. }
      rewrite Hf in H. discriminate.
    + exists model, msgs. repeat split.
      destruct (convertAnthropicToGemini_returns request model msgs Em Es)
        as (t' & Hb & Hok).
      rewrite Hok in H. now injection H as ->.
  - destruct (convertAnthropicToGemini_fails request) as (m & Hf);
      [now left|].
    rewrite Hf in H. discriminate.
Qed.



Lemma convert_each_kept (msgs : list AnthropicMessage.t) (i : nat) :
  convert_each msgs i = kept msgs.
Proof.
  revert i. induction msgs as [|m r IH]; intro i; [reflexivity|].
  simpl. rewrite (convertAnthropicMessage_index m i 0), (IH (S i)).
  now destruct (convertAnthropicMessage m 0).
Qed.

Lemma kept_length (msgs : list AnthropicMessage.t) :
  (List.length (kept msgs) <= List.length msgs)%nat.
Proof.
  induction msgs as [|m r IH]; [apply le_n|].
  simpl. destruct (convertAnthropicMessage m 0); simpl; lia.
Qed.

Lemma kept_not_blank (msgs : list AnthropicMessage.t) :
  Forall (fun g => GeminiMessage.role g <> system /\
                   trim (GeminiMessage.content g) <> "")
    (kept msgs).
Proof.
  induction msgs as [|m r IH]; [constructor|].
  simpl. destruct (convertAnthropicMessage m 0) as [g|] eqn:E; [|exact IH].
  constructor; [|exact IH]. split.
  - exact (convertAnthropicMessage_role m 0 g E).
  - unfold convertAnthropicMessage in E.
    destruct (nonempty (trim (flatten m))) eqn:En; [|discriminate].
    simpl in E. injection E as <-. simpl. now apply nonempty_iff.
Qed.

(** X2. The messages of a target request are the system prompt, when the
    request has a non-empty one, followed by the translations of the source
    messages that are kept, in source order and nothing else: none of them
    has the system role or a blank content, and the content is the
    flattened text as it is, not trimmed. *)
Theorem target_messages_shape (request : AnthropicRequest.t)
  (t : GeminiRequest.t) :
  convertAnthropicToGemini request = ConversionResult.ok t ->
  exists msgs,
    AnthropicRequest.messages request = AnthropicRequest.Array msgs /\
    GeminiRequest.messages t
    = ((match AnthropicRequest.system request with
        | Some s => if nonempty s then [GeminiMessage.mk system s] else []
        | None => []
        end) ++ kept msgs)%list /\
    (List.length (kept msgs) <= List.length msgs)%nat /\
    Forall (fun g => GeminiMessage.role g <> system /\
                     trim (GeminiMessage.content g) <> "")
      (kept msgs) /\
    (forall msg g, convertAnthropicMessage msg 0 = Some g ->
                   GeminiMessage.content g = flatten msg).
Proof.
  intro H.
  destruct (convertAnthropicToGemini_ok_inv request t H)
    as (model & msgs & Em & Es & Hb).
  exists msgs. split; [exact Es|].
  unfold convertAnthropicToGemini_body in Hb.
  rewrite Em, Es in Hb. simpl in Hb. injection Hb as <-. simpl.
  rewrite convert_each_kept.
  split; [reflexivity|]. split; [apply kept_length|].
  split; [apply kept_not_blank|].
  intros msg g Hg. unfold convertAnthropicMessage in Hg.
  destruct (negb (nonempty (trim (flatten msg)))); [discriminate|].
  now injection Hg as <-.
Qed.

Lemma target_messages_shape_witness :
  exists msgs,
    AnthropicRequest.messages Sample.hello_request = AnthropicRequest.Array msgs /\
    GeminiRequest.messages Shell.hello_translated
    = ((match AnthropicRequest.system Sample.hello_request with
        | Some s => if nonempty s then [GeminiMessage.mk system s] else []
        | None => []
        end) ++ kept msgs)%list /\
    (List.length (kept msgs) <= List.length msgs)%nat /\
    Forall (fun g => GeminiMessage.role g <> system /\
                     trim (GeminiMessage.content g) <> "")
      (kept msgs) /\
    (forall msg g, convertAnthropicMessage msg 0 = Some g ->
                   GeminiMessage.content g = flatten msg).
Proof.
  exact (target_messages_shape Sample.hello_request Shell.hello_translated
           eq_refl).
Defined.

(** A system prompt of spaces is sent as it is; a message of spaces is
    not. *)
Example blank_system_prompt_sent :
  option_map GeminiRequest.messages
    (ConversionResult.data
       (convertAnthropicToGemini
          (AnthropicRequest.mk (Some "claude-3-sonnet")
             (AnthropicRequest.Array [user_text "  "; user_text " Hi "])
             None None None (Some "  ") None None None None)))
  = Some [GeminiMessage.mk system "  "; GeminiMessage.mk user " Hi "].
Proof. reflexivity. Qed.

(** X3. In a target request the optional lists are never sent empty, and a
    tool choice is only sent along with tools: [tools] is absent or the
    one-to-one translation of a non-empty source list, [stop] is absent or
    the non-empty source list itself, and [tool_choice] is present only
    when [tools] is. A [tool_choice] of a request without tools is
    dropped. *)
Theorem optional_fields_sent (request : AnthropicRequest.t)
  (t : GeminiRequest.t) :
  convertAnthropicToGemini request = ConversionResult.ok t ->
  (forall ts, GeminiRequest.tools t = Some ts ->
     ts <> [] /\
     exists tools,
       AnthropicRequest.tools request = Some tools /\
       List.length ts = List.length tools /\
       map (fun g => (GeminiTool.type g,
                      GeminiFunction.name (GeminiTool.function g),
                      GeminiFunction.description (GeminiTool.function g),
                      GeminiFunction.parameters (GeminiTool.function g))) ts
       = map (fun a => ("function", AnthropicTool.name a,
                        AnthropicTool.description a,
                        AnthropicTool.input_schema a)) tools) /\
  (forall l, GeminiRequest.stop t = Some l ->
     l <> [] /\ AnthropicRequest.stop_sequences request = Some l) /\
  (forall c, GeminiRequest.tool_choice t = Some c ->
     GeminiRequest.tools t <> None /\
     convertAnthropicToolChoice (AnthropicRequest.tool_choice request) = Some c) /\
  (GeminiRequest.tools t = None -> GeminiRequest.tool_choice t = None).
Proof.
  intro H.
  destruct (convertAnthropicToGemini_ok_inv request t H)
    as (model & msgs & Em & Es & Hb).
  unfold convertAnthropicToGemini_body in Hb.
  rewrite Em, Es in Hb. simpl in Hb. injection Hb as <-.
  cbn [GeminiRequest.tools GeminiRequest.stop GeminiRequest.tool_choice].
  destruct (AnthropicRequest.tools request) as [[|a tools]|] eqn:Et;
    cbn [List.length Nat.ltb Nat.leb];
    (split; [|split; [|split]]).
  all: try (intros ? Hx; discriminate Hx).
  all: try reflexivity.
  all: try (intros l Hl;
            destruct (AnthropicRequest.stop_sequences request) as [[|x l']|];
            cbn [List.length Nat.ltb Nat.leb] in Hl; try discriminate Hl;
            injection Hl as <-; split; [discriminate | reflexivity]).
  - intros ts Hts. injection Hts as <-. split; [discriminate|].
    exists (a :: tools). split; [reflexivity|].
    unfold convertAnthropicToolsToGemini.
    split; [simpl; now rewrite ?length_map|].
    simpl. now rewrite ?map_map.
  - intros c Hc. split; [discriminate|].
    destruct (AnthropicRequest.tool_choice request) as [c'|];
      [|discriminate Hc].
    destruct (AnthropicToolChoice.truthy c'); [exact Hc | discriminate Hc].
  - intro Hx. discriminate Hx.
Qed.

Lemma optional_fields_sent_witness :
  (forall ts, GeminiRequest.tools Shell.tools_translated = Some ts ->
     ts <> [] /\
     exists tools,
       AnthropicRequest.tools Sample.tools_request = Some tools /\
       List.length ts = List.length tools /\
       map (fun g => (GeminiTool.type g,
                      GeminiFunction.name (GeminiTool.function g),
                      GeminiFunction.description (GeminiTool.function g),
                      GeminiFunction.parameters (GeminiTool.function g))) ts
       = map (fun a => ("function", AnthropicTool.name a,
                        AnthropicTool.description a,
                        AnthropicTool.input_schema a)) tools) /\
  (forall l, GeminiRequest.stop Shell.tools_translated = Some l ->
     l <> [] /\ AnthropicRequest.stop_sequences Sample.tools_request = Some l) /\
  (forall c, GeminiRequest.tool_choice Shell.tools_translated = Some c ->
     GeminiRequest.tools Shell.tools_translated <> None /\
     convertAnthropicToolChoice (AnthropicRequest.tool_choice Sample.tools_request)
     = Some c) /\
  (GeminiRequest.tools Shell.tools_translated = None ->
   GeminiRequest.tool_choice Shell.tools_translated = None).
Proof.
  exact (optional_fields_sent Sample.tools_request Shell.tools_translated
           eq_refl).
Defined.

(** A tool choice without tools is not sent. *)
Example tool_choice_without_tools :
  option_map GeminiRequest.tool_choice
    (ConversionResult.data
       (convertAnthropicToGemini
          (AnthropicRequest.mk (Some "claude-3-sonnet")
             (AnthropicRequest.Array [user_text "Hello!"])
             None None None None (Some [])
             (Some (AnthropicToolChoice.Str "any")) None None)))
  = Some None.
Proof. reflexivity. Qed.

(** ** Successful responses *)

(** The response assembled from the decoded tool blocks of a choice. *)
Lemma convertGeminiToAnthropic_on_choice (clock : Clock)
  (geminiResponse : GeminiResponse.t) (originalRequest : AnthropicRequest.t)
  (choice : GeminiChoice.t) (others : list GeminiChoice.t) :
  GeminiResponse.error geminiResponse = None ->
  GeminiResponse.choices geminiResponse = Some (choice :: others) ->
  convertGeminiToAnthropic_body clock geminiResponse originalRequest
  = (blocks <- tool_use_blocks (tool_calls_of choice) ;;
     ret (ConversionResult.ok {|
       AnthropicResponse.id := fresh_id clock;
       AnthropicResponse.type := "message";
       AnthropicResponse.role := "assistant";
       AnthropicResponse.content :=
         match (blocks ++ match text_of choice with
                          | Some c => [AnthropicContent.text_block c]
                          | None => []
                          end)%list with
         | [] => [AnthropicContent.text_block ""]
         | l => l
         end;
       AnthropicResponse.model := AnthropicRequest.model originalRequest;
       AnthropicResponse.stop_reason :=
         match finish_of choice with
         | Some r => map_finish_reason r
         | None =>
             match tool_calls_of choice with
             | [] => end_turn
             | _ => tool_use
             end
         end;
       AnthropicResponse.stop_sequence := None;
       AnthropicResponse.usage :=
         AnthropicUsage.mk
           (or_zero (option_map GeminiUsage.prompt_tokens
                       (GeminiResponse.usage geminiResponse)))
           (or_zero (option_map GeminiUsage.completion_tokens
                       (GeminiResponse.usage geminiResponse)))
     |})).
Proof.
  intros He Hc. unfold convertGeminiToAnthropic_body.
  rewrite He, Hc. cbn [hd_error].
  unfold tool_calls_of, text_of, finish_of.
  destruct (GeminiChoice.message choice) as [message|].
  - destruct (GeminiChoiceMessage.tool_calls message) as [[|call calls]|].
    + cbn [List.length Nat.ltb Nat.leb tool_use_blocks bind ret fst snd app].
      destruct (GeminiChoiceMessage.content message) as [c|];
        [destruct (nonempty c)|];
        destruct (GeminiChoice.finish_reason choice) as [r|];
        try destruct (nonempty r); reflexivity.
    + cbn [List.length Nat.ltb Nat.leb].
      destruct (tool_use_blocks (call :: calls)) as [blocks|e];
        [|reflexivity].
      cbn [bind ret fst snd].
      destruct (GeminiChoiceMessage.content message) as [c|];
        [destruct (nonempty c)|];
        destruct (GeminiChoice.finish_reason choice) as [r|];
        try destruct (nonempty r);
        destruct blocks; reflexivity.
    + cbn [tool_use_blocks bind ret fst snd app].
      destruct (GeminiChoiceMessage.content message) as [c|];
        [destruct (nonempty c)|];
        destruct (GeminiChoice.finish_reason choice) as [r|];
        try destruct (nonempty r); reflexivity.
  - cbn [tool_use_blocks bind ret fst snd app].
    destruct (GeminiChoice.finish_reason choice) as [r|];
      try destruct (nonempty r); reflexivity.
Qed.

Lemma convertGeminiToAnthropic_ok_inv (clock : Clock)
  (geminiResponse : GeminiResponse.t) (originalRequest : AnthropicRequest.t)
  (out : AnthropicResponse.t) :
  convertGeminiToAnthropic clock geminiResponse originalRequest
  = ConversionResult.ok out ->
  exists choice others blocks,
    GeminiResponse.error geminiResponse = None /\
    GeminiResponse.choices geminiResponse = Some (choice :: others) /\
    tool_use_blocks (tool_calls_of choice) = inl blocks /\
    AnthropicResponse.content out
    = match (blocks ++ match text_of choice with
                       | Some c => [AnthropicContent.text_block c]
                       | None => []
                       end)%list with
      | [] => [AnthropicContent.text_block ""]
      | l => l
      end /\
    AnthropicResponse.stop_reason out
    = match finish_of choice with
      | Some r => map_finish_reason r
      | None =>
          match tool_calls_of choice with
          | [] => end_turn
          | _ => tool_use
          end
      end.
Proof.
  unfold convertGeminiToAnthropic. intro H.
  destruct (GeminiResponse.error geminiResponse) as [e|] eqn:He.
  { unfold convertGeminiToAnthropic_body in H. rewrite He in H.
    discriminate H. }
  destruct (GeminiResponse.choices geminiResponse) as [[|choice others]|] eqn:Hc.
  - unfold convertGeminiToAnthropic_body in H. rewrite He, Hc in H.
    discriminate H.
  - rewrite (convertGeminiToAnthropic_on_choice clock geminiResponse
               originalRequest choice others He Hc) in H.
    destruct (tool_use_blocks (tool_calls_of choice)) as [blocks|e] eqn:Hb;
      [|discriminate H].
    cbn [bind ret] in H. injection H as <-.
    exists choice, others, blocks. repeat split; try assumption; reflexivity.
  - unfold convertGeminiToAnthropic_body in H. rewrite He, Hc in H.
    discriminate H.
Qed.

Lemma tool_use_blocks_decoded (calls : list GeminiToolCall.t)
  (blocks : list AnthropicContent.t) :
  tool_use_blocks calls = inl blocks ->
  Forall2 (fun call block =>
             exists input,
               JSON.parse (arguments_text call) = inl input /\
               block = block_of_call call input)
    calls blocks.
Proof.
  revert blocks. induction calls as [|call calls IH]; intros blocks H.
  - injection H as <-. constructor.
  - simpl in H.
    fold (arguments_text call) in H.
    destruct (JSON.parse (arguments_text call)) as [input|e] eqn:Ep;
      [|discriminate H].
    cbn [bind] in H.
    destruct (tool_use_blocks calls) as [rest|e]; [|discriminate H].
    cbn [bind ret] in H. injection H as <-.
    constructor; [|now apply IH].
    now exists input.
Qed.

(** X4. The content of a translated response is never empty. It holds one
    [tool_use] block for each tool call of the first choice, in the order
    of the calls, with the call's id and function name and the decoded
    arguments as input; then one text block when the message has a
    non-empty text; and a single empty text block when there is neither. *)
Theorem response_content_shape (clock : Clock)
  (geminiResponse : GeminiResponse.t) (originalRequest : AnthropicRequest.t)
  (out : AnthropicResponse.t) :
  convertGeminiToAnthropic clock geminiResponse originalRequest
  = ConversionResult.ok out ->
  exists choice others blocks,
    GeminiResponse.choices geminiResponse = Some (choice :: others) /\
    Forall2 (fun call block =>
               exists input,
                 JSON.parse (arguments_text call) = inl input /\
                 block = block_of_call call input)
      (tool_calls_of choice) blocks /\
    AnthropicResponse.content out
    = match tool_calls_of choice, text_of choice with
      | [], None => [AnthropicContent.text_block ""]
      | _, Some c => (blocks ++ [AnthropicContent.text_block c])%list
      | _, None => blocks
      end /\
    AnthropicResponse.content out <> [].
Proof.
  intro H.
  destruct (convertGeminiToAnthropic_ok_inv clock geminiResponse
              originalRequest out H)
    as (choice & others & blocks & _ & Hc & Hb & Hcontent & _).
  pose proof (tool_use_blocks_decoded _ _ Hb) as Hd.
  exists choice, others, blocks. split; [exact Hc|]. split; [exact Hd|].
  assert (E : AnthropicResponse.content out
              = match tool_calls_of choice, text_of choice with
                | [], None => [AnthropicContent.text_block ""]
                | _, Some c => (blocks ++ [AnthropicContent.text_block c])%list
                | _, None => blocks
                end).
  { rewrite Hcontent.
    destruct Hd as [|call block calls blocks' _ _];
      destruct (text_of choice) as [c|]; try reflexivity.
    simpl. now rewrite app_nil_r. }
  split; [exact E|].
  rewrite E.
  destruct Hd as [|call block calls blocks' _ _];
    destruct (text_of choice) as [c|]; simpl; discriminate.
Qed.

Lemma response_content_shape_witness :
  exists choice others blocks,
    GeminiResponse.choices
      (Sample.tool_call_response (js "{'operation':'add','a':1,'b':2}"))
    = Some (choice :: others) /\
    Forall2 (fun call block =>
               exists input,
                 JSON.parse (arguments_text call) = inl input /\
                 block = block_of_call call input)
      (tool_calls_of choice) blocks /\
    AnthropicResponse.content Shell.tool_call_translated
    = match tool_calls_of choice, text_of choice with
      | [], None => [AnthropicContent.text_block ""]
      | _, Some c => (blocks ++ [AnthropicContent.text_block c])%list
      | _, None => blocks
      end /\
    AnthropicResponse.content Shell.tool_call_translated <> [].
Proof.
  apply (response_content_shape Sample.clock
           (Sample.tool_call_response (js "{'operation':'add','a':1,'b':2}"))
           Sample.hello_request Shell.tool_call_translated).
  vm_compute. reflexivity.
Defined.

(** X5. The stop reason of a translated response follows the finish reason
    of the first choice whenever it has one: [length] gives [max_tokens],
    [tool_calls] gives [tool_use], [content_filter] gives [stop_sequence]
    and every other reason [end_turn], tool calls or not. Without a finish
    reason it is [tool_use] when the message has tool calls and [end_turn]
    otherwise. *)
Theorem response_stop_reason (clock : Clock)
  (geminiResponse : GeminiResponse.t) (originalRequest : AnthropicRequest.t)
  (out : AnthropicResponse.t) :
  convertGeminiToAnthropic clock geminiResponse originalRequest
  = ConversionResult.ok out ->
  exists choice others,
    GeminiResponse.choices geminiResponse = Some (choice :: others) /\
    (forall r, finish_of choice = Some r ->
       AnthropicResponse.stop_reason out
       = if String.eqb r "length" then max_tokens
         else if String.eqb r "tool_calls" then tool_use
         else if String.eqb r "content_filter" then stop_sequence
         else end_turn) /\
    (finish_of choice = None ->
     AnthropicResponse.stop_reason out
     = match tool_calls_of choice with
       | [] => end_turn
       | _ => tool_use
       end).
Proof.
  intro H.
  destruct (convertGeminiToAnthropic_ok_inv clock geminiResponse
              originalRequest out H)
    as (choice & others & blocks & _ & Hc & _ & _ & Hs).
  exists choice, others. split; [exact Hc|]. split.
  - intros r Hr. rewrite Hs, Hr. unfold map_finish_reason.
    destruct (String.eqb r "stop") eqn:E; [|reflexivity].
    apply String.eqb_eq in E. now subst r.
  - intro Hn. now rewrite Hs, Hn.
Qed.

Lemma response_stop_reason_witness :
  exists choice others,
    GeminiResponse.choices
      (Sample.tool_call_response (js "{'operation':'add','a':1,'b':2}"))
    = Some (choice :: others) /\
    (forall r, finish_of choice = Some r ->
       AnthropicResponse.stop_reason Shell.tool_call_translated
       = if String.eqb r "length" then max_tokens
         else if String.eqb r "tool_calls" then tool_use
         else if String.eqb r "content_filter" then stop_sequence
         else end_turn) /\
    (finish_of choice = None ->
     AnthropicResponse.stop_reason Shell.tool_call_translated
     = match tool_calls_of choice with
       | [] => end_turn
       | _ => tool_use
       end).
Proof.
  apply (response_stop_reason Sample.clock
           (Sample.tool_call_response (js "{'operation':'add','a':1,'b':2}"))
           Sample.hello_request Shell.tool_call_translated).
  vm_compute. reflexivity.
Defined.

(** Tool calls finished by [stop] are reported as [end_turn], with their
    [tool_use] blocks in the content. *)
Example tool_calls_finished_by_stop :
  option_map
    (fun r => (List.length (AnthropicResponse.content r),
               AnthropicResponse.stop_reason r))
    (ConversionResult.data
       (convertGeminiToAnthropic Sample.clock
          (single_choice_response
             (GeminiChoice.mk (Number.of_Z 0)
                (Some (GeminiChoiceMessage.mk "assistant" (Some "Let me see.")
                         (Some [GeminiToolCall.mk "call_1" "function"
                                  (GeminiFunctionCall.mk "calculator" "")])))
                (Some "stop")))
          Sample.hello_request))
  = Some (2%nat, end_turn).
Proof. vm_compute. reflexivity. Qed.

(** ** The model mapper on unseen identifiers *)

Lemma toLowerCase_app (a b : string) :
  toLowerCase (a ++ b) = toLowerCase a ++ toLowerCase b.
Proof. induction a as [|c a IH]; simpl; [reflexivity | now rewrite IH]. Qed.

Lemma code_inj (c d : ascii) : code c = code d -> c = d.
Proof.
  unfold code. intro H.
  rewrite <- (ascii_N_embedding c), <- (ascii_N_embedding d). now rewrite H.
Qed.

Lemma digit_or_dash_code (c : ascii) :
  (((48 <=? code c) && (code c <=? 57)) || (code c =? 45))%N = true ->
  (code c < 65)%N.
Proof.
  intro H. apply orb_true_iff in H as [H|H].
  - apply andb_true_iff in H as [_ H]. apply N.leb_le in H. lia.
  - apply N.eqb_eq in H. lia.
Qed.

Lemma letter_code (c : ascii) :
  ((97 <=? code c) && (code c <=? 122))%N = true -> (97 <= code c)%N.
Proof. intro H. apply andb_true_iff in H as [H _]. now apply N.leb_le. Qed.

Lemma toLowerCase_digits (x : string) :
  digits_and_dashes x = true -> toLowerCase x = x.
Proof.
  induction x as [|c x IH]; [reflexivity|].
  simpl. intro H. apply andb_true_iff in H as [Hc Hx].
  rewrite (IH Hx). f_equal. unfold lower.
  apply digit_or_dash_code in Hc.
  destruct (65 <=? code c)%N eqn:E; [|reflexivity].
  apply N.leb_le in E. lia.
Qed.

(** A token of letters is a prefix of [a ++ x] only if it is one of [a],
    when [x] holds digits and dashes. *)
Lemma prefix_letters_app (t a x : string) :
  lowercase_letters t = true ->
  digits_and_dashes x = true ->
  prefix t (a ++ x) = prefix t a.
Proof.
  intros Ht Hx. revert a. induction t as [|d t IH]; intro a.
  - now destruct (a ++ x), a.
  - simpl in Ht. apply andb_true_iff in Ht as [Hd Ht].
    destruct a as [|c a].
    + destruct x as [|e x]; [reflexivity|]. simpl.
      destruct (ascii_dec d e) as [->|]; [|reflexivity].
      simpl in Hx. apply andb_true_iff in Hx as [He _].
      apply digit_or_dash_code in He. apply letter_code in Hd. lia.
    + simpl. destruct (ascii_dec d c); [now apply IH | reflexivity].
Qed.

Lemma includes_digits (d : ascii) (t x : string) :
  lowercase_letters (String d t) = true ->
  digits_and_dashes x = true ->
  includes x (String d t) = false.
Proof.
  intros Ht Hx. induction x as [|e x IH]; [reflexivity|].
  simpl in Hx. apply andb_true_iff in Hx as [He Hx].
  cbn [includes]. rewrite (IH Hx), orb_false_r.
  cbn [prefix]. destruct (ascii_dec d e) as [->|]; [|reflexivity].
  simpl in Ht. apply andb_true_iff in Ht as [Hd _].
  apply digit_or_dash_code in He. apply letter_code in Hd. lia.
Qed.

Lemma includes_app_digits (d : ascii) (t a x : string) :
  lowercase_letters (String d t) = true ->
  digits_and_dashes x = true ->
  includes (a ++ x) (String d t) = includes a (String d t).
Proof.
  intros Ht Hx. induction a as [|c a IH].
  - simpl append. now rewrite (includes_digits d t x Ht Hx).
  - change (String c a ++ x) with (String c (a ++ x)).
    cbn [includes]. rewrite IH. f_equal.
    exact (prefix_letters_app (String d t) (String c a) x Ht Hx).
Qed.

(** The pattern fallback does not look at a suffix of digits and dashes. *)
Lemma pattern_fallback_suffix (s x : string) :
  digits_and_dashes x = true ->
  pattern_fallback (s ++ x) = pattern_fallback s.
Proof.
  intro Hx. unfold pattern_fallback.
  rewrite toLowerCase_app, (toLowerCase_digits x Hx).
  now rewrite !includes_app_digits by (reflexivity || exact Hx).
Qed.

Lemma prefix_app_self (k x : string) : prefix k (k ++ x) = true.
Proof.
  induction k as [|c k IH]; [now destruct x|].
  simpl. destruct (ascii_dec c c); [exact IH | contradiction].
Qed.

(** Facts of the table, each checked on its twelve entries. *)
Lemma table_agrees_with_fallback :
  Forall (fun kv => pattern_fallback (fst kv) = snd kv) MODEL_MAPPING.
Proof. unfold MODEL_MAPPING. repeat (constructor; [reflexivity|]). constructor. Qed.

Lemma table_prefix_consistent (kv kv' : string * string) :
  In kv MODEL_MAPPING -> In kv' MODEL_MAPPING ->
  prefix (fst kv) (fst kv') = true -> snd kv' = snd kv.
Proof.
  assert (H : forallb (fun a =>
                forallb (fun b => if prefix (fst a) (fst b)
                                  then String.eqb (snd b) (snd a)
                                  else true) MODEL_MAPPING)
                MODEL_MAPPING = true) by reflexivity.
  intros Hin Hin' Hp.
  rewrite forallb_forall in H. specialize (H kv Hin).
  rewrite forallb_forall in H. specialize (H kv' Hin').
  rewrite Hp in H. now apply String.eqb_eq.
Qed.

Lemma table_keys_not_inherited (kv : string * string) (p : string) :
  In kv MODEL_MAPPING -> In p Object_prototype -> prefix (fst kv) p = false.
Proof.
  assert (H : forallb (fun a =>
                forallb (fun b => negb (prefix (fst a) b)) Object_prototype)
                MODEL_MAPPING = true) by reflexivity.
  intros Hin Hp.
  rewrite forallb_forall in H. specialize (H kv Hin).
  rewrite forallb_forall in H. specialize (H p Hp).
  now apply negb_true_iff.
Qed.

Lemma inherited_iff (key : string) :
  inherited key = true <-> In key Object_prototype.
Proof.
  unfold inherited. rewrite existsb_exists. split.
  - intros (p & Hp & E). apply String.eqb_eq in E. now subst.
  - intro H. exists key. split; [exact H | apply String.eqb_refl].
Qed.

(** X6. A known identifier followed by digits and dashes, as a dated
    snapshot is, is mapped to the tier of the known identifier, whether
    the table lists the snapshot or not. *)
Theorem dated_snapshot_same_tier (k v x : string) :
  In (k, v) MODEL_MAPPING ->
  digits_and_dashes x = true ->
  getGeminiModel (k ++ x) = ModelName v.
Proof.
  intros Hin Hx.
  assert (Hproto : inherited (k ++ x) = false).
  { destruct (inherited (k ++ x)) eqn:E; [|reflexivity].
    apply inherited_iff in E.
    pose proof (table_keys_not_inherited (k, v) (k ++ x) Hin E) as Hp.
    simpl in Hp. now rewrite prefix_app_self in Hp. }
  unfold getGeminiModel, MODEL_MAPPING_get. rewrite Hproto.
  destruct (own (k ++ x) MODEL_MAPPING) as [v'|] eqn:Eo.
  - apply own_in in Eo.
    pose proof (table_prefix_consistent (k, v) (k ++ x, v') Hin Eo
                  (prefix_app_self k x)) as Ev.
    simpl in Ev. subst v'.
    pose proof (proj1 (Forall_forall _ _) MODEL_MAPPING_values _ Hin) as [_ Hn].
    simpl in Hn. simpl. now rewrite Hn.
  - rewrite (pattern_fallback_suffix k x Hx).
    pose proof (proj1 (Forall_forall _ _) table_agrees_with_fallback _ Hin) as E.
    simpl in E. now rewrite E.
Qed.

Lemma dated_snapshot_same_tier_witness :
  getGeminiModel ("claude-4-opus" ++ "-20250514")
  = ModelName "google/gemini-2.5-pro".
Proof.
  apply (dated_snapshot_same_tier "claude-4-opus" "google/gemini-2.5-pro"
           "-20250514").
  - unfold MODEL_MAPPING. simpl. tauto.
  - reflexivity.
Defined.






(** ** Reads and lines *)

Lemma startsWith_data_inv (line : string) :
  startsWith line "data: " = true -> line = data_line (slice 6 line).
Proof.
  unfold startsWith, data_line. intro H.
  do 6 (destruct line as [|c line]; cbn [prefix] in H; [discriminate H|];
        match type of H with
        | context [ascii_dec ?d c] =>
            destruct (ascii_dec d c) as [<-|]; [|discriminate H]
        end).
  reflexivity.
Qed.

Lemma data_lines_start (lines : list string) (line : string) :
  In line (data_lines lines) -> line = data_line (slice 6 line).
Proof.
  unfold data_lines. intro H. apply filter_In in H as [_ H].
  now apply startsWith_data_inv.
Qed.

Lemma not_terminator_payload (lines D : list string) :
  (forall line, In line D -> In line (data_lines lines)) ->
  forallb (fun line => negb (String.eqb line terminator)) D = true ->
  Forall (fun line => slice 6 line <> "[DONE]") D.
Proof.
  intros Hsub H. rewrite forallb_forall in H. apply Forall_forall.
  intros line Hin E. specialize (H line Hin).
  apply negb_true_iff, String.eqb_neq in H. apply H.
  rewrite (data_lines_start lines line (Hsub line Hin)), E. reflexivity.
Qed.

(** Without a terminator the batches write what the line loop writes on
    all the lines at once. *)
Lemma process_batches_unterminated (bs : list (list string))
  (req : AnthropicRequest.t) (w : Writer) :
  Forall (fun line => slice 6 line <> "[DONE]") (data_lines (List.concat bs)) ->
  process_batches bs req w = process_lines (data_lines (List.concat bs)) req w.
Proof.
  revert w. induction bs as [|b bs IH]; intros w H; [reflexivity|].
  simpl List.concat in *. rewrite data_lines_app in *.
  apply Forall_app in H as [Hb Hbs].
  change (process_batches (b :: bs) req w)
    with (process_batches bs req (process_lines b req w)).
  rewrite (IH _ Hbs), process_lines_app by exact Hb.
  now rewrite (process_lines_data_lines b).
Qed.

Lemma process_batches_whole (bs : list (list string))
  (req : AnthropicRequest.t) (w : Writer) :
  terminator_only_last (List.concat bs) = true ->
  process_batches bs req w = process_lines (List.concat bs) req w.
Proof.
  unfold terminator_only_last. intro H.
  rewrite (process_lines_data_lines (List.concat bs)).
  destruct (nil_or_last (data_lines (List.concat bs))) as [E | (D & y & E)].
  - rewrite E. now apply process_batches_no_data.
  - rewrite E in H. rewrite removelast_last in H.
    assert (HD : Forall (fun line => slice 6 line <> "[DONE]") D).
    { apply (not_terminator_payload (List.concat bs)); [|exact H].
      intros line Hin. rewrite E. apply in_or_app. now left. }
    destruct (String.eqb y terminator) eqn:Ey.
    + apply String.eqb_eq in Ey. subst y. unfold terminator in E.
      rewrite (process_batches_terminated bs D req w E HD).
      rewrite E, process_lines_app by exact HD.
      now rewrite process_lines_terminator.
    + apply process_batches_unterminated.
      rewrite E. apply Forall_app. split; [exact HD|].
      constructor; [|constructor]. intro Hy.
      apply String.eqb_neq in Ey. apply Ey.
      rewrite (data_lines_start (List.concat bs) y); [|rewrite E; apply in_or_app; right; now left].
      now rewrite Hy.
Qed.

(** X8. When no data line follows the terminator, the translation of a
    stream depends on its text only, not on how the text is cut into
    reads: it is what the line loop writes when it is run once on all the
    complete lines of the text. *)
Theorem rechunking_invariance (texts : list string)
  (req : AnthropicRequest.t) (w : Writer) :
  terminator_only_last (complete_lines (stream_text texts)) = true ->
  processGeminiStream (Some (map Chunk texts)) w req
  = close (process_lines (complete_lines (stream_text texts)) req w) /\
  (forall texts',
     stream_text texts' = stream_text texts ->
     processGeminiStream (Some (map Chunk texts')) w req
     = processGeminiStream (Some (map Chunk texts)) w req).
Proof.
  intro H.
  assert (Hwhole : forall ts,
             stream_text ts = stream_text texts ->
             processGeminiStream (Some (map Chunk ts)) w req
             = close (process_lines (complete_lines (stream_text texts)) req w)).
  { intros ts Hts. unfold processGeminiStream.
    rewrite read_loop_all_chunks.
    rewrite process_batches_whole;
      rewrite (batches_complete_lines "" ts eq_refl); simpl append;
      rewrite Hts; [reflexivity | exact H]. }
  split; [now apply Hwhole|].
  intros texts' Ht. rewrite (Hwhole texts' Ht). symmetry. now apply Hwhole.
Qed.

Lemma rechunking_invariance_witness :
  processGeminiStream (Some (map Chunk Sample.streamData)) new_writer
    Sample.hello_request
  = close (process_lines (complete_lines (stream_text Sample.streamData))
             Sample.hello_request new_writer) /\
  (forall texts',
     stream_text texts' = stream_text Sample.streamData ->
     processGeminiStream (Some (map Chunk texts')) new_writer
       Sample.hello_request
     = processGeminiStream (Some (map Chunk Sample.streamData)) new_writer
         Sample.hello_request).
Proof.
  apply (rechunking_invariance Sample.streamData Sample.hello_request
           new_writer).
  vm_compute. reflexivity.
Defined.

Lemma one_line_append (a b : string) :
  one_line a -> one_line b -> one_line (a ++ b).
Proof.
  unfold one_line. intros Ha Hb.
  rewrite (split_lines_after_one_line a b Ha). now rewrite Hb.
Qed.

Lemma buffer_after_one_line (texts : list string) :
  one_line (buffer_after "" texts).
Proof.
  rewrite buffer_after_last by reflexivity. apply last_split_lines_one_line.
Qed.

(** X9. What follows the last line feed of a stream is never translated:
    a final read without a line feed changes nothing, be it a complete
    chunk or the terminator. *)
Theorem unfinished_line_dropped (texts : list string) (tail : string)
  (req : AnthropicRequest.t) (w : Writer) :
  one_line tail ->
  processGeminiStream (Some (map Chunk (texts ++ [tail])%list)) w req
  = processGeminiStream (Some (map Chunk texts)) w req.
Proof.
  intro Ht. unfold processGeminiStream.
  rewrite map_app, read_loop_chunks, (read_loop_all_chunks texts).
  cbn [map read_loop].
  pose proof (one_line_append _ _ (buffer_after_one_line texts) Ht) as H.
  unfold one_line in H. now rewrite H.
Qed.

Lemma unfinished_line_dropped_witness :
  processGeminiStream
    (Some (map Chunk ([Sample.backend_record Sample.chunk_1]
                      ++ ["data: [DONE]"])%list))
    new_writer Sample.hello_request
  = processGeminiStream
      (Some (map Chunk [Sample.backend_record Sample.chunk_1]))
      new_writer Sample.hello_request.
Proof.
  apply (unfinished_line_dropped [Sample.backend_record Sample.chunk_1]
           "data: [DONE]" Sample.hello_request new_writer).
  reflexivity.
Defined.

(** A stream that ends with the terminator but without a line feed gets
    no [message_stop]. *)
Example terminator_without_line_feed :
  written
    (processGeminiStream
       (Some [Chunk (Sample.backend_record Sample.chunk_1 ++ "data: [DONE]")])
       new_writer Sample.hello_request)
  = [record_of (text_delta (VStr "Hello"))].
Proof. vm_compute. reflexivity. Qed.

Lemma process_lines_skip_other (P Q : list string) (line : string)
  (req : AnthropicRequest.t) (w : Writer) :
  startsWith line "data: " = false ->
  process_lines (P ++ line :: Q) req w = process_lines (P ++ Q) req w.
Proof.
  intro Hl. revert w. induction P as [|l P IH]; intro w.
  - simpl app. now rewrite process_lines_cons, Hl.
  - rewrite <- !app_comm_cons, !process_lines_cons.
    destruct (startsWith l "data: "); [|apply IH].
    destruct (String.eqb (slice 6 l) "[DONE]"); [reflexivity | apply IH].
Qed.

(** X10. A complete line that does not start with [data: ] (a blank line, an
    [event:] line, a comment, or [data:] without the space) is passed over:
    the stream is translated exactly as the stream without that line. *)
Theorem other_line_ignored (before : list string) (a line b : string)
  (after : list read) (req : AnthropicRequest.t) (w : Writer) :
  at_line_boundary (stream_text before ++ a) ->
  one_line line ->
  startsWith line "data: " = false ->
  processGeminiStream
    (Some (map Chunk before ++ Chunk (a ++ line ++ LF ++ b) :: after)%list)
    w req
  = processGeminiStream
      (Some (map Chunk before ++ Chunk (a ++ b) :: after)%list) w req.
Proof.
  intros Hstart Hline Hother.
  unfold processGeminiStream. rewrite !read_loop_chunks.
  set (buffer := buffer_after "" before).
  set (w0 := process_batches (batches "" before) req w).
  assert (Hbuf : one_line buffer) by apply buffer_after_one_line.
  assert (Hx : last (split_lines (buffer ++ a)) "" = "").
  { apply at_line_boundary_last in Hstart.
    rewrite split_lines_app in Hstart.
    rewrite (split_lines_after_one_line buffer a Hbuf).
    unfold buffer. rewrite buffer_after_last by reflexivity. simpl append.
    pose proof (split_lines_nonempty a) as Ha.
    destruct (split_lines a) as [|h t]; [contradiction|].
    now rewrite last_app_cons in Hstart. }
  destruct (split_lines_inserted (buffer ++ a) line b Hx Hline)
    as [Ewith Ewithout].
  rewrite append_assoc in Ewith, Ewithout.
  pose proof (split_lines_nonempty b) as Hb.
  destruct (split_lines b) as [|hb tb] eqn:Eb; [contradiction|].
  cbn [read_loop]. rewrite Ewith, Ewithout.
  rewrite (removelast_app_cons _ line), !last_app_cons.
  rewrite (removelast_app_cons _ hb).
  change (removelast (line :: hb :: tb)) with (line :: removelast (hb :: tb)).
  change (last (line :: hb :: tb) "") with (last (hb :: tb) "").
  now rewrite (process_lines_skip_other _ _ line req w0 Hother).
Qed.

Lemma other_line_ignored_witness :
  processGeminiStream
    (Some (map Chunk [Sample.backend_record Sample.chunk_1]
           ++ Chunk ("" ++ Shell.no_space_line ++ LF
                     ++ Sample.backend_record "[DONE]") :: [])%list)
    new_writer Sample.hello_request
  = processGeminiStream
      (Some (map Chunk [Sample.backend_record Sample.chunk_1]
             ++ Chunk ("" ++ Sample.backend_record "[DONE]") :: [])%list)
      new_writer Sample.hello_request.
Proof.
  apply (other_line_ignored [Sample.backend_record Sample.chunk_1] ""
           Shell.no_space_line (Sample.backend_record "[DONE]") []
           Sample.hello_request new_writer).
  - right. exists (data_line Sample.chunk_1 ++ LF). reflexivity.
  - reflexivity.
  - reflexivity.
Defined.

(** ** What is written *)

(** What [convertGeminiStreamChunk] returns is [null] or one of three
    events. *)
Lemma convertGeminiStreamChunk_shapes (chunk : value)
  (req : AnthropicRequest.t) (v : value) :
  convertGeminiStreamChunk chunk req = inl v ->
  v = VNull \/
  (exists text, v = text_delta text) \/
  (exists partial_json, v = input_json_delta partial_json) \/
  v = message_stop.
Proof.
  unfold convertGeminiStreamChunk, bind, ret. intro H.
  repeat match type of H with
         | context [match ?x with _ => _ end] =>
             destruct x eqn:?; try discriminate H
         | context [if ?b then _ else _] =>
             destruct b eqn:?; try discriminate H
         end;
    injection H as <-; eauto 6.
Qed.

Lemma process_data_written (p : string) (req : AnthropicRequest.t)
  (w : Writer) (r : string) :
  In r (written (process_data p req w)) ->
  In r (written w) \/ event_record r.
Proof.
  unfold process_data.
  destruct (geminiChunk <- JSON.parse p ;;
            convertGeminiStreamChunk geminiChunk req) as [v|e] eqn:E;
    [|now left].
  destruct (JS.truthy v) eqn:Hv; [|now left].
  unfold write. cbn [written]. intro H.
  apply in_app_or in H as [H | [<- | []]]; [now left|].
  right. unfold bind in E.
  destruct (JSON.parse p) as [chunk|]; [|discriminate E].
  destruct (convertGeminiStreamChunk_shapes chunk req v E)
    as [-> | [(t & ->) | [(a & ->) | ->]]].
  - discriminate Hv.
  - left. now exists t.
  - right. left. now exists a.
  - right. right. now left.
Qed.

Lemma process_lines_written (lines : list string)
  (req : AnthropicRequest.t) (w : Writer) (r : string) :
  In r (written (process_lines lines req w)) ->
  In r (written w) \/ event_record r.
Proof.
  revert w. induction lines as [|line rest IH]; intros w H; [now left|].
  rewrite process_lines_cons in H.
  destruct (startsWith line "data: "); [|now apply IH].
  destruct (String.eqb (slice 6 line) "[DONE]").
  - unfold write in H. cbn [written] in H.
    apply in_app_or in H as [H | [<- | []]]; [now left|].
    right. right. right. now left.
  - apply IH in H as [H | H]; [|now right].
    now apply process_data_written in H.
Qed.

Lemma read_loop_written (reads : list read) (buffer : string)
  (req : AnthropicRequest.t) (w : Writer) (r : string) :
  In r (written (fst (read_loop reads buffer req w))) ->
  In r (written w) \/ event_record r.
Proof.
  revert buffer w. induction reads as [|[text|e] rest IH]; intros buffer w H.
  - now left.
  - cbn [read_loop] in H. apply IH in H as [H | H]; [|now right].
    now apply process_lines_written in H.
  - now left.
Qed.

Lemma processGeminiStream_written (body : option (list read)) (w : Writer)
  (req : AnthropicRequest.t) (r : string) :
  In r (written (processGeminiStream body w req)) ->
  In r (written w) \/ event_record r.
Proof.
  unfold processGeminiStream.
  destruct body as [reads|].
  - pose proof (read_loop_written reads "" req w r) as Hr.
    destruct (read_loop reads "" req w) as [w' [e|]]; cbn [fst] in Hr;
      cbn [close written write]; intro H.
    + apply in_app_or in H as [H | [<- | []]]; [now apply Hr|].
      right. right. right. now right.
    + now apply Hr.
  - cbn [close written write]. intro H.
    apply in_app_or in H as [H | [<- | []]]; [now left|].
    right. right. right. now right.
Qed.

(** X11. Whatever the backend sends, the stream translator writes nothing
    but [content_block_delta] records (a text delta or an input-JSON delta,
    at block 0), [message_stop] records and [error] records, and it closes
    the writer: no [message_start], [content_block_start],
    [content_block_stop] or [message_delta] is ever written. *)
Theorem stream_event_shapes (body : option (list read)) (w : Writer)
  (req : AnthropicRequest.t) :
  closed (processGeminiStream body w req) = true /\
  (forall r, In r (written (processGeminiStream body w req)) ->
             In r (written w) \/ event_record r).
Proof.
  split; [apply processGeminiStream_closes|].
  intro r. apply processGeminiStream_written.
Qed.

(** ** The transport shell *)

Lemma createErrorResponse_envelope (type message : string) (status : Z) :
  In type error_types ->
  error_envelope (createErrorResponse type message status).
Proof. intro H. exists type, message. now split. Qed.

(** Every branch of the two handlers. *)
Ltac shell_cases :=
  unfold response_of, calls_of, worker_fetch, handleAnthropicToGemini,
    processing_failed;
  repeat match goal with
         | |- context [if ?b then _ else _] => destruct b eqn:?
         | |- context [match ?x with _ => _ end] => destruct x eqn:?
         end;
  cbn [fst snd].

Ltac shell_fields :=
  unfold allows_any_origin, createErrorResponse, handleCORS,
    handleStreamingResponse, json_response;
  cbn [Response.headers Response.status Response.body In].

Ltac envelope :=
  split;
  [ apply createErrorResponse_envelope; unfold error_types; cbn [In]; tauto
  | shell_fields; tauto ].

(** X12. Every response of the worker may be read from any origin, and it is
    the preflight answer, a 200 with an event stream whose writer is closed,
    a 200 with a translated response as JSON, or an error envelope of one of
    six types with status 400, 404, 500 or 502. *)
Theorem responses_classified
  (fetch : FetchInit.t -> result FetchResponse.t) (clock : Clock)
  (request : Request.t) (env : Env.t) :
  allows_any_origin (response_of fetch clock request env) /\
  (response_of fetch clock request env = handleCORS \/
   (exists r original,
      response_of fetch clock request env
      = handleStreamingResponse r original /\
      Response.status (handleStreamingResponse r original) = 200%Z /\
      exists w, Response.body (handleStreamingResponse r original)
                = StreamBody w /\ closed w = true) \/
   (exists data, response_of fetch clock request env = json_response data) \/
   (error_envelope (response_of fetch clock request env) /\
    In (Response.status (response_of fetch clock request env))
       [400; 404; 500; 502]%Z)).
Proof.
  shell_cases; (split; [shell_fields; tauto|]).
  all: lazymatch goal with
       | |- handleCORS = _ \/ _ => left; reflexivity
       | |- createErrorResponse _ _ _ = _ \/ _ =>
           right; right; right; envelope
       | |- handleStreamingResponse _ _ = _ \/ _ =>
           right; left; do 2 eexists; split; [reflexivity|];
           split; [reflexivity|]; eexists; split;
           [reflexivity | apply processGeminiStream_closes]
       | |- _ => right; right; left; eexists; reflexivity
       end.
Qed.

(** *** What the translators return *)

Lemma validate_cases (request : AnthropicRequest.t) :
  validateAnthropicRequest request = ConversionResult.ok_void \/
  exists m, In m validation_errors /\
            validateAnthropicRequest request = ConversionResult.fail m.
Proof.
  unfold validateAnthropicRequest, validation_errors.
  repeat match goal with
         | |- context [if ?b then _ else _] => destruct b
         end;
    [right; eexists; split; [|reflexivity]; cbn [In]; tauto ..
    | now left].
Qed.

Lemma convertAnthropicToGemini_cases (request : AnthropicRequest.t) :
  (exists t, convertAnthropicToGemini request = ConversionResult.ok t) \/
  (exists m, m <> "" /\
             convertAnthropicToGemini request = ConversionResult.fail m).
Proof.
  unfold convertAnthropicToGemini.
  destruct (convertAnthropicToGemini_body request) as [t|e].
  - left. now exists t.
  - right. eexists. split; [|reflexivity]. discriminate.
Qed.

Lemma convertGeminiToAnthropic_cases (clock : Clock)
  (geminiResponse : GeminiResponse.t) (originalRequest : AnthropicRequest.t) :
  (exists a, convertGeminiToAnthropic clock geminiResponse originalRequest
             = ConversionResult.ok a) \/
  (exists m, m <> "" /\
             convertGeminiToAnthropic clock geminiResponse originalRequest
             = ConversionResult.fail m).
Proof.
  unfold convertGeminiToAnthropic, convertGeminiToAnthropic_body.
  destruct (GeminiResponse.error geminiResponse) as [e|].
  { right. cbn [ret]. eexists. split; [|reflexivity].
    destruct (nonempty (ApiError.message e)) eqn:E;
      [now apply nonempty_iff | discriminate]. }
  destruct (match GeminiResponse.choices geminiResponse with
            | Some l => hd_error l
            | None => None
            end) as [choice|].
  2: { right. eexists. split; [|reflexivity]. discriminate. }
  unfold bind.
  match goal with
  | |- context [match (match ?x with inl _ => _ | inr _ => _ end) with
                | inl _ => _
                | inr _ => _
                end] =>
      destruct x as [tool_part|error]
  end.
  - left. eexists. reflexivity.
  - right. eexists. split; [|reflexivity]. discriminate.
Qed.

(** X13. Each of the three functions that return a result object returns
    a success (with the data, for the two translators) and no error, or a
    failure without data and with a non-empty message; the validator's
    message is one of its three. So the handler's tests of [data] and its
    fallback messages never decide anything. *)
Theorem results_ok_or_fail :
  (forall request,
     validateAnthropicRequest request = ConversionResult.ok_void \/
     exists m, In m validation_errors /\ m <> "" /\
               validateAnthropicRequest request = ConversionResult.fail m) /\
  (forall request,
     (exists t, convertAnthropicToGemini request = ConversionResult.ok t) \/
     (exists m, m <> "" /\
                convertAnthropicToGemini request = ConversionResult.fail m)) /\
  (forall clock geminiResponse originalRequest,
     (exists a, convertGeminiToAnthropic clock geminiResponse originalRequest
                = ConversionResult.ok a) \/
     (exists m, m <> "" /\
                convertGeminiToAnthropic clock geminiResponse originalRequest
                = ConversionResult.fail m)).
Proof.
  split; [|split].
  - intro request.
    destruct (validate_cases request) as [H | (m & Hin & H)]; [now left|].
    right. exists m. repeat split; auto.
    unfold validation_errors in Hin. cbn [In] in Hin.
    destruct Hin as [<- | [<- | [<- | []]]]; discriminate.
  - apply convertAnthropicToGemini_cases.
  - apply convertGeminiToAnthropic_cases.
Qed.

(** *** The way to the backend *)

Ltac result_fields :=
  cbn [ConversionResult.success ConversionResult.data ConversionResult.error
       ConversionResult.ok ConversionResult.ok_void ConversionResult.fail
       negb].

Lemma routed_fetch (fetch : FetchInit.t -> result FetchResponse.t)
  (clock : Clock) (request : Request.t) (env : Env.t) :
  routed request env ->
  worker_fetch fetch clock request env
  = handleAnthropicToGemini fetch clock request env.
Proof.
  intros (Hm & Hp & Hk). unfold worker_fetch.
  apply String.eqb_neq in Hm. now rewrite Hm, Hp, Hk.
Qed.

Lemma with_stream_eq (t : GeminiRequest.t) :
  {| GeminiRequest.model := GeminiRequest.model t;
     GeminiRequest.messages := GeminiRequest.messages t;
     GeminiRequest.max_tokens := GeminiRequest.max_tokens t;
     GeminiRequest.temperature := GeminiRequest.temperature t;
     GeminiRequest.top_p := GeminiRequest.top_p t;
     GeminiRequest.tools := GeminiRequest.tools t;
     GeminiRequest.tool_choice := GeminiRequest.tool_choice t;
     GeminiRequest.stop := GeminiRequest.stop t;
     GeminiRequest.stream := Some true |} = with_stream t.
Proof. reflexivity. Qed.

(** Past the validator and the request translator, the handler makes the
    one call and goes on with what the backend answers. *)
Lemma handle_validated (fetch : FetchInit.t -> result FetchResponse.t)
  (clock : Clock) (request : Request.t) (env : Env.t)
  (anthropicRequest : AnthropicRequest.t) (key : string)
  (t : GeminiRequest.t) :
  Request.json request = inl anthropicRequest ->
  ConversionResult.success (validateAnthropicRequest anthropicRequest) = true ->
  Env.GEMINI_API_KEY env = Some key ->
  convertAnthropicToGemini anthropicRequest = ConversionResult.ok t ->
  handleAnthropicToGemini fetch clock request env
  = let init := backend_call key (sent_request anthropicRequest t) in
    match fetch init with
    | inr error => (processing_failed error, [init])
    | inl geminiResponse =>
        if negb (FetchResponse.ok geminiResponse) then
          match FetchResponse.text geminiResponse with
          | inr error => (processing_failed error, [init])
          | inl _ =>
              (createErrorResponse "api_error"
                 ("Gemini API error: "
                  ++ Number.toString
                       (Number.of_Z (FetchResponse.status geminiResponse))
                  ++ " " ++ FetchResponse.statusText geminiResponse)
                 502, [init])
          end
        else
          match AnthropicRequest.stream anthropicRequest with
          | Some true =>
              (handleStreamingResponse geminiResponse anthropicRequest, [init])
          | _ =>
              match FetchResponse.json geminiResponse with
              | inr error => (processing_failed error, [init])
              | inl geminiData =>
                  let responseResult :=
                    convertGeminiToAnthropic clock geminiData anthropicRequest in
                  match ConversionResult.data responseResult with
                  | Some data => (json_response data, [init])
                  | None =>
                      (createErrorResponse "conversion_error"
                         (or_default (ConversionResult.error responseResult)
                            "Failed to convert response")
                         400, [init])
                  end
              end
          end
    end.
Proof.
  intros Hj Hv Hk Hc. unfold handleAnthropicToGemini.
  rewrite Hj, Hv, Hc, Hk. result_fields. rewrite with_stream_eq.
  unfold sent_request, backend_call. cbv zeta.
  destruct (AnthropicRequest.stream anthropicRequest) as [[|]|];
    (destruct (fetch _) as [r|e]; [|reflexivity]);
    (destruct (negb (FetchResponse.ok r)); [reflexivity|]);
    try reflexivity.
  all: destruct (FetchResponse.json r) as [d|e]; [|reflexivity].
  all: destruct (convertGeminiToAnthropic_cases clock d anthropicRequest)
         as [(a & Ha) | (m & Hm & Ha)]; rewrite Ha; result_fields;
         [reflexivity|].
  all: unfold or_default; apply nonempty_iff in Hm; now rewrite Hm.
Qed.

(** X14. The worker calls the backend at most once, and only for a request
    for [/v1/messages] that comes with a key, whose body the validator
    accepts and the request translator translates: the call is a POST to
    the one backend address that carries the key as a bearer token and the
    translated request as JSON, with [stream] set when the caller asked for
    a stream. *)
Theorem backend_called_at_most_once
  (fetch : FetchInit.t -> result FetchResponse.t) (clock : Clock)
  (request : Request.t) (env : Env.t) :
  calls_of fetch clock request env = [] \/
  exists key anthropicRequest t,
    routed request env /\
    Env.GEMINI_API_KEY env = Some key /\
    Request.json request = inl anthropicRequest /\
    validateAnthropicRequest anthropicRequest = ConversionResult.ok_void /\
    convertAnthropicToGemini anthropicRequest = ConversionResult.ok t /\
    calls_of fetch clock request env
    = [backend_call key (sent_request anthropicRequest t)].
Proof.
  unfold calls_of.
  destruct (String.eqb (Request.method request) "OPTIONS") eqn:Em.
  { left. unfold worker_fetch. now rewrite Em. }
  destruct (Request.pathname request) as [p|e] eqn:Ep.
  2: { left. unfold worker_fetch. now rewrite Em, Ep. }
  destruct (present (Env.GEMINI_API_KEY env)) eqn:Ek.
  2: { left. unfold worker_fetch. now rewrite Em, Ep, Ek. }
  destruct (String.eqb p "/v1/messages") eqn:Er.
  2: { left. unfold worker_fetch. now rewrite Em, Ep, Ek, Er. }
  apply String.eqb_eq in Er. subst p. apply String.eqb_neq in Em.
  assert (Hr : routed request env) by (repeat split; assumption).
  rewrite (routed_fetch fetch clock request env Hr).
  destruct (Request.json request) as [req|e] eqn:Ej.
  2: { left. unfold handleAnthropicToGemini. now rewrite Ej. }
  destruct (validate_cases req) as [Hv | (m & _ & Hv)].
  2: { left. unfold handleAnthropicToGemini. now rewrite Ej, Hv. }
  destruct (convertAnthropicToGemini_cases req) as [(t & Hc) | (m & _ & Hc)].
  2: { left. unfold handleAnthropicToGemini. now rewrite Ej, Hv, Hc. }
  destruct (proj1 (present_true_iff _) Ek) as (key & EK & _).
  right. exists key, req, t.
  split; [exact Hr|]. do 4 (split; [first [assumption | reflexivity]|]).
  rewrite (handle_validated fetch clock request env req key t Ej);
    [|now rewrite Hv|assumption|assumption].
  cbv zeta.
  repeat match goal with
         | |- context [match ?x with _ => _ end] => destruct x
         end; reflexivity.
Qed.

(** X15. Without a key (absent or empty) nothing reaches the backend: the
    preflight request is answered as ever, and every other request gets a
    500, whatever its path and body, never a 404 or a 400. *)
Theorem missing_key_stops_everything
  (fetch : FetchInit.t -> result FetchResponse.t) (clock : Clock)
  (request : Request.t) (env : Env.t) :
  present (Env.GEMINI_API_KEY env) = false ->
  calls_of fetch clock request env = [] /\
  (Request.method request = "OPTIONS" /\
   response_of fetch clock request env = handleCORS \/
   Request.method request <> "OPTIONS" /\
   Response.status (response_of fetch clock request env) = 500%Z /\
   forall pathname,
     Request.pathname request = inl pathname ->
     response_of fetch clock request env
     = createErrorResponse "configuration_error"
         "GEMINI_API_KEY not configured" 500).
Proof.
  intro Hk. unfold calls_of, response_of, worker_fetch. rewrite Hk.
  destruct (String.eqb (Request.method request) "OPTIONS") eqn:Em.
  - apply String.eqb_eq in Em. split; [reflexivity|]. left. now split.
  - apply String.eqb_neq in Em.
    destruct (Request.pathname request) as [p|e]; cbn [negb fst snd];
      (split; [reflexivity|]); right; (split; [assumption|]);
      (split; [reflexivity|]).
    + reflexivity.
    + discriminate.
Qed.

Lemma missing_key_stops_everything_witness :
  calls_of (Shell.backend (Shell.answer_json (Sample.text_response "Hi")))
    Sample.clock (Shell.post (inl Sample.hello_request)) (Env.mk (Some ""))
  = [] /\
  (Request.method (Shell.post (inl Sample.hello_request)) = "OPTIONS" /\
   response_of (Shell.backend (Shell.answer_json (Sample.text_response "Hi")))
     Sample.clock (Shell.post (inl Sample.hello_request)) (Env.mk (Some ""))
   = handleCORS \/
   Request.method (Shell.post (inl Sample.hello_request)) <> "OPTIONS" /\
   Response.status
     (response_of (Shell.backend (Shell.answer_json (Sample.text_response "Hi")))
        Sample.clock (Shell.post (inl Sample.hello_request)) (Env.mk (Some "")))
   = 500%Z /\
   forall pathname,
     Request.pathname (Shell.post (inl Sample.hello_request)) = inl pathname ->
     response_of (Shell.backend (Shell.answer_json (Sample.text_response "Hi")))
       Sample.clock (Shell.post (inl Sample.hello_request)) (Env.mk (Some ""))
     = createErrorResponse "configuration_error"
         "GEMINI_API_KEY not configured" 500).
Proof.
  apply (missing_key_stops_everything
           (Shell.backend (Shell.answer_json (Sample.text_response "Hi")))
           Sample.clock (Shell.post (inl Sample.hello_request))
           (Env.mk (Some ""))).
  reflexivity.
Defined.

(** X16. A request for the endpoint whose body the validator rejects is
    answered with a 400 [invalid_request_error] that carries the
    validator's own message, one of its three, and the backend is not
    called. *)
Theorem invalid_request_answers_400
  (fetch : FetchInit.t -> result FetchResponse.t) (clock : Clock)
  (request : Request.t) (env : Env.t) (anthropicRequest : AnthropicRequest.t) :
  routed request env ->
  Request.json request = inl anthropicRequest ->
  ConversionResult.success (validateAnthropicRequest anthropicRequest) = false ->
  exists m,
    In m validation_errors /\
    validateAnthropicRequest anthropicRequest = ConversionResult.fail m /\
    worker_fetch fetch clock request env
    = (createErrorResponse "invalid_request_error" m 400, []).
Proof.
  intros Hr Hj Hv. rewrite (routed_fetch fetch clock request env Hr).
  destruct (validate_cases anthropicRequest) as [H | (m & Hin & H)].
  { rewrite H in Hv. discriminate. }
  exists m. repeat split; try assumption.
  unfold handleAnthropicToGemini. rewrite Hj, H. result_fields.
  unfold or_default.
  replace (nonempty m) with true; [reflexivity|].
  unfold validation_errors in Hin. cbn [In] in Hin.
  destruct Hin as [<- | [<- | [<- | []]]]; reflexivity.
Qed.

Lemma invalid_request_answers_400_witness :
  exists m,
    In m validation_errors /\
    validateAnthropicRequest
      (plain_request (Some "claude-3-sonnet") (AnthropicRequest.Array []))
    = ConversionResult.fail m /\
    worker_fetch
      (Shell.backend (Shell.answer_json (Sample.text_response "Hi")))
      Sample.clock
      (Shell.post
         (inl (plain_request (Some "claude-3-sonnet")
                 (AnthropicRequest.Array []))))
      Shell.env
    = (createErrorResponse "invalid_request_error" m 400, []).
Proof.
  apply (invalid_request_answers_400
           (Shell.backend (Shell.answer_json (Sample.text_response "Hi")))
           Sample.clock
           (Shell.post
              (inl (plain_request (Some "claude-3-sonnet")
                      (AnthropicRequest.Array []))))
           Shell.env
           (plain_request (Some "claude-3-sonnet") (AnthropicRequest.Array []))).
  - repeat split. discriminate.
  - reflexivity.
  - reflexivity.
Defined.

Ltac negbs :=
  repeat match goal with
         | H : negb _ = true |- _ => apply negb_true_iff in H
         | H : negb _ = false |- _ => apply negb_false_iff in H
         end.

(** X17. What the status says about the backend: a 404 is sent without
    calling it, and never for [/v1/messages]; a 502 is sent exactly when it
    was called and answered with a status that is not ok (and its error
    text could be read); a 200, the preflight answer apart, only when it
    was called and answered ok. *)
Theorem status_tells_backend
  (fetch : FetchInit.t -> result FetchResponse.t) (clock : Clock)
  (request : Request.t) (env : Env.t) :
  (Response.status (response_of fetch clock request env) = 404%Z ->
   calls_of fetch clock request env = [] /\
   Request.pathname request <> inl "/v1/messages") /\
  (Response.status (response_of fetch clock request env) = 502%Z <->
   exists init r text,
     calls_of fetch clock request env = [init] /\
     fetch init = inl r /\
     FetchResponse.ok r = false /\
     FetchResponse.text r = inl text) /\
  (Response.status (response_of fetch clock request env) = 200%Z ->
   Request.method request = "OPTIONS" \/
   exists init r,
     calls_of fetch clock request env = [init] /\
     fetch init = inl r /\
     FetchResponse.ok r = true).
Proof.
  shell_cases; shell_fields; negbs; (split; [|split]).
  all: try (intro H; discriminate H).
  all: try (split; [intro H; discriminate H|]).
  all: try (intros (init & r & text & Hc & Hf & Hok & Ht);
            first [ discriminate Hc
                  | injection Hc as <-; cbn [append] in *; congruence ]).
  all: try (intros _; left; now apply String.eqb_eq).
  all: try (intros _; right; do 2 eexists; repeat split; eassumption).
  all: try (split; [intros _|reflexivity]; do 3 eexists; repeat split;
            eassumption).
  intros _. split; [reflexivity|]. intro H. injection H as ->.
  discriminate.
Qed.

(** X18. A streaming request that passes the validator is answered with a
    200 event stream as soon as the backend answers ok, whatever the
    backend's body holds (a body that is missing or that fails while it is
    read is reported inside the stream): the one call carries
    [stream = true], the writer is closed in the end, and everything written
    is one of the worker's event records. *)
Theorem streaming_answers_200
  (fetch : FetchInit.t -> result FetchResponse.t) (clock : Clock)
  (request : Request.t) (env : Env.t) (anthropicRequest : AnthropicRequest.t)
  (key : string) (t : GeminiRequest.t) (r : FetchResponse.t) :
  routed request env ->
  Request.json request = inl anthropicRequest ->
  ConversionResult.success (validateAnthropicRequest anthropicRequest) = true ->
  AnthropicRequest.stream anthropicRequest = Some true ->
  Env.GEMINI_API_KEY env = Some key ->
  convertAnthropicToGemini anthropicRequest = ConversionResult.ok t ->
  fetch (backend_call key (with_stream t)) = inl r ->
  FetchResponse.ok r = true ->
  worker_fetch fetch clock request env
  = (handleStreamingResponse r anthropicRequest,
     [backend_call key (with_stream t)]) /\
  Response.status (handleStreamingResponse r anthropicRequest) = 200%Z /\
  exists w,
    Response.body (handleStreamingResponse r anthropicRequest) = StreamBody w /\
    closed w = true /\
    forall record, In record (written w) -> event_record record.
Proof.
  intros Hr Hj Hv Hs Hk Hc Hf Hok.
  rewrite (routed_fetch fetch clock request env Hr).
  rewrite (handle_validated fetch clock request env anthropicRequest key t
             Hj Hv Hk Hc).
  unfold sent_request. rewrite Hs. cbv zeta. rewrite Hf, Hok. cbn [negb].
  split; [reflexivity|]. split; [reflexivity|].
  eexists. split; [reflexivity|]. split; [apply processGeminiStream_closes|].
  intros record H. apply processGeminiStream_written in H as [[]|H].
  exact H.
Qed.

Lemma streaming_answers_200_witness :
  worker_fetch
    (Shell.backend (Shell.answer_stream (map Chunk Sample.streamData)))
    Sample.clock (Shell.post (inl Shell.streaming_request)) Shell.env
  = (handleStreamingResponse
       (Shell.answer_stream (map Chunk Sample.streamData))
       Shell.streaming_request,
     [backend_call "test-api-key" (with_stream Shell.streaming_translated)]) /\
  Response.status
    (handleStreamingResponse
       (Shell.answer_stream (map Chunk Sample.streamData))
       Shell.streaming_request) = 200%Z /\
  exists w,
    Response.body
      (handleStreamingResponse
         (Shell.answer_stream (map Chunk Sample.streamData))
         Shell.streaming_request) = StreamBody w /\
    closed w = true /\
    forall record, In record (written w) -> event_record record.
Proof.
  apply (streaming_answers_200
           (Shell.backend (Shell.answer_stream (map Chunk Sample.streamData)))
           Sample.clock (Shell.post (inl Shell.streaming_request)) Shell.env
           Shell.streaming_request "test-api-key" Shell.streaming_translated
           (Shell.answer_stream (map Chunk Sample.streamData))).
  - repeat split. discriminate.
  - reflexivity.
  - reflexivity.
  - reflexivity.
  - reflexivity.
  - reflexivity.
  - reflexivity.
  - reflexivity.
Defined.

(** X19. A request that is not a streaming one, once validated and
    translated, and an ok answer of the backend whose body is JSON: the
    worker answers with what the response translator makes of it, a 200
    with the translated response, or a 400 [conversion_error] with the
    translator's message (so also the message of an error object of the
    backend). *)
Theorem unary_exchange
  (fetch : FetchInit.t -> result FetchResponse.t) (clock : Clock)
  (request : Request.t) (env : Env.t) (anthropicRequest : AnthropicRequest.t)
  (key : string) (t : GeminiRequest.t) (r : FetchResponse.t)
  (geminiData : GeminiResponse.t) :
  routed request env ->
  Request.json request = inl anthropicRequest ->
  ConversionResult.success (validateAnthropicRequest anthropicRequest) = true ->
  AnthropicRequest.stream anthropicRequest <> Some true ->
  Env.GEMINI_API_KEY env = Some key ->
  convertAnthropicToGemini anthropicRequest = ConversionResult.ok t ->
  fetch (backend_call key t) = inl r ->
  FetchResponse.ok r = true ->
  FetchResponse.json r = inl geminiData ->
  (forall data,
     convertGeminiToAnthropic clock geminiData anthropicRequest
     = ConversionResult.ok data ->
     worker_fetch fetch clock request env
     = (json_response data, [backend_call key t])) /\
  (forall m,
     convertGeminiToAnthropic clock geminiData anthropicRequest
     = ConversionResult.fail m ->
     worker_fetch fetch clock request env
     = (createErrorResponse "conversion_error" m 400, [backend_call key t])).
Proof.
  intros Hr Hj Hv Hs Hk Hc Hf Hok Hd.
  rewrite (routed_fetch fetch clock request env Hr).
  rewrite (handle_validated fetch clock request env anthropicRequest key t
             Hj Hv Hk Hc).
  assert (Hsent : sent_request anthropicRequest t = t).
  { unfold sent_request.
    destruct (AnthropicRequest.stream anthropicRequest) as [[|]|];
      [now contradiction Hs | reflexivity | reflexivity]. }
  rewrite Hsent. cbv zeta. rewrite Hf, Hok, Hd. cbn [negb].
  assert (Hrest : forall (A : Type) (a b : A),
            match AnthropicRequest.stream anthropicRequest with
            | Some true => a
            | _ => b
            end = b).
  { intros A a b.
    destruct (AnthropicRequest.stream anthropicRequest) as [[|]|];
      [now contradiction Hs | reflexivity | reflexivity]. }
  rewrite Hrest. split.
  - intros data H. now rewrite H.
  - intros m H. rewrite H. result_fields. unfold or_default.
    destruct (convertGeminiToAnthropic_cases clock geminiData anthropicRequest)
      as [(a & Ha) | (m' & Hm & Ha)]; rewrite H in Ha; [discriminate|].
    injection Ha as <-. apply nonempty_iff in Hm. now rewrite Hm.
Qed.

Lemma unary_exchange_witness :
  (forall data,
     convertGeminiToAnthropic Sample.clock Shell.error_object
       Sample.hello_request = ConversionResult.ok data ->
     worker_fetch (Shell.backend (Shell.answer_json Shell.error_object))
       Sample.clock (Shell.post (inl Sample.hello_request)) Shell.env
     = (json_response data,
        [backend_call "test-api-key" Shell.hello_translated])) /\
  (forall m,
     convertGeminiToAnthropic Sample.clock Shell.error_object
       Sample.hello_request = ConversionResult.fail m ->
     worker_fetch (Shell.backend (Shell.answer_json Shell.error_object))
       Sample.clock (Shell.post (inl Sample.hello_request)) Shell.env
     = (createErrorResponse "conversion_error" m 400,
        [backend_call "test-api-key" Shell.hello_translated])).
Proof.
  apply (unary_exchange
           (Shell.backend (Shell.answer_json Shell.error_object))
           Sample.clock (Shell.post (inl Sample.hello_request)) Shell.env
           Sample.hello_request "test-api-key" Shell.hello_translated
           (Shell.answer_json Shell.error_object) Shell.error_object).
  - repeat split. discriminate.
  - reflexivity.
  - reflexivity.
  - discriminate.
  - reflexivity.
  - reflexivity.
  - reflexivity.
  - reflexivity.
  - reflexivity.
Defined.

(** The integration tests' exchanges, replayed on the model. *)
Example backend_error_object_forwarded :
  response_of (Shell.backend (Shell.answer_json Shell.error_object))
    Sample.clock (Shell.post (inl Sample.hello_request)) Shell.env
  = createErrorResponse "conversion_error" "Invalid model specified" 400.
Proof. vm_compute. reflexivity. Qed.

Example backend_status_not_ok :
  response_of
    (Shell.backend (Shell.answer_error 500 "Internal Server Error"))
    Sample.clock (Shell.post (inl Sample.hello_request)) Shell.env
  = createErrorResponse "api_error"
      "Gemini API error: 500 Internal Server Error" 502.
Proof. vm_compute. reflexivity. Qed.

(** ** The framing of the outgoing stream *)

Lemma no_line_feed_app (a b : string) :
  no_line_feed (a ++ b) = no_line_feed a && no_line_feed b.
Proof.
  induction a as [|c a IH]; [reflexivity|].
  simpl. rewrite IH. now rewrite andb_assoc.
Qed.

Lemma no_line_feed_one_line (s : string) :
  no_line_feed s = true -> one_line s.
Proof.
  unfold one_line. induction s as [|c s IH]; [reflexivity|].
  cbn [no_line_feed split_lines]. intro H.
  apply andb_true_iff in H as [Hc Hs]. apply negb_true_iff in Hc.
  rewrite Hc. now rewrite (IH Hs).
Qed.

Lemma no_line_feed_rev_onto (s acc : string) :
  no_line_feed (rev_onto s acc) = no_line_feed s && no_line_feed acc.
Proof.
  revert acc. induction s as [|c s IH]; intro acc; [reflexivity|].
  cbn [rev_onto]. rewrite IH. cbn [no_line_feed].
  destruct (negb (code c =? 10)%N); destruct (no_line_feed s);
    reflexivity.
Qed.

Lemma no_line_feed_rev (s : string) :
  no_line_feed (rev s) = no_line_feed s.
Proof.
  unfold rev. rewrite no_line_feed_rev_onto. cbn [no_line_feed].
  now rewrite andb_true_r.
Qed.

Lemma no_line_feed_slice (n : nat) (s : string) :
  no_line_feed s = true -> no_line_feed (slice n s) = true.
Proof.
  revert s. induction n as [|n IH]; intros [|c s] H; try assumption.
  cbn [slice]. apply IH. cbn [no_line_feed] in H.
  now apply andb_true_iff in H.
Qed.

Lemma no_line_feed_substring (a n : nat) (s : string) :
  no_line_feed s = true -> no_line_feed (String.substring a n s) = true.
Proof.
  revert a n. induction s as [|c s IH]; intros a n H.
  - destruct a, n; reflexivity.
  - cbn [no_line_feed] in H. apply andb_true_iff in H as [Hc Hs].
    destruct a as [|a]; cbn [String.substring].
    + destruct n as [|n]; [reflexivity|].
      cbn [no_line_feed]. rewrite Hc. now apply IH.
    + now apply IH.
Qed.

Lemma no_line_feed_zeros (k : nat) : no_line_feed (Number.zeros k) = true.
Proof. induction k as [|k IH]; [reflexivity|]. exact IH. Qed.

Lemma no_line_feed_strip_zeros (s : string) :
  no_line_feed s = true ->
  no_line_feed (snd (Number.strip_zeros s)) = true.
Proof.
  induction s as [|c s IH]; intro H; [reflexivity|].
  cbn [Number.strip_zeros].
  destruct (code c =? 48)%N; [|exact H].
  cbn [no_line_feed] in H. apply andb_true_iff in H as [_ Hs].
  specialize (IH Hs). now destruct (Number.strip_zeros s).
Qed.

Lemma no_line_feed_uint (d : Decimal.uint) :
  no_line_feed (NilEmpty.string_of_uint d) = true.
Proof. induction d; simpl; auto. Qed.

Lemma no_line_feed_digits_of (n : N) :
  no_line_feed (Number.digits_of n) = true.
Proof.
  unfold Number.digits_of, NilZero.string_of_uint.
  destruct (N.to_uint n); try reflexivity; apply no_line_feed_uint.
Qed.

Create HintDb line_feed.

#[local] Hint Resolve no_line_feed_zeros no_line_feed_digits_of
  no_line_feed_slice no_line_feed_substring : line_feed.

Lemma no_line_feed_toString (x : number) :
  no_line_feed (Number.toString x) = true.
Proof.
  unfold Number.toString.
  destruct (mantissa x =? 0)%Z; [reflexivity|].
  pose proof (no_line_feed_strip_zeros
                (rev (Number.digits_of (Z.to_N (Z.abs (mantissa x)))))) as Hs.
  rewrite no_line_feed_rev in Hs.
  specialize (Hs (no_line_feed_digits_of _)).
  destruct (Number.strip_zeros _) as [z rds]. cbn [snd] in Hs.
  assert (Hds : no_line_feed (rev rds) = true)
    by now rewrite no_line_feed_rev.
  set (ds := rev rds) in *. cbv zeta.
  rewrite no_line_feed_app.
  apply andb_true_iff. split; [now destruct (mantissa x <? 0)%Z|].
  repeat match goal with
         | |- context [if ?b then _ else _] => destruct b
         end;
    repeat rewrite no_line_feed_app;
    rewrite ?Hds, ?no_line_feed_zeros; auto with line_feed.
  - rewrite no_line_feed_substring, no_line_feed_slice by assumption.
    reflexivity.
  - destruct ds as [|d [|d' r]]; try reflexivity.
    + cbn [append no_line_feed] in *. rewrite no_line_feed_digits_of.
      apply andb_true_iff in Hds as [-> _]. reflexivity.
    + cbn [append no_line_feed] in *. rewrite !no_line_feed_app.
      cbn [no_line_feed]. rewrite no_line_feed_digits_of.
      apply andb_true_iff in Hds as [-> Hds].
      apply andb_true_iff in Hds as [-> ->]. reflexivity.
  - destruct ds as [|d [|d' r]]; try reflexivity.
    + cbn [append no_line_feed] in *. rewrite no_line_feed_digits_of.
      apply andb_true_iff in Hds as [-> _]. reflexivity.
    + cbn [append no_line_feed] in *. rewrite !no_line_feed_app.
      cbn [no_line_feed]. rewrite no_line_feed_digits_of.
      apply andb_true_iff in Hds as [-> Hds].
      apply andb_true_iff in Hds as [-> ->]. reflexivity.
Qed.

Lemma no_line_feed_escape (c : ascii) : no_line_feed (JSON.escape c) = true.
Proof. destruct c as [[] [] [] [] [] [] [] []]; reflexivity. Qed.

Lemma no_line_feed_escape_all (s : string) :
  no_line_feed (JSON.escape_all s) = true.
Proof.
  induction s as [|c s IH]; [reflexivity|].
  cbn [JSON.escape_all]. rewrite no_line_feed_app, no_line_feed_escape.
  exact IH.
Qed.

Lemma no_line_feed_quote (s : string) : no_line_feed (JSON.quote s) = true.
Proof.
  unfold JSON.quote. rewrite !no_line_feed_app, no_line_feed_escape_all.
  reflexivity.
Qed.

Lemma no_line_feed_join (parts : list string) :
  Forall (fun p => no_line_feed p = true) parts ->
  no_line_feed (join "," parts) = true.
Proof.
  unfold join. induction parts as [|p l IH]; intro H; [reflexivity|].
  inversion H as [|p' l' Hp Hl]; subst.
  destruct l as [|q l]; [exact Hp|].
  change (String.concat "," (p :: q :: l))
    with (p ++ "," ++ String.concat "," (q :: l)).
  rewrite !no_line_feed_app, Hp, (IH Hl). reflexivity.
Qed.

Lemma Some_eq {A : Type} (a b : A) : Some a = Some b -> a = b.
Proof. now intros [= ->]. Qed.

(** The text [JSON.stringify] returns is one line, whatever the value. *)
Lemma no_line_feed_stringify (v : value) (t : string) :
  JSON.stringify v = Some t -> no_line_feed t = true.
Proof.
  revert v t. fix IH 1. intros [| |b|n|s|l|ps] t H; cbn [JSON.stringify] in H.
  - discriminate.
  - now injection H as <-.
  - injection H as <-. now destruct b.
  - injection H as <-. apply no_line_feed_toString.
  - injection H as <-. apply no_line_feed_quote.
  - apply Some_eq in H. subst t. rewrite !no_line_feed_app.
    rewrite no_line_feed_join; [reflexivity|].
    induction l as [|x l IHl]; [constructor|].
    cbn [map]. constructor; [|exact IHl].
    destruct (JSON.stringify x) as [tx|] eqn:E; [|reflexivity].
    exact (IH x tx E).
  - apply Some_eq in H. subst t. rewrite !no_line_feed_app.
    rewrite no_line_feed_join; [reflexivity|].
    induction ps as [|[k x] ps IHps]; [constructor|].
    cbn [flat_map fst snd].
    destruct (JSON.stringify x) as [tx|] eqn:E; [|exact IHps].
    cbn [app]. constructor; [|exact IHps].
    rewrite !no_line_feed_app, no_line_feed_quote, (IH x tx E). reflexivity.
Qed.

Lemma no_line_feed_stringify_text (v : value) :
  no_line_feed (JSON.stringify_text v) = true.
Proof.
  unfold JSON.stringify_text.
  destruct (JSON.stringify v) as [t|] eqn:E; [|reflexivity].
  exact (no_line_feed_stringify v t E).
Qed.

Lemma split_lines_line (a b : string) :
  one_line a -> split_lines (a ++ LF ++ b) = a :: split_lines b.
Proof.
  intro H. rewrite (split_lines_after_one_line a (LF ++ b) H).
  cbn [LF append split_lines].
  replace (code (chr 10) =? 10)%N with true by reflexivity.
  f_equal. clear. induction a as [|c a IH]; [reflexivity|].
  cbn [append]. now rewrite IH.
Qed.

Lemma sse_record_framed (type : string) (chunk : value) :
  no_line_feed type = true ->
  split_lines (sse_record (VStr type) chunk)
  = [ "event: " ++ type; "data: " ++ JSON.stringify_text chunk; ""; "" ].
Proof.
  intro Ht. unfold sse_record. cbn [ToString].
  replace ("event: " ++ type ++ LF
           ++ "data: " ++ JSON.stringify_text chunk ++ LF ++ LF)
    with (("event: " ++ type) ++ LF
          ++ ("data: " ++ JSON.stringify_text chunk) ++ LF ++ LF)
    by reflexivity.
  rewrite split_lines_line.
  2: { apply no_line_feed_one_line. rewrite no_line_feed_app, Ht.
       reflexivity. }
  rewrite split_lines_line.
  2: { apply no_line_feed_one_line.
       rewrite no_line_feed_app, no_line_feed_stringify_text. reflexivity. }
  reflexivity.
Qed.

Lemma event_record_framed (r : string) : event_record r -> framed r.
Proof.
  unfold framed, event_types.
  intros [(text & ->) | [(a & ->) | [-> | ->]]]; unfold record_of.
  - exists "content_block_delta". eexists. split; [cbn [In]; tauto|].
    change (type_of (text_delta text)) with (VStr "content_block_delta").
    now apply sse_record_framed.
  - exists "content_block_delta". eexists. split; [cbn [In]; tauto|].
    change (type_of (input_json_delta a)) with (VStr "content_block_delta").
    now apply sse_record_framed.
  - exists "message_stop". eexists. split; [cbn [In]; tauto|].
    change (type_of message_stop) with (VStr "message_stop").
    now apply sse_record_framed.
  - exists "error". eexists. split; [cbn [In]; tauto|].
    change (type_of error_event) with (VStr "error").
    now apply sse_record_framed.
Qed.

(** X20. Every record of the outgoing stream is one event of an event
    stream: a line [event: ] with one of three types, a line [data: ] with
    the event as JSON, and a blank line. No text of the backend, whatever
    line feeds or quotes it holds, breaks a record in two, since the JSON
    text of a value never holds a line feed. *)
Theorem records_are_framed (body : option (list read))
  (req : AnthropicRequest.t) :
  Forall framed (written (processGeminiStream body new_writer req)).
Proof.
  apply Forall_forall. intros r H.
  apply processGeminiStream_written in H as [[]|H].
  now apply event_record_framed.
Qed.

(** ** The error envelope, read back *)

Lemma rev_onto_app (s acc : string) :
  rev_onto s acc = rev s ++ acc.
Proof.
  unfold rev. revert acc. induction s as [|c s IH]; intro acc; [reflexivity|].
  cbn [rev_onto]. rewrite IH, (IH (String c "")).
  now rewrite append_assoc.
Qed.

Lemma rev_rev_onto (s acc : string) :
  rev (rev_onto s acc) = rev acc ++ s.
Proof.
  revert acc. induction s as [|c s IH]; intro acc.
  - cbn [rev_onto]. now rewrite append_empty_r.
  - cbn [rev_onto]. rewrite IH. unfold rev at 1. cbn [rev_onto].
    rewrite rev_onto_app. now rewrite append_assoc.
Qed.

(** Reading an escaped character back takes one step. *)
Lemma parse_chars_escape (c : ascii) (f : nat) (r acc : string) :
  JSON.parse_chars (S f) (JSON.escape c ++ r) acc
  = JSON.parse_chars f r (String c acc).
Proof. destruct c as [[] [] [] [] [] [] [] []]; reflexivity. Qed.

Lemma parse_chars_escape_all (s : string) (f : nat) (rest acc : string) :
  (String.length s < f)%nat ->
  JSON.parse_chars f (JSON.escape_all s ++ DQ ++ rest) acc
  = Some (rev acc ++ s, rest).
Proof.
  revert f acc. induction s as [|c s IH]; intros f acc H.
  - destruct f as [|f]; [inversion H|].
    cbn. now rewrite append_empty_r.
  - destruct f as [|f]; [inversion H|].
    cbn [JSON.escape_all]. rewrite append_assoc.
    rewrite parse_chars_escape.
    rewrite IH by (cbn [String.length] in H; lia).
    unfold rev. cbn [rev_onto]. rewrite rev_onto_app.
    now rewrite append_assoc.
Qed.

Lemma length_append (a b : string) :
  String.length (a ++ b) = (String.length a + String.length b)%nat.
Proof.
  induction a as [|c a IH]; [reflexivity|]. cbn. now rewrite IH.
Qed.

Lemma length_escape (c : ascii) : (1 <= String.length (JSON.escape c))%nat.
Proof.
  destruct c as [[] [] [] [] [] [] [] []]; cbn; lia.
Qed.

Lemma length_escape_all (s : string) :
  (String.length s <= String.length (JSON.escape_all s))%nat.
Proof.
  induction s as [|c s IH]; [reflexivity|].
  cbn [JSON.escape_all String.length]. rewrite length_append.
  pose proof (length_escape c). lia.
Qed.

(** A string literal at the head of a text is read back as the string. *)
Lemma parse_value_quote (s rest : string) (f : nat) :
  JSON.parse_value (S f) (JSON.quote s ++ rest) = Some (VStr s, rest).
Proof.
  unfold JSON.quote. rewrite !append_assoc.
  cbn [JSON.parse_value DQ append JSON.skip_ws].
  replace (JSON.is_ws dquote) with false by reflexivity.
  replace (code dquote =? 123)%N with false by reflexivity.
  replace (code dquote =? 91)%N with false by reflexivity.
  replace (code dquote =? 34)%N with true by reflexivity.
  change (String dquote rest) with (DQ ++ rest).
  rewrite parse_chars_escape_all; [reflexivity|].
  rewrite length_append. pose proof (length_escape_all s).
  cbn [DQ append String.length]. lia.
Qed.

Lemma parse_value_object (k rest : string) (f : nat) :
  JSON.parse_value (S f) (String "{" (JSON.quote k ++ rest))
  = JSON.parse_members f (JSON.quote k ++ rest) [].
Proof.
  unfold JSON.quote. rewrite !append_assoc.
  cbn [JSON.parse_value DQ append JSON.skip_ws].
  replace (JSON.is_ws "{") with false by reflexivity.
  replace (code "{" =? 123)%N with true by reflexivity.
  replace (JSON.is_ws dquote) with false by reflexivity.
  replace (code dquote =? 125)%N with false by reflexivity.
  reflexivity.
Qed.

(** One member of an object: its name, the colon, and then its value. *)
Lemma parse_members_key (k body : string) (acc : list (string * value))
  (f : nat) :
  JSON.parse_members (S f) (JSON.quote k ++ String ":" body) acc
  = match JSON.parse_value f body with
    | Some (v, r3) =>
        match JSON.skip_ws r3 with
        | String g r4 =>
            if (code g =? 44)%N
            then JSON.parse_members f r4 (JSON.set_prop acc k v)
            else if (code g =? 125)%N
            then Some (VObj (JSON.set_prop acc k v), r4)
            else None
        | "" => None
        end
    | None => None
    end.
Proof.
  unfold JSON.quote. rewrite !append_assoc.
  cbn [JSON.parse_members DQ append JSON.skip_ws].
  replace (JSON.is_ws dquote) with false by reflexivity.
  replace (code dquote =? 34)%N with true by reflexivity.
  change (String dquote (String ":" body)) with (DQ ++ String ":" body).
  rewrite parse_chars_escape_all.
  2: { rewrite length_append. pose proof (length_escape_all k).
       cbn [DQ append String.length]. lia. }
  cbn [rev rev_onto append JSON.skip_ws].
  replace (JSON.is_ws ":") with false by reflexivity.
  replace (code ":" =? 58)%N with true by reflexivity.
  reflexivity.
Qed.

(** The text of an error envelope. *)
Lemma stringify_ErrorResponse (type message : string) :
  JSON.stringify_text (ErrorResponse_value type message)
  = "{" ++ JSON.quote "type" ++ ":" ++ JSON.quote "error" ++ ","
    ++ JSON.quote "error" ++ ":"
    ++ "{" ++ JSON.quote "type" ++ ":" ++ JSON.quote type ++ ","
    ++ JSON.quote "message" ++ ":" ++ JSON.quote message ++ "}" ++ "}".
Proof.
  unfold JSON.stringify_text, ErrorResponse_value.
  cbn [JSON.stringify flat_map fst snd app join String.concat].
  now rewrite !append_assoc.
Qed.

Lemma parse_ErrorResponse (type message : string) (f : nat) :
  JSON.parse_value (8 + f)
    (JSON.stringify_text (ErrorResponse_value type message))
  = Some (ErrorResponse_value type message, "").
Proof.
  rewrite stringify_ErrorResponse. cbn [Nat.add append].
  rewrite parse_value_object.
  rewrite parse_members_key, parse_value_quote.
  cbn [JSON.skip_ws].
  replace (JSON.is_ws ",") with false by reflexivity.
  replace (code "," =? 44)%N with true by reflexivity.
  rewrite parse_members_key.
  rewrite parse_value_object.
  rewrite parse_members_key, parse_value_quote.
  cbn [JSON.skip_ws].
  replace (JSON.is_ws ",") with false by reflexivity.
  replace (code "," =? 44)%N with true by reflexivity.
  rewrite parse_members_key, parse_value_quote.
  cbn [JSON.skip_ws].
  replace (JSON.is_ws "}") with false by reflexivity.
  replace (code "}" =? 44)%N with false by reflexivity.
  replace (code "}" =? 125)%N with true by reflexivity.
  reflexivity.
Qed.

(** X21. The body of an error response is valid JSON, and read back it is
    the envelope with the type and the message as they were given: no
    character of a message (a quote, a backslash, a line feed, a control
    character) breaks the envelope or is lost. *)
Theorem error_envelope_round_trip (type message : string) (status : Z) :
  exists text,
    Response.body (createErrorResponse type message status) = TextBody text /\
    JSON.parse text = inl (ErrorResponse_value type message).
Proof.
  eexists. split; [reflexivity|].
  unfold JSON.parse.
  set (text := JSON.stringify_text (ErrorResponse_value type message)).
  assert (Hlen : (3 <= String.length text)%nat).
  { unfold text. rewrite stringify_ErrorResponse. unfold JSON.quote.
    rewrite !length_append. cbn [String.length DQ]. lia. }
  replace (2 * String.length text + 2)%nat
    with (8 + (2 * String.length text - 6))%nat by lia.
  unfold text. rewrite parse_ErrorResponse. reflexivity.
Qed.

(** ** Messages that are kept *)

Lemma has_printable_app (a b : string) :
  has_printable (a ++ b) = has_printable a || has_printable b.
Proof.
  induction a as [|c a IH]; [reflexivity|].
  cbn [append has_printable]. rewrite IH. now rewrite orb_assoc.
Qed.

Lemma has_printable_rev_onto (s acc : string) :
  has_printable (rev_onto s acc) = has_printable s || has_printable acc.
Proof.
  revert acc. induction s as [|c s IH]; intro acc; [reflexivity|].
  cbn [rev_onto]. rewrite IH. cbn [has_printable].
  destruct (printable c); destruct (has_printable s);
    destruct (has_printable acc); reflexivity.
Qed.

Lemma has_printable_rev (s : string) :
  has_printable (rev s) = has_printable s.
Proof.
  unfold rev. rewrite has_printable_rev_onto. cbn [has_printable].
  now rewrite orb_false_r.
Qed.

Lemma has_printable_nonempty (s : string) :
  has_printable s = true -> s <> "".
Proof. destruct s; [discriminate|]. intros _. discriminate. Qed.

(** No byte of a white-space character is printable. *)
Lemma ws1_not_printable (c : ascii) :
  ws1 (code c) = true -> printable c = false.
Proof.
  unfold ws1, printable. intro H.
  destruct (33 <=? code c)%N eqn:E1; [|reflexivity].
  destruct (code c <=? 126)%N eqn:E2; [|reflexivity].
  apply N.leb_le in E1, E2.
  apply orb_true_iff in H as [H | H].
  - apply andb_true_iff in H as [_ H]. apply N.leb_le in H. lia.
  - apply N.eqb_eq in H. lia.
Qed.

Lemma ws2_not_printable (a b : ascii) :
  ws2 (code a) (code b) = true -> printable a = false /\ printable b = false.
Proof.
  unfold ws2, printable. intro H.
  apply andb_true_iff in H as [Ha Hb].
  apply N.eqb_eq in Ha, Hb. rewrite Ha, Hb. now split.
Qed.

Lemma ws3_first (a b c : N) :
  ws3 a b c = true -> (128 <= a /\ 128 <= b /\ 128 <= c)%N.
Proof.
  unfold ws3. intro H.
  repeat match type of H with
         | (_ || _) = true => apply orb_true_iff in H; destruct H as [H | H]
         end;
    repeat match goal with
           | H : (_ && _) = true |- _ =>
               apply andb_true_iff in H; destruct H
           | H : (_ || _) = true |- _ =>
               apply orb_true_iff in H; destruct H
           | H : (_ =? _)%N = true |- _ => apply N.eqb_eq in H
           | H : (_ <=? _)%N = true |- _ => apply N.leb_le in H
           end; lia.
Qed.

Lemma ws3_not_printable (a b c : ascii) :
  ws3 (code a) (code b) (code c) = true ->
  printable a = false /\ printable b = false /\ printable c = false.
Proof.
  intro H. apply ws3_first in H as (Ha & Hb & Hc). unfold printable.
  repeat split; apply andb_false_iff; right; apply N.leb_gt; lia.
Qed.

Lemma trimStart_printable_bounded (n : nat) (s : string) :
  (String.length s <= n)%nat ->
  has_printable s = true -> has_printable (trimStart s) = true.
Proof.
  revert s. induction n as [|n IH]; intros s Hn H.
  { destruct s; [discriminate H | inversion Hn]. }
  destruct s as [|c1 r1]; [discriminate H|].
  cbn [String.length] in Hn. cbn [trimStart].
  destruct (ws1 (code c1)) eqn:E1.
  { apply IH; [lia|]. cbn [has_printable] in H.
    now rewrite (ws1_not_printable c1 E1) in H. }
  destruct r1 as [|c2 r2]; [exact H|].
  cbn [String.length] in Hn.
  destruct (ws2 (code c1) (code c2)) eqn:E2.
  { apply IH; [lia|]. cbn [has_printable] in H.
    destruct (ws2_not_printable c1 c2 E2) as [H1 H2].
    now rewrite H1, H2 in H. }
  destruct r2 as [|c3 r3]; [exact H|].
  cbn [String.length] in Hn.
  destruct (ws3 (code c1) (code c2) (code c3)) eqn:E3; [|exact H].
  apply IH; [lia|]. cbn [has_printable] in H.
  destruct (ws3_not_printable c1 c2 c3 E3) as (H1 & H2 & H3).
  now rewrite H1, H2, H3 in H.
Qed.

Lemma trimStart_rev_printable_bounded (n : nat) (s : string) :
  (String.length s <= n)%nat ->
  has_printable s = true -> has_printable (trimStart_rev s) = true.
Proof.
  revert s. induction n as [|n IH]; intros s Hn H.
  { destruct s; [discriminate H | inversion Hn]. }
  destruct s as [|c1 r1]; [discriminate H|].
  cbn [String.length] in Hn. cbn [trimStart_rev].
  destruct (ws1 (code c1)) eqn:E1.
  { apply IH; [lia|]. cbn [has_printable] in H.
    now rewrite (ws1_not_printable c1 E1) in H. }
  destruct r1 as [|c2 r2]; [exact H|].
  cbn [String.length] in Hn.
  destruct (ws2 (code c2) (code c1)) eqn:E2.
  { apply IH; [lia|]. cbn [has_printable] in H.
    destruct (ws2_not_printable c2 c1 E2) as [H2 H1].
    now rewrite H1, H2 in H. }
  destruct r2 as [|c3 r3]; [exact H|].
  cbn [String.length] in Hn.
  destruct (ws3 (code c3) (code c2) (code c1)) eqn:E3; [|exact H].
  apply IH; [lia|]. cbn [has_printable] in H.
  destruct (ws3_not_printable c3 c2 c1 E3) as (H3 & H2 & H1).
  now rewrite H1, H2, H3 in H.
Qed.

(** A text with a printable character is not blank. *)
Lemma printable_not_blank (s : string) :
  has_printable s = true -> nonempty (trim s) = true.
Proof.
  intro H. apply nonempty_iff. apply has_printable_nonempty.
  unfold trim, trimEnd. rewrite has_printable_rev.
  apply (trimStart_rev_printable_bounded _ _ (Nat.le_refl _)).
  rewrite has_printable_rev.
  now apply (trimStart_printable_bounded _ _ (Nat.le_refl _)).
Qed.

Lemma has_printable_join (sep : string) (parts : list string) (p : string) :
  In p parts -> has_printable p = true ->
  has_printable (join sep parts) = true.
Proof.
  unfold join. induction parts as [|q l IH]; intros Hin Hp; [contradiction|].
  destruct l as [|q' l].
  - destruct Hin as [<- | []]. exact Hp.
  - change (String.concat sep (q :: q' :: l))
      with (q ++ sep ++ String.concat sep (q' :: l)).
    rewrite !has_printable_app.
    destruct Hin as [<- | Hin]; [now rewrite Hp|].
    rewrite (IH Hin Hp). now rewrite !orb_true_r.
Qed.

Lemma content_part_tool_block (block : AnthropicContent.t) :
  tool_block block ->
  exists p, content_part block = [p] /\ has_printable p = true.
Proof.
  unfold content_part. intros [H | (H & Hn & Hi)]; rewrite H.
  - cbn [String.eqb Ascii.eqb Bool.eqb andb]. eexists. split; reflexivity.
  - rewrite Hn, Hi. cbn [String.eqb Ascii.eqb Bool.eqb andb].
    eexists. split; reflexivity.
Qed.

Lemma convertAnthropicMessage_kept (msg : AnthropicMessage.t) (i : nat) :
  has_printable (flatten msg) = true ->
  convertAnthropicMessage msg i
  = Some (GeminiMessage.mk (target_role (AnthropicMessage.role msg))
            (flatten msg)).
Proof.
  intro H. unfold convertAnthropicMessage.
  rewrite (printable_not_blank _ H). cbn [negb]. do 2 f_equal.
  unfold target_role.
  destruct (AnthropicMessage.role msg) as [r|]; [|reflexivity].
  destruct (String.eqb r "assistant") eqn:E.
  - apply String.eqb_eq in E. now subst r.
  - apply String.eqb_neq in E.
    repeat match goal with
           | |- context [match ?x with _ => _ end] => destruct x
           end; try reflexivity.
    now contradiction E.
Qed.

(** X22. A message that holds a block standing for a tool (a tool result,
    or a tool use with a name and a truthy input) is never dropped as
    blank, whatever its other blocks are: it is translated to its flattened
    text, under the role [assistant] when the source role is [assistant]
    and under [user] for every other role and for none. *)
Theorem tool_blocks_kept (msg : AnthropicMessage.t) (index : nat)
  (items : list AnthropicContent.t) (block : AnthropicContent.t) :
  AnthropicMessage.content msg = AnthropicMessage.Blocks items ->
  In block items ->
  tool_block block ->
  convertAnthropicMessage msg index
  = Some (GeminiMessage.mk (target_role (AnthropicMessage.role msg))
            (flatten msg)) /\
  trim (flatten msg) <> "".
Proof.
  intros Hc Hin Ht.
  assert (H : has_printable (flatten msg) = true).
  { unfold flatten. rewrite Hc.
    destruct (content_part_tool_block block Ht) as (p & Hp & Hpr).
    apply has_printable_join with (p := p); [|exact Hpr].
    apply in_flat_map. exists block. split; [exact Hin|].
    rewrite Hp. now left. }
  split; [now apply convertAnthropicMessage_kept|].
  apply nonempty_iff. now apply printable_not_blank.
Qed.

Lemma tool_blocks_kept_witness :
  convertAnthropicMessage Shell.tool_result_message 3
  = Some (GeminiMessage.mk
            (target_role (AnthropicMessage.role Shell.tool_result_message))
            (flatten Shell.tool_result_message)) /\
  trim (flatten Shell.tool_result_message) <> "".
Proof.
  apply (tool_blocks_kept Shell.tool_result_message 3
           [ AnthropicContent.image_block
               (ImageSource.mk "base64" "image/png" "iVBORw0KGgo=");
             AnthropicContent.tool_result_block "call_123" (VStr "") ]
           (AnthropicContent.tool_result_block "call_123" (VStr ""))).
  - reflexivity.
  - right. left. reflexivity.
  - left. reflexivity.
Defined.

(** ** The model mapper, on every identifier *)


(** ** One chunk, several things to report *)

Lemma first_choice_read (chunk : value) (choice : list (string * value)) :
  first_choice chunk choice ->
  (choices <- JS.get chunk "choices" ;; JS.first_opt choices)
  = inl (VObj choice).
Proof.
  intros (props & rest & -> & H). cbn [JS.get bind ret]. now rewrite H.
Qed.

(** X24. Of a chunk, one thing is reported. A truthy content of the first
    choice's delta is sent as a text delta, string or not, whatever tool
    calls and finish reason the choice carries; without it, the arguments
    of the first tool call are sent as an input-JSON delta, the empty text
    for absent or empty arguments, and neither the call's id and name, nor
    the calls after it, nor the finish reason. *)
Theorem chunk_priority (chunk : value) (choice delta : list (string * value))
  (req : AnthropicRequest.t) :
  first_choice chunk choice ->
  JS.assoc "delta" choice = Some (VObj delta) ->
  (forall content,
     JS.assoc "content" delta = Some content ->
     JS.truthy content = true ->
     convertGeminiStreamChunk chunk req = inl (text_delta content)) /\
  (forall call calls f,
     JS.truthy (JS.or_undefined (JS.assoc "content" delta)) = false ->
     JS.assoc "tool_calls" delta = Some (VArr (VObj call :: calls)) ->
     JS.assoc "function" call = Some (VObj f) ->
     convertGeminiStreamChunk chunk req
     = inl (input_json_delta
              (or_else (JS.or_undefined (JS.assoc "arguments" f)) (VStr "")))).
Proof.
  intros Hc Hd. pose proof (first_choice_read chunk choice Hc) as Hr.
  unfold bind in Hr.
  split.
  - intros content Hcontent Ht.
    unfold convertGeminiStreamChunk, bind.
    destruct (JS.get chunk "choices") as [choices|]; [|discriminate Hr].
    rewrite Hr. cbn [JS.truthy negb JS.get ret]. rewrite Hd.
    cbn [JS.or_undefined JS.get_opt JS.get ret]. rewrite Hcontent.
    cbn [JS.or_undefined]. unfold or_else. now rewrite !Ht.
  - intros call calls f Hcontent Hcalls Hf.
    unfold convertGeminiStreamChunk, bind.
    destruct (JS.get chunk "choices") as [choices|]; [|discriminate Hr].
    rewrite Hr. cbn [JS.truthy negb JS.get ret]. rewrite Hd.
    cbn [JS.or_undefined JS.get_opt JS.get ret].
    unfold or_else at 1 2. rewrite Hcontent. cbn [JS.truthy nonempty].
    rewrite Hcalls.
    cbn [JS.or_undefined JS.truthy JS.length ret JS.gt0 JS.first hd
         JS.get List.length].
    replace (Number.positive
               (Number.of_Z (Z.of_nat (S (List.length calls))))) with true.
    2: { unfold Number.positive, Number.of_Z. cbn [mantissa]. symmetry.
         apply Z.ltb_lt. lia. }
    now rewrite Hf.
Qed.

Lemma chunk_priority_witness :
  (forall content,
     JS.assoc "content" (Shell.crowded_delta [("content", VStr "Hi")])
     = Some content ->
     JS.truthy content = true ->
     convertGeminiStreamChunk (Shell.crowded_chunk [("content", VStr "Hi")])
       Sample.hello_request
     = inl (text_delta content)) /\
  (forall call calls f,
     JS.truthy
       (JS.or_undefined
          (JS.assoc "content" (Shell.crowded_delta [("content", VStr "Hi")])))
     = false ->
     JS.assoc "tool_calls" (Shell.crowded_delta [("content", VStr "Hi")])
     = Some (VArr (VObj call :: calls)) ->
     JS.assoc "function" call = Some (VObj f) ->
     convertGeminiStreamChunk (Shell.crowded_chunk [("content", VStr "Hi")])
       Sample.hello_request
     = inl (input_json_delta
              (or_else (JS.or_undefined (JS.assoc "arguments" f)) (VStr "")))).
Proof.
  apply (chunk_priority (Shell.crowded_chunk [("content", VStr "Hi")])
           (Shell.crowded_choice [("content", VStr "Hi")])
           (Shell.crowded_delta [("content", VStr "Hi")]) Sample.hello_request).
  - exists [ ("id", VStr "chunk_9");
             ("choices",
              VArr [ VObj (Shell.crowded_choice [("content", VStr "Hi")]) ]) ], [].
    split; reflexivity.
  - reflexivity.
Defined.

Example text_hides_the_finish :
  convertGeminiStreamChunk (Shell.crowded_chunk [("content", VStr "Hi")])
    Sample.hello_request
  = inl (text_delta (VStr "Hi")).
Proof. reflexivity. Qed.

Example first_call_alone :
  convertGeminiStreamChunk (Shell.crowded_chunk []) Sample.hello_request
  = inl (input_json_delta (VStr "{")).
Proof. reflexivity. Qed.

(** ** Any number of text chunks *)

Lemma data_line_inj (p q : string) : data_line p = data_line q -> p = q.
Proof. unfold data_line. cbn [append]. now intros [= ->]. Qed.

Lemma carries_text_not_terminator (p t : string) :
  carries_text p t -> data_line p <> terminator.
Proof.
  intros (chunk & choice & delta & Hp & _) H.
  apply data_line_inj in H.
  now apply (parsed_not_terminator p chunk Hp).
Qed.

Lemma In_removelast {A} (l : list A) (x : A) :
  In x (removelast l) -> In x l.
Proof.
  induction l as [|a l IH]; [contradiction|].
  destruct l as [|b l]; [contradiction|].
  intros [<- | H]; [now left | right; now apply IH].
Qed.

Lemma Forall2_In_left {A B} (R : A -> B -> Prop) (l : list A) (l' : list B)
  (x : A) :
  Forall2 R l l' -> In x l -> exists y, In y l' /\ R x y.
Proof.
  induction 1 as [|a b l l' Hab _ IH]; [contradiction|].
  intros [<- | H].
  - exists b. split; [now left | exact Hab].
  - destruct (IH H) as (y & Hy & Hxy). exists y. split; [now right | exact Hxy].
Qed.

Lemma process_lines_texts (ps ts : list string) (rest : list string)
  (req : AnthropicRequest.t) (w : Writer) :
  Forall2 carries_text ps ts ->
  process_lines (map data_line ps ++ rest)%list req w
  = process_lines rest req
      (fold_left write
         (map (fun t => record_of (text_delta (VStr t))) ts) w).
Proof.
  intro H. revert w. induction H as [|p t ps ts Hp _ IH]; intro w;
    [reflexivity|].
  cbn [map app fold_left].
  rewrite process_lines_payload.
  2: { destruct Hp as (chunk & _ & _ & Hparse & _).
       now apply (parsed_not_terminator p chunk). }
  rewrite (process_data_text p t req w Hp). apply IH.
Qed.

(** X25. A stream whose data lines carry any number of texts, closed by the
    terminator or not, is translated to one text delta for each, in the
    order of the lines, followed by one stop event when the terminator is
    there: whatever the reads, the lines between the data lines and the
    other fields of the chunks are. *)
Theorem stream_texts_in_order (texts ps ts : list string) (terminated : bool)
  (req : AnthropicRequest.t) (w : Writer) :
  data_lines (complete_lines (stream_text texts))
  = (map data_line ps ++ (if terminated then [terminator] else []))%list ->
  Forall2 carries_text ps ts ->
  processGeminiStream (Some (map Chunk texts)) w req
  = close
      (fold_left write
         (map (fun t => record_of (text_delta (VStr t))) ts
          ++ (if terminated then [record_of message_stop] else []))%list
         w).
Proof.
  intros Hlines Hps. unfold processGeminiStream.
  rewrite read_loop_all_chunks.
  assert (Hc : List.concat (batches "" texts)
               = complete_lines (stream_text texts))
    by exact (batches_complete_lines "" texts eq_refl).
  rewrite process_batches_whole.
  2: { rewrite Hc. unfold terminator_only_last. rewrite Hlines.
       apply forallb_forall. intros line Hin.
       apply negb_true_iff. apply String.eqb_neq.
       assert (Hin' : In line (map data_line ps)).
       { destruct terminated.
         - now rewrite removelast_last in Hin.
         - rewrite app_nil_r in Hin. now apply In_removelast. }
       apply in_map_iff in Hin' as (p & <- & Hp).
       destruct (Forall2_In_left _ _ _ _ Hps Hp) as (t & _ & Ht).
       now apply (carries_text_not_terminator p t). }
  rewrite Hc, process_lines_data_lines, Hlines.
  rewrite (process_lines_texts ps ts _ req w Hps).
  rewrite fold_left_app.
  destruct terminated; [|reflexivity].
  cbn [fold_left]. unfold terminator.
  now rewrite process_lines_terminator.
Qed.

Lemma stream_texts_in_order_witness :
  processGeminiStream (Some (map Chunk Shell.text_stream)) new_writer
    Sample.hello_request
  = close
      (fold_left write
         (map (fun t => record_of (text_delta (VStr t))) ["Hello"; " there"]
          ++ [record_of message_stop])%list
         new_writer).
Proof.
  apply (stream_texts_in_order Shell.text_stream
           [Sample.chunk_1; Sample.chunk_2] ["Hello"; " there"] true).
  - vm_compute. reflexivity.
  - repeat constructor; unfold carries_text, first_choice; chunk_shape.
Defined.

(** ** A read that fails *)

(** X26. When a read of the backend's body fails, what was written for the
    reads before it stays, one [error] record is appended, and the writer
    is closed: the record says nothing of what went wrong, and the reads
    after the failure are not looked at. Without a body the stream is that
    one record. *)
Theorem read_failure_appends_error (texts : list string) (e : exn)
  (after : list read) (req : AnthropicRequest.t) (w : Writer) :
  written
    (processGeminiStream (Some (map Chunk texts ++ Rejected e :: after)%list)
       w req)
  = (written (processGeminiStream (Some (map Chunk texts)) w req)
     ++ [record_of error_event])%list /\
  closed
    (processGeminiStream (Some (map Chunk texts ++ Rejected e :: after)%list)
       w req) = true /\
  processGeminiStream None w req = close (write w (record_of error_event)).
Proof.
  split; [|split; [apply processGeminiStream_closes | reflexivity]].
  unfold processGeminiStream.
  rewrite read_loop_chunks, read_loop_all_chunks. reflexivity.
Qed.
